(** * Compliance scheduling engine: due-date calculator and task generator

    A shallow embedding of
    - [apps/api/src/services/dueDateCalculator.ts] (class [DueDateCalculator]),
    - [TaskController.generateTasks] of the task controller,
    together with the part of the JavaScript [Date] object these two use,
    and of what stands around them in the API:
    - [middleware/errorHandler.ts] (the error classes and [errorHandler]),
    - [middleware/rbac.ts] (the role table, the permission checks and the
      guards),
    - [middleware/tenantContext.ts] (the [req.user] a request runs with),
    - [TaskController.deleteTask], [assignTask] and [addChecklistItem],
    - the guarded routes [POST /generate] and [DELETE /:id] of
      [routes/tasks.ts].

    Conventions of the embedding.
    - A [Date] is its time value in milliseconds, read in the server's local
      time zone, which is taken to have a constant UTC offset (as IST has):
      every local day lasts [msPerDay] milliseconds.  Time values are
      unbounded integers; the clipping of ECMAScript time values to
      +-8.64e15 ms ("Invalid Date") is outside the model.
    - Numeric rule fields are integers; a field that is missing, [null] or
      [undefined] is [None].
    - [while] loops run on fuel: [OutOfFuel] stands for a loop that did not
      finish within the given number of iterations.
    - Exceptions are the [Throw] outcome of the result type [res]. *)

From stdpp Require Import base tactics option list gmap strings pretty.
From Stdlib Require Import ZArith Lia.

Local Open Scope Z_scope.

(** ** Outcomes: value, exception, or a loop that ran out of fuel *)

Inductive Exn : Type :=
| NotFoundError (message : string)
| PrismaClientKnownRequestError (code : string)
| Error (message : string).

Inductive res (A : Type) : Type :=
| Ok (a : A)
| Throw (e : Exn)
| OutOfFuel.

Arguments Ok {A} a.
Arguments Throw {A} e.
Arguments OutOfFuel {A}.

Global Instance res_ret : MRet res := fun A a => Ok a.

Global Instance res_bind : MBind res := fun A B k m =>
  match m with
  | Ok a => k a
  | Throw e => Throw e
  | OutOfFuel => OutOfFuel
  end.

Fixpoint mapM {A B : Type} (f : A -> res B) (l : list A) : res (list B) :=
  match l with
  | [] => Ok []
  | a :: l' => b ← f a; bs ← mapM f l'; Ok (b :: bs)
  end.

(** [while (cond(s)) s = body(s)], at most [fuel] iterations of the body. *)
Fixpoint while {S : Type} (fuel : nat) (cond : S -> bool) (body : S -> S)
    (s : S) : res S :=
  if cond s then
    match fuel with
    | O => OutOfFuel
    | Datatypes.S fuel' => while fuel' cond body (body s)
    end
  else Ok s.

(** ** The JavaScript Date object (ECMAScript, "Date Objects") *)

Module JSDate.

Definition Date : Type := Z.

Definition msPerDay : Z := 86400000.

Definition Day (t : Z) : Z := t / msPerDay.
Definition TimeWithinDay (t : Z) : Z := t mod msPerDay.

Definition DaysInYear (y : Z) : Z :=
  if negb (y mod 4 =? 0) then 365
  else if negb (y mod 100 =? 0) then 366
  else if negb (y mod 400 =? 0) then 365
  else 366.

Definition DayFromYear (y : Z) : Z :=
  365 * (y - 1970) + (y - 1969) / 4 - (y - 1901) / 100 + (y - 1601) / 400.

(** The year [y] with [DayFromYear y <= d < DayFromYear (y + 1)]: an
    estimate from the mean year length, corrected by one. *)
Definition YearFromDay (d : Z) : Z :=
  let y := 1970 + (400 * d) / 146097 in
  if d <? DayFromYear y then y - 1
  else if DayFromYear (y + 1) <=? d then y + 1
  else y.

(** [InLeapYear] as a number, 0 or 1. *)
Definition LeapOf (y : Z) : Z := if DaysInYear y =? 366 then 1 else 0.

Definition DayWithinYear (d : Z) : Z := d - DayFromYear (YearFromDay d).

Definition MonthFromDay (d : Z) : Z :=
  let w := DayWithinYear d in
  let L := LeapOf (YearFromDay d) in
  if w <? 31 then 0
  else if w <? 59 + L then 1
  else if w <? 90 + L then 2
  else if w <? 120 + L then 3
  else if w <? 151 + L then 4
  else if w <? 181 + L then 5
  else if w <? 212 + L then 6
  else if w <? 243 + L then 7
  else if w <? 273 + L then 8
  else if w <? 304 + L then 9
  else if w <? 334 + L then 10
  else 11.

Definition DateFromDay (d : Z) : Z :=
  let w := DayWithinYear d in
  let L := LeapOf (YearFromDay d) in
  match MonthFromDay d with
  | 0 => w + 1
  | 1 => w - 30
  | 2 => w - 58 - L
  | 3 => w - 89 - L
  | 4 => w - 119 - L
  | 5 => w - 150 - L
  | 6 => w - 180 - L
  | 7 => w - 211 - L
  | 8 => w - 242 - L
  | 9 => w - 272 - L
  | 10 => w - 303 - L
  | _ => w - 333 - L
  end.

Definition WeekDay (d : Z) : Z := (d + 4) mod 7.

(** Day within the year of the first day of month [m] (0 = January). *)
Definition MonthStart (m L : Z) : Z :=
  match m with
  | 0 => 0
  | 1 => 31
  | 2 => 59 + L
  | 3 => 90 + L
  | 4 => 120 + L
  | 5 => 151 + L
  | 6 => 181 + L
  | 7 => 212 + L
  | 8 => 243 + L
  | 9 => 273 + L
  | 10 => 304 + L
  | _ => 334 + L
  end.

Definition DaysInMonth (y m : Z) : Z :=
  match m with
  | 1 => 28 + LeapOf y
  | 3 | 5 | 8 | 10 => 30
  | _ => 31
  end.

(** [MakeDay(year, month, date)]: month and date may lie outside their
    calendar ranges and carry over. *)
Definition MakeDay (year month date : Z) : Z :=
  let ym := year + month / 12 in
  let mn := month mod 12 in
  DayFromYear ym + MonthStart mn (LeapOf ym) + date - 1.

Definition MakeDate (day time : Z) : Z := day * msPerDay + time.

(** The constructor reads a year from 0 to 99 as 1900 + year. *)
Definition fullYear (y : Z) : Z :=
  if (0 <=? y) && (y <=? 99) then 1900 + y else y.

(** [new Date(year, month, date)] *)
Definition newDate (year month date : Z) : Date :=
  MakeDate (MakeDay (fullYear year) month date) 0.

Definition getFullYear (t : Date) : Z := YearFromDay (Day t).
Definition getMonth (t : Date) : Z := MonthFromDay (Day t).
Definition getDate (t : Date) : Z := DateFromDay (Day t).
Definition getDay (t : Date) : Z := WeekDay (Day t).

(** [t.setDate(dt)] keeps the time of day. *)
Definition setDate (t : Date) (dt : Z) : Date :=
  MakeDate (MakeDay (getFullYear t) (getMonth t) dt) (TimeWithinDay t).

(** [t.toDateString()], e.g. "Mon Jan 26 2026", as the four fields it
    prints: two dates print the same string exactly when the fields agree. *)
Definition toDateString (t : Date) : Z * Z * Z * Z :=
  (getDay t, getMonth t, getDate t, getFullYear t).

Definition toDateString_eqb (a b : Date) : bool :=
  bool_decide (toDateString a = toDateString b).

End JSDate.

Import JSDate.

(** ** Data model (Prisma rows as the two components read them) *)

Inductive Periodicity : Type :=
| MONTHLY | QUARTERLY | HALF_YEARLY | YEARLY | WEEKLY | DAILY | ONE_TIME
| EVENT_BASED
| OtherPeriodicity (tag : string).

(** [dueDateRules] is a JSON object; these are the four keys the calculator
    reads.  [specificDate] holds the date [new Date(rules.specificDate)]
    parses to. *)
Record DueDateRules : Type := {
  dueDay : option Z;
  dueMonth : option Z;
  dayOfWeek : option Z;
  specificDate : option Date
}.

Module Compliance.
Record t : Type := {
  id : string;
  name : string;
  description : option string;
  category : string;
  periodicity : Periodicity;
  dueDateRules : option DueDateRules;
  entityTypes : list string;
  isActive : bool
}.
End Compliance.

Module IndianHoliday.
Record t : Type := {
  date : Date;
  name : string;
  isNational : bool
}.
End IndianHoliday.

(** ** dueDateCalculator.ts *)

Module DueDateCalculator.

(** [v || null] and [v || d] on a number that may be missing: 0 is falsy. *)
Definition orNull (v : option Z) : option Z :=
  match v with
  | Some 0 => None
  | _ => v
  end.

Definition orElse (v : option Z) (d : Z) : Z :=
  match v with
  | Some 0 | None => d
  | Some n => n
  end.

Definition extractDueDayFromRules (rules : option DueDateRules) : option Z :=
  match rules with
  | None => None
  | Some r => orNull (dueDay r)
  end.

Definition extractDueMonthFromRules (rules : option DueDateRules) : option Z :=
  match rules with
  | None => None
  | Some r => orNull (dueMonth r)
  end.

Definition extractDayOfWeekFromRules (rules : option DueDateRules) : option Z :=
  match rules with
  | None => None
  | Some r => orNull (dayOfWeek r)
  end.

Definition extractSpecificDateFromRules (rules : option DueDateRules)
    : option Date :=
  match rules with
  | None => None
  | Some r => specificDate r
  end.

Definition calculateMonthlyDueDates (compliance : Compliance.t) (year : Z)
    : list Date :=
  let dueDay :=
    orElse (extractDueDayFromRules (Compliance.dueDateRules compliance)) 15 in
  map (fun month =>
         let dueDate := newDate year month dueDay in
         if negb (getMonth dueDate =? month) then setDate dueDate 0
         else dueDate)
      (seqZ 0 12).

Definition calculateQuarterlyDueDates (compliance : Compliance.t) (year : Z)
    : list Date :=
  let dueDay :=
    orElse (extractDueDayFromRules (Compliance.dueDateRules compliance)) 15 in
  let quarterEndMonths := [3; 6; 9; 0] in
  map (fun month =>
         let dueYear := if month =? 0 then year + 1 else year in
         newDate dueYear month dueDay)
      quarterEndMonths.

Definition calculateHalfYearlyDueDates (compliance : Compliance.t) (year : Z)
    : list Date :=
  let dueDay :=
    orElse (extractDueDayFromRules (Compliance.dueDateRules compliance)) 15 in
  [newDate year 9 dueDay; newDate (year + 1) 3 dueDay].

Definition calculateYearlyDueDates (compliance : Compliance.t) (year : Z)
    : list Date :=
  let dueDay :=
    orElse (extractDueDayFromRules (Compliance.dueDateRules compliance)) 15 in
  let dueMonth :=
    orElse (extractDueMonthFromRules (Compliance.dueDateRules compliance)) 3 in
  [newDate year dueMonth dueDay].

Definition calculateWeeklyDueDates (fuel : nat) (compliance : Compliance.t)
    (year : Z) : res (list Date) :=
  let dayOfWeek :=
    orElse (extractDayOfWeekFromRules (Compliance.dueDateRules compliance)) 1 in
  let startDate := newDate year 0 1 in
  let endDate := newDate year 11 31 in
  currentDate ←
    while fuel (fun cur => negb (getDay cur =? dayOfWeek))
               (fun cur => setDate cur (getDate cur + 1)) startDate;
  st ←
    while fuel (fun st : Date * list Date => fst st <=? endDate)
               (fun st => (setDate (fst st) (getDate (fst st) + 7),
                           snd st ++ [fst st]))
               (currentDate, []);
  Ok (snd st).

Definition calculateDailyDueDates (fuel : nat) (compliance : Compliance.t)
    (year : Z) : res (list Date) :=
  let startDate := newDate year 0 1 in
  let endDate := newDate year 11 31 in
  st ←
    while fuel (fun st : Date * list Date => fst st <=? endDate)
               (fun st =>
                  (setDate (fst st) (getDate (fst st) + 1),
                   if negb (getDay (fst st) =? 0) && negb (getDay (fst st) =? 6)
                   then snd st ++ [fst st] else snd st))
               (startDate, []);
  Ok (snd st).

Definition calculateOneTimeDueDates (compliance : Compliance.t) (year : Z)
    : list Date :=
  match extractSpecificDateFromRules (Compliance.dueDateRules compliance) with
  | Some specificDate =>
      if getFullYear specificDate =? year then [specificDate] else []
  | None => []
  end.

(** The [indianHolidays] field: a [Map] from [year.toString()] to the
    holidays of that year. *)
Definition holidaysOfYear (year : Z) : list IndianHoliday.t :=
  [ IndianHoliday.Build_t (newDate year 0 26) "Republic Day" true;
    IndianHoliday.Build_t (newDate year 7 15) "Independence Day" true;
    IndianHoliday.Build_t (newDate year 9 2) "Gandhi Jayanti" true;
    IndianHoliday.Build_t (newDate year 2 8) "Holi" false;
    IndianHoliday.Build_t (newDate year 3 14) "Ram Navami" false;
    IndianHoliday.Build_t (newDate year 7 19) "Janmashtami" false;
    IndianHoliday.Build_t (newDate year 9 24) "Dussehra" false;
    IndianHoliday.Build_t (newDate year 10 12) "Diwali" false;
    IndianHoliday.Build_t (newDate year 11 25) "Christmas" true ].

(** [currentYear] is [new Date().getFullYear()] when the calculator is
    constructed. *)
Definition initializeHolidays (currentYear : Z)
    : gmap string (list IndianHoliday.t) :=
  foldl (fun m year => <[pretty year := holidaysOfYear year]> m) ∅
        (seqZ currentYear 3).

Section Instance.

Variable indianHolidays : gmap string (list IndianHoliday.t).

Definition getHolidays (year : Z) : list IndianHoliday.t :=
  default [] (indianHolidays !! pretty year).

Definition isHoliday (date : Date) : bool :=
  let yearKey := pretty (getFullYear date) in
  let holidays := default [] (indianHolidays !! yearKey) in
  existsb (fun holiday =>
             toDateString_eqb (IndianHoliday.date holiday) date)
          holidays.

Definition adjustForHolidaysAndWeekends (fuel : nat) (date : Date)
    : res Date :=
  let nextDay := fun d : Date => setDate d (getDate d + 1) in
  adjustedDate ←
    while fuel (fun d => (getDay d =? 0) || (getDay d =? 6)) nextDay date;
  let yearKey := pretty (getFullYear adjustedDate) in
  let holidays := default [] (indianHolidays !! yearKey) in
  let isHoliday :=
    existsb (fun holiday =>
               toDateString_eqb (IndianHoliday.date holiday) adjustedDate)
            holidays in
  if isHoliday then
    while fuel
          (fun d => (getDay d =? 0) || (getDay d =? 6) ||
                    existsb (fun h =>
                               toDateString_eqb (IndianHoliday.date h) d)
                            holidays)
          nextDay (nextDay adjustedDate)
  else Ok adjustedDate.

Definition getNextBusinessDay (fuel : nat) (date : Date) : res Date :=
  adjustForHolidaysAndWeekends fuel date.

End Instance.

(** The private methods [calculateDueDates] calls inside its [try]. *)
Record Methods : Type := {
  monthly : Compliance.t -> Z -> res (list Date);
  quarterly : Compliance.t -> Z -> res (list Date);
  halfYearly : Compliance.t -> Z -> res (list Date);
  yearly : Compliance.t -> Z -> res (list Date);
  weekly : Compliance.t -> Z -> res (list Date);
  daily : Compliance.t -> Z -> res (list Date);
  oneTime : Compliance.t -> Z -> res (list Date);
  adjust : Date -> res Date
}.

(** The [switch] on the periodicity. *)
Definition rawDueDates (M : Methods) (compliance : Compliance.t) (year : Z)
    : res (list Date) :=
  match Compliance.periodicity compliance with
  | MONTHLY => monthly M compliance year
  | QUARTERLY => quarterly M compliance year
  | HALF_YEARLY => halfYearly M compliance year
  | YEARLY => yearly M compliance year
  | WEEKLY => weekly M compliance year
  | DAILY => daily M compliance year
  | ONE_TIME => oneTime M compliance year
  | EVENT_BASED => Ok []
  | OtherPeriodicity _ => Ok []
  end.

(** The body of the [try] block. *)
Definition tryBlock (M : Methods) (compliance : Compliance.t) (year : Z)
    : res (list Date) :=
  dueDates ← rawDueDates M compliance year;
  mapM (adjust M) dueDates.

(** [try { ... } catch (error) { logger.error(...); return []; }] *)
Definition calculateDueDatesWith (M : Methods) (compliance : Compliance.t)
    (year : Z) : res (list Date) :=
  match tryBlock M compliance year with
  | Throw _ => Ok []
  | r => r
  end.

Definition methods (fuel : nat)
    (indianHolidays : gmap string (list IndianHoliday.t)) : Methods := {|
  monthly := fun c y => Ok (calculateMonthlyDueDates c y);
  quarterly := fun c y => Ok (calculateQuarterlyDueDates c y);
  halfYearly := fun c y => Ok (calculateHalfYearlyDueDates c y);
  yearly := fun c y => Ok (calculateYearlyDueDates c y);
  weekly := calculateWeeklyDueDates fuel;
  daily := calculateDailyDueDates fuel;
  oneTime := fun c y => Ok (calculateOneTimeDueDates c y);
  adjust := adjustForHolidaysAndWeekends indianHolidays fuel
|}.

Definition calculateDueDates (fuel : nat)
    (indianHolidays : gmap string (list IndianHoliday.t))
    (compliance : Compliance.t) (year : Z) : res (list Date) :=
  calculateDueDatesWith (methods fuel indianHolidays) compliance year.

End DueDateCalculator.

Import DueDateCalculator.

(** ** Business days and plain years *)

Module BusinessDay.

(** A date is listed in a holiday list when some entry prints the same
    date string. *)
Definition listed (holidays : list IndianHoliday.t) (d : Date) : bool :=
  existsb (fun h => toDateString_eqb (IndianHoliday.date h) d) holidays.

(** Not a Saturday, not a Sunday, and not listed for its own year. *)
Definition isBusinessDay (indianHolidays : gmap string (list IndianHoliday.t))
    (d : Date) : Prop :=
  getDay d <> 0 /\ getDay d <> 6 /\ isHoliday indianHolidays d = false.

(** Days within the year of the nine listed holidays. *)
Definition holidayOffset (L o : Z) : Prop :=
  o = 25 \/ o = 226 + L \/ o = 274 + L \/ o = 66 + L \/ o = 103 + L \/
  o = 230 + L \/ o = 296 + L \/ o = 315 + L \/ o = 358 + L.

(** A date outside the years 0 to 99, which [new Date(year, ...)] reads
    as 1900 to 1999. *)
Definition plainYear (d : Date) : Prop := ~ (0 <= getFullYear d <= 99).

End BusinessDay.

Import BusinessDay.

(** ** TaskController.generateTasks *)

Module Entity.
Record t : Type := {
  id : string;
  tenantId : string;
  clientId : string;
  entityType : string;
  legalName : string
}.
End Entity.

Module Task.
(** A row of the task table, with the columns [generateTasks] writes or
    filters on. *)
Record t : Type := {
  tenantId : string;
  clientId : string;
  entityId : string;
  complianceId : option string;
  title : string;
  description : option string;
  type : string;
  dueDate : Date;
  priority : string;
  createdBy : string;
  tags : list string
}.
End Task.

Module AuditLogData.
Record t : Type := {
  tenantId : string;
  userId : string;
  action : string;
  entityType : string;
  entityId : string;
  year : Z;
  complianceIds : option (list string);
  tasksCreated : Z
}.
End AuditLogData.

Module User.
Record t : Type := {
  id : string;
  tenantId : string
}.
End User.

Module Request.
Record t : Type := {
  user : option User.t;
  entityId : string;
  year : option Z;
  complianceIds : option (list string)
}.
End Request.

Module Response.
Record t : Type := {
  status : Z;
  success : bool;
  message : string;
  tasksCreated : Z
}.
End Response.

Module TaskController.

(** The database the controller reads and writes through Prisma. *)
Record Db : Type := {
  entities : list Entity.t;
  compliances : list Compliance.t;
  tasks : list Task.t;
  auditLogs : list AuditLogData.t
}.

(** What the storage layer decides: which bulk inserts the task table
    rejects (its constraints are declared in the Prisma schema), and whether
    the audit table accepts a row. *)
Record Storage : Type := {
  rejects : list Task.t -> list Task.t -> option Exn;
  auditWritable : bool
}.

(** A task table without constraints. *)
Definition plainStorage : Storage :=
  {| rejects := fun _ _ => None; auditWritable := true |}.

(** [prisma.entity.findFirst({ where: { id, tenantId } })] *)
Definition findEntity (db : Db) (entityId tenantId : string)
    : option Entity.t :=
  find (fun e => bool_decide (Entity.id e = entityId) &&
                 bool_decide (Entity.tenantId e = tenantId))
       (entities db).

(** [prisma.compliance.findMany({ where: { id: { in }, isActive: true } })] *)
Definition findCompliancesByIds (db : Db) (complianceIds : list string)
    : list Compliance.t :=
  filter (fun c => Compliance.id c ∈ complianceIds /\
                   Compliance.isActive c = true)
         (compliances db).

(** [prisma.compliance.findMany({ where: { isActive: true,
    entityTypes: { has: entityType } } })] *)
Definition findCompliancesByEntityType (db : Db) (entityType : string)
    : list Compliance.t :=
  filter (fun c => Compliance.isActive c = true /\
                   entityType ∈ Compliance.entityTypes c)
         (compliances db).

Definition applicableCompliances (db : Db) (entity : Entity.t)
    (complianceIds : option (list string)) : list Compliance.t :=
  match complianceIds with
  | Some (i :: ids) => findCompliancesByIds db (i :: ids)
  | _ => findCompliancesByEntityType db (Entity.entityType entity)
  end.

(** The [dueDate: { gte, lt }] filter: the calendar month of [dueDate]. *)
Definition inMonthOf (dueDate : Date) (t : Date) : bool :=
  (newDate (getFullYear dueDate) (getMonth dueDate) 1 <=? t) &&
  (t <? newDate (getFullYear dueDate) (getMonth dueDate + 1) 1).

(** [prisma.task.findFirst({ where: { tenantId, entityId, complianceId,
    dueDate: { gte, lt } } })] *)
Definition findExistingTask (db : Db) (tenantId entityId complianceId : string)
    (dueDate : Date) : option Task.t :=
  find (fun t => bool_decide (Task.tenantId t = tenantId) &&
                 bool_decide (Task.entityId t = entityId) &&
                 bool_decide (Task.complianceId t = Some complianceId) &&
                 inMonthOf dueDate (Task.dueDate t))
       (tasks db).

Definition newTask (user : User.t) (entity : Entity.t) (entityId : string)
    (compliance : Compliance.t) (dueDate : Date) : Task.t := {|
  Task.tenantId := User.tenantId user;
  Task.clientId := Entity.clientId entity;
  Task.entityId := entityId;
  Task.complianceId := Some (Compliance.id compliance);
  Task.title := Compliance.name compliance +:+ " - " +:+ Entity.legalName entity;
  Task.description := Compliance.description compliance;
  Task.type := "COMPLIANCE";
  Task.dueDate := dueDate;
  Task.priority := "MEDIUM";
  Task.createdBy := User.id user;
  Task.tags := [Compliance.category compliance; Entity.entityType entity]
|}.

(** The inner loop: the due dates of one compliance that have no task in
    their month yet. *)
Definition stageCompliance (db : Db) (user : User.t) (entity : Entity.t)
    (entityId : string) (compliance : Compliance.t) (dueDates : list Date)
    : list Task.t :=
  flat_map (fun dueDate =>
              match findExistingTask db (User.tenantId user) entityId
                      (Compliance.id compliance) dueDate with
              | None => [newTask user entity entityId compliance dueDate]
              | Some _ => []
              end)
           dueDates.

(** The outer loop over the compliances, which fills [tasksToCreate].
    [calc] is [dueDateCalculator.calculateDueDates]. *)
Fixpoint stageTasks (calc : Compliance.t -> Z -> res (list Date)) (db : Db)
    (user : User.t) (entity : Entity.t) (entityId : string) (year : Z)
    (compliances : list Compliance.t) : res (list Task.t) :=
  match compliances with
  | [] => Ok []
  | compliance :: rest =>
      dueDates ← calc compliance year;
      later ← stageTasks calc db user entity entityId year rest;
      Ok (stageCompliance db user entity entityId compliance dueDates ++ later)
  end.

(** [prisma.task.createMany({ data })]: one statement, all rows or none. *)
Definition createMany (S : Storage) (db : Db) (data : list Task.t)
    : res (Z * Db) :=
  match rejects S (tasks db) data with
  | Some e => Throw e
  | None =>
      Ok (Z.of_nat (length data),
          {| entities := entities db; compliances := compliances db;
             tasks := tasks db ++ data; auditLogs := auditLogs db |})
  end.

(** [auditService.log(data)]: a failed write is logged and swallowed. *)
Definition auditLog (S : Storage) (db : Db) (data : AuditLogData.t) : Db :=
  if auditWritable S then
    {| entities := entities db; compliances := compliances db;
       tasks := tasks db; auditLogs := auditLogs db ++ [data] |}
  else db.

(** Everything after the staging loops: the early return, the bulk insert,
    the audit event and the response. *)
Definition insertStaged (S : Storage) (req : Request.t) (user : User.t)
    (year : Z) (tasksToCreate : list Task.t) (db : Db)
    : res (Response.t * Db) :=
  match tasksToCreate with
  | [] =>
      Ok ({| Response.status := 200; Response.success := true;
             Response.message := "No new tasks to generate";
             Response.tasksCreated := 0 |}, db)
  | _ =>
      created ← createMany S db tasksToCreate;
      let count := fst created in
      let db' :=
        auditLog S (snd created)
          {| AuditLogData.tenantId := User.tenantId user;
             AuditLogData.userId := User.id user;
             AuditLogData.action := "TASKS_GENERATED";
             AuditLogData.entityType := "entity";
             AuditLogData.entityId := Request.entityId req;
             AuditLogData.year := year;
             AuditLogData.complianceIds := Request.complianceIds req;
             AuditLogData.tasksCreated := count |} in
      Ok ({| Response.status := 201; Response.success := true;
             Response.message := pretty count +:+ " tasks generated successfully";
             Response.tasksCreated := count |}, db')
  end.

(** The staging half of [generateTasks]: user and entity checks, the
    compliance query and the two loops.  [now] is the clock at the request
    ([new Date()], for the default year). *)
Definition stageRequest (calc : Compliance.t -> Z -> res (list Date))
    (now : Date) (req : Request.t) (db : Db)
    : res (User.t * Z * list Task.t) :=
  match Request.user req with
  | None => Throw (NotFoundError "User not found")
  | Some user =>
      let entityId := Request.entityId req in
      let year := default (getFullYear now) (Request.year req) in
      match findEntity db entityId (User.tenantId user) with
      | None => Throw (NotFoundError "Entity not found")
      | Some entity =>
          let compliances :=
            applicableCompliances db entity (Request.complianceIds req) in
          tasksToCreate ←
            stageTasks calc db user entity entityId year compliances;
          Ok (user, year, tasksToCreate)
      end
  end.

Definition generateTasks (calc : Compliance.t -> Z -> res (list Date))
    (S : Storage) (now : Date) (req : Request.t) (db : Db)
    : res (Response.t * Db) :=
  staged ← stageRequest calc now req db;
  insertStaged S req (fst (fst staged)) (snd (fst staged)) (snd staged) db.

(** The same call when another request inserts [others] into the task
    table after this one has run its existence checks and before its own
    bulk insert. *)
Definition generateTasksRacing (calc : Compliance.t -> Z -> res (list Date))
    (S : Storage) (now : Date) (req : Request.t) (db : Db)
    (others : list Task.t) : res (Response.t * Db) :=
  staged ← stageRequest calc now req db;
  insertStaged S req (fst (fst staged)) (snd (fst staged)) (snd staged)
    {| entities := entities db; compliances := compliances db;
       tasks := tasks db ++ others; auditLogs := auditLogs db |}.

(** The period of a task: tenant, entity, compliance, and the year and
    month of its due date.  Tasks without a compliance have none. *)
Definition periodKey (t : Task.t) : option (string * string * string * Z * Z) :=
  match Task.complianceId t with
  | Some c =>
      Some (Task.tenantId t, Task.entityId t, c,
            getFullYear (Task.dueDate t), getMonth (Task.dueDate t))
  | None => None
  end.

Definition periodKeys (ts : list Task.t)
    : list (string * string * string * Z * Z) :=
  omap periodKey ts.

(** Modelled from the spec: the Prisma schema of the task table is not
    among the sources; section 5 of the specification asks the store for a
    uniqueness constraint on (tenant, entity, compliance, period).  A bulk
    insert that would break it fails with Prisma's unique-constraint error
    P2002. *)
Definition uniquePeriodStorage : Storage :=
  {| rejects := fun existing data =>
       if bool_decide (NoDup (periodKeys (existing ++ data))) then None
       else Some (PrismaClientKnownRequestError "P2002");
     auditWritable := true |}.

End TaskController.

Import TaskController.

(** ** A small tenant, used to run the code *)

Module Sample.

Definition acme : Entity.t :=
  {| Entity.id := "e1"; Entity.tenantId := "t1"; Entity.clientId := "cl1";
     Entity.entityType := "LLP"; Entity.legalName := "Acme LLP" |}.

Definition alice : User.t := {| User.id := "u1"; User.tenantId := "t1" |}.

Definition incomeTax : Compliance.t :=
  {| Compliance.id := "c-itr"; Compliance.name := "Income tax return";
     Compliance.description := None; Compliance.category := "INCOME_TAX";
     Compliance.periodicity := YEARLY; Compliance.dueDateRules := None;
     Compliance.entityTypes := ["LLP"; "PRIVATE_LIMITED"];
     Compliance.isActive := true |}.

Definition auditReport : Compliance.t :=
  {| Compliance.id := "c-audit"; Compliance.name := "Audit report";
     Compliance.description := None; Compliance.category := "ROC_MCA";
     Compliance.periodicity := YEARLY;
     Compliance.dueDateRules :=
       Some {| dueDay := Some 30; dueMonth := Some 8; dayOfWeek := None;
               specificDate := None |};
     Compliance.entityTypes := ["PRIVATE_LIMITED"];
     Compliance.isActive := true |}.

Definition retired : Compliance.t :=
  {| Compliance.id := "c-old"; Compliance.name := "Service tax return";
     Compliance.description := None; Compliance.category := "SERVICE_TAX";
     Compliance.periodicity := YEARLY; Compliance.dueDateRules := None;
     Compliance.entityTypes := ["LLP"]; Compliance.isActive := false |}.

Definition weeklyReturn : Compliance.t :=
  {| Compliance.id := "c-week"; Compliance.name := "Weekly return";
     Compliance.description := None; Compliance.category := "OTHER";
     Compliance.periodicity := WEEKLY; Compliance.dueDateRules := None;
     Compliance.entityTypes := ["LLP"]; Compliance.isActive := true |}.

Definition db0 : Db :=
  {| entities := [acme]; compliances := [incomeTax; auditReport; retired];
     tasks := []; auditLogs := [] |}.

Definition dbWeekly : Db :=
  {| entities := [acme]; compliances := [weeklyReturn];
     tasks := []; auditLogs := [] |}.

(** The calculator constructed in 2025, with 366 iterations per loop. *)
Definition calculator : Compliance.t -> Z -> res (list Date) :=
  calculateDueDates 366 (initializeHolidays 2025).

Definition now : Date := newDate 2025 5 2.

Definition request : Request.t :=
  {| Request.user := Some alice; Request.entityId := "e1";
     Request.year := Some 2025; Request.complianceIds := None |}.

Definition requestByIds : Request.t :=
  {| Request.user := Some alice; Request.entityId := "e1";
     Request.year := Some 2025;
     Request.complianceIds := Some ["c-audit"; "c-old"] |}.

End Sample.

(** ** middleware/errorHandler.ts *)

Module ErrorHandler.

(** What [instanceof] tells the handler about an error. *)
Inductive InstanceOf : Type :=
| IsZodError
| IsPrismaClientKnownRequestError
| IsPrismaClientValidationError
| IsOtherError.

(** An error object, with the properties [errorHandler] reads to choose
    the status, the code and the message of the response ([details],
    [stack] and [meta] only fill further fields of the body). *)
Record AppError : Type := {
  instanceOf : InstanceOf;
  name : string;
  message : string;
  statusCode : option Z;
  code : option string
}.

(** The errors of the task generator, as error objects.  [Exn] does not
    keep the message of a Prisma error; the handler does not read it. *)
Definition fromController (e : Exn) : AppError :=
  match e with
  | NotFoundError message =>
      {| instanceOf := IsOtherError; name := "Error"; message := message;
         statusCode := Some 404; code := Some "NOT_FOUND" |}
  | PrismaClientKnownRequestError code =>
      {| instanceOf := IsPrismaClientKnownRequestError;
         name := "PrismaClientKnownRequestError"; message := "";
         statusCode := None; code := Some code |}
  | Error message =>
      {| instanceOf := IsOtherError; name := "Error"; message := message;
         statusCode := None; code := None |}
  end.

(** The error classes of the module: subclasses of [Error] that set
    [statusCode] and [code] and leave [name] as it is. *)
Definition ValidationError (message : string) : AppError :=
  {| instanceOf := IsOtherError; name := "Error"; message := message;
     statusCode := Some 400; code := Some "VALIDATION_ERROR" |}.

Definition AuthenticationError (message : string) : AppError :=
  {| instanceOf := IsOtherError; name := "Error"; message := message;
     statusCode := Some 401; code := Some "AUTHENTICATION_ERROR" |}.

Definition AuthorizationError (message : string) : AppError :=
  {| instanceOf := IsOtherError; name := "Error"; message := message;
     statusCode := Some 403; code := Some "AUTHORIZATION_ERROR" |}.

Definition NotFoundError (message : string) : AppError :=
  {| instanceOf := IsOtherError; name := "Error"; message := message;
     statusCode := Some 404; code := Some "NOT_FOUND" |}.

Definition ConflictError (message : string) : AppError :=
  {| instanceOf := IsOtherError; name := "Error"; message := message;
     statusCode := Some 409; code := Some "CONFLICT" |}.

Definition TenantError (message : string) : AppError :=
  {| instanceOf := IsOtherError; name := "Error"; message := message;
     statusCode := Some 403; code := Some "TENANT_ERROR" |}.

(** The response: [res.status(status).json({ error: { code, message } })]. *)
Record ErrorBody : Type := {
  status : Z;
  errorCode : string;
  errorMessage : string
}.

(** Truthiness of a number and of a string that may be missing. *)
Definition truthyNumber (v : option Z) : bool :=
  match v with
  | Some n => negb (n =? 0)
  | None => false
  end.

Definition truthyString (v : option string) : bool :=
  match v with
  | Some s => negb (bool_decide (s = ""))
  | None => false
  end.

(** [isDevelopment] is [process.env.NODE_ENV === 'development']. *)
Definition errorHandler (isDevelopment : bool) (err : AppError) : ErrorBody :=
  match instanceOf err with
  | IsZodError =>
      {| status := 400; errorCode := "VALIDATION_ERROR";
         errorMessage := "Invalid input data" |}
  | IsPrismaClientKnownRequestError =>
      if bool_decide (code err = Some "P2002") then
        {| status := 409; errorCode := "UNIQUE_CONSTRAINT_VIOLATION";
           errorMessage := "A record with this value already exists" |}
      else if bool_decide (code err = Some "P2025") then
        {| status := 404; errorCode := "RECORD_NOT_FOUND";
           errorMessage := "The requested record was not found" |}
      else if bool_decide (code err = Some "P2003") then
        {| status := 400; errorCode := "FOREIGN_KEY_CONSTRAINT";
           errorMessage := "Invalid reference to related record" |}
      else
        {| status := 500; errorCode := "DATABASE_ERROR";
           errorMessage := "A database error occurred" |}
  | IsPrismaClientValidationError =>
      {| status := 400; errorCode := "DATABASE_VALIDATION_ERROR";
         errorMessage := "Invalid data provided" |}
  | IsOtherError =>
      if truthyNumber (statusCode err) && truthyString (code err) then
        {| status := default 0 (statusCode err);
           errorCode := default "" (code err);
           errorMessage := message err |}
      else if bool_decide (name err = "JsonWebTokenError") then
        {| status := 401; errorCode := "INVALID_TOKEN";
           errorMessage := "Invalid authentication token" |}
      else if bool_decide (name err = "TokenExpiredError") then
        {| status := 401; errorCode := "TOKEN_EXPIRED";
           errorMessage := "Authentication token has expired" |}
      else if bool_decide (name err = "MulterError") then
        if bool_decide (code err = Some "LIMIT_FILE_SIZE") then
          {| status := 400; errorCode := "FILE_TOO_LARGE";
             errorMessage := "File size exceeds the maximum allowed limit" |}
        else
          {| status := 400; errorCode := "FILE_UPLOAD_ERROR";
             errorMessage := "File upload failed" |}
      else
        {| status := if truthyNumber (statusCode err)
                     then default 0 (statusCode err) else 500;
           errorCode := "INTERNAL_SERVER_ERROR";
           errorMessage := if isDevelopment then message err
                           else "An unexpected error occurred" |}
  end.

(** A middleware either calls [next()] or throws. *)
Inductive Guard : Type :=
| Next
| Thrown (err : AppError).

(** A handler that returns a value or throws an error object. *)
Inductive Outcome (A : Type) : Type :=
| Done (a : A)
| Raised (err : AppError).

Arguments Done {A} a.
Arguments Raised {A} err.

End ErrorHandler.

(** ** middleware/rbac.ts *)

Module AuthUser.
(** [req.user], as [AuthenticatedRequest] declares it. *)
Record t : Type := {
  id : string;
  tenantId : string;
  email : string;
  roles : list string;
  permissions : list string;
  isAdmin : bool
}.
End AuthUser.

Module Rbac.

Module PERMISSIONS.
Definition TENANT_READ : string := "tenant:read".
Definition TENANT_WRITE : string := "tenant:write".
Definition TENANT_DELETE : string := "tenant:delete".
Definition USER_READ : string := "user:read".
Definition USER_WRITE : string := "user:write".
Definition USER_DELETE : string := "user:delete".
Definition USER_INVITE : string := "user:invite".
Definition CLIENT_READ : string := "client:read".
Definition CLIENT_WRITE : string := "client:write".
Definition CLIENT_DELETE : string := "client:delete".
Definition ENTITY_READ : string := "entity:read".
Definition ENTITY_WRITE : string := "entity:write".
Definition ENTITY_DELETE : string := "entity:delete".
Definition TASK_READ : string := "task:read".
Definition TASK_WRITE : string := "task:write".
Definition TASK_DELETE : string := "task:delete".
Definition TASK_ASSIGN : string := "task:assign".
Definition TASK_APPROVE : string := "task:approve".
Definition DOCUMENT_READ : string := "document:read".
Definition DOCUMENT_WRITE : string := "document:write".
Definition DOCUMENT_DELETE : string := "document:delete".
Definition COMPLIANCE_READ : string := "compliance:read".
Definition COMPLIANCE_WRITE : string := "compliance:write".
Definition NOTIFICATION_READ : string := "notification:read".
Definition NOTIFICATION_WRITE : string := "notification:write".
Definition NOTIFICATION_DELETE : string := "notification:delete".
Definition REPORT_READ : string := "report:read".
Definition REPORT_EXPORT : string := "report:export".
Definition AUDIT_READ : string := "audit:read".
Definition SYSTEM_ADMIN : string := "system:admin".
End PERMISSIONS.

Import PERMISSIONS.

(** The object literal [ROLE_PERMISSIONS], as its list of entries. *)
Definition ROLE_PERMISSIONS : list (string * list string) :=
  [ ("OWNER",
     [ TENANT_READ; TENANT_WRITE; TENANT_DELETE;
       USER_READ; USER_WRITE; USER_DELETE; USER_INVITE;
       CLIENT_READ; CLIENT_WRITE; CLIENT_DELETE;
       ENTITY_READ; ENTITY_WRITE; ENTITY_DELETE;
       TASK_READ; TASK_WRITE; TASK_DELETE; TASK_ASSIGN; TASK_APPROVE;
       DOCUMENT_READ; DOCUMENT_WRITE; DOCUMENT_DELETE;
       COMPLIANCE_READ; COMPLIANCE_WRITE;
       NOTIFICATION_READ; NOTIFICATION_WRITE;
       REPORT_READ; REPORT_EXPORT;
       AUDIT_READ ]);
    ("ADMIN",
     [ USER_READ; USER_WRITE; USER_INVITE;
       CLIENT_READ; CLIENT_WRITE; CLIENT_DELETE;
       ENTITY_READ; ENTITY_WRITE; ENTITY_DELETE;
       TASK_READ; TASK_WRITE; TASK_DELETE; TASK_ASSIGN; TASK_APPROVE;
       DOCUMENT_READ; DOCUMENT_WRITE; DOCUMENT_DELETE;
       COMPLIANCE_READ; COMPLIANCE_WRITE;
       NOTIFICATION_READ; NOTIFICATION_WRITE;
       REPORT_READ; REPORT_EXPORT;
       AUDIT_READ ]);
    ("MANAGER",
     [ CLIENT_READ; CLIENT_WRITE;
       ENTITY_READ; ENTITY_WRITE;
       TASK_READ; TASK_WRITE; TASK_ASSIGN; TASK_APPROVE;
       DOCUMENT_READ; DOCUMENT_WRITE;
       COMPLIANCE_READ;
       NOTIFICATION_READ; NOTIFICATION_WRITE;
       REPORT_READ; REPORT_EXPORT ]);
    ("STAFF",
     [ CLIENT_READ; ENTITY_READ;
       TASK_READ; TASK_WRITE;
       DOCUMENT_READ; DOCUMENT_WRITE;
       COMPLIANCE_READ; NOTIFICATION_READ; REPORT_READ ]);
    ("CLIENT",
     [ TASK_READ; DOCUMENT_READ; DOCUMENT_WRITE; NOTIFICATION_READ ]);
    ("AUDITOR",
     [ CLIENT_READ; ENTITY_READ; TASK_READ; DOCUMENT_READ;
       COMPLIANCE_READ; REPORT_READ; AUDIT_READ ]) ].

(** [ROLE_PERMISSIONS[key]].  The keys the code looks up are upper-cased
    role names, which are no property names of [Object.prototype]. *)
Definition rolePermissions (key : string) : option (list string) :=
  snd <$> find (fun entry => bool_decide (fst entry = key)) ROLE_PERMISSIONS.

(** [set.add(x)] on a [Set] in insertion order. *)
Definition setAdd (set : list string) (x : string) : list string :=
  if bool_decide (x ∈ set) then set else set ++ [x].

(** The step both permission loops share: add what an item grants, if it
    grants anything. *)
Definition addGranted {A : Type} (granted : A -> option (list string))
    (set : list string) (item : A) : list string :=
  match granted item with
  | Some permissions => foldl setAdd set permissions
  | None => set
  end.

(** [array.join(separator)] *)
Fixpoint join (separator : string) (array : list string) : string :=
  match array with
  | [] => ""
  | [x] => x
  | x :: rest => x +:+ separator +:+ join separator rest
  end.

Section Roles.

(** [String.prototype.toUpperCase]. *)
Variable toUpperCase : string -> string.

(** [userPermissions] is optional: [None] is [undefined]. *)
Definition getUserPermissions (userRoles : list string)
    (userPermissions : option (list string)) : list string :=
  if bool_decide ("*" ∈ default [] userPermissions) then ["*"]
  else
    let permissions := foldl setAdd [] (default [] userPermissions) in
    foldl (fun permissions role =>
             match rolePermissions (toUpperCase role) with
             | Some rolePermissions => foldl setAdd permissions rolePermissions
             | None => permissions
             end)
          permissions userRoles.

Definition hasPermission (userRoles : list string) (requiredPermission : string)
    (userPermissions : option (list string)) : bool :=
  let permissions := getUserPermissions userRoles userPermissions in
  if bool_decide ("*" ∈ permissions) then true
  else bool_decide (requiredPermission ∈ permissions).

Definition hasAnyPermission (userRoles : list string)
    (requiredPermissions : list string)
    (userPermissions : option (list string)) : bool :=
  let permissions := getUserPermissions userRoles userPermissions in
  if bool_decide ("*" ∈ permissions) then true
  else existsb (fun permission => bool_decide (permission ∈ permissions))
               requiredPermissions.

Definition hasAllPermissions (userRoles : list string)
    (requiredPermissions : list string)
    (userPermissions : option (list string)) : bool :=
  let permissions := getUserPermissions userRoles userPermissions in
  if bool_decide ("*" ∈ permissions) then true
  else forallb (fun permission => bool_decide (permission ∈ permissions))
               requiredPermissions.

Definition requirePermission (permission : string) (user : option AuthUser.t)
    : ErrorHandler.Guard :=
  match user with
  | None =>
      ErrorHandler.Thrown (ErrorHandler.AuthorizationError "Authentication required")
  | Some user =>
      if negb (hasPermission (AuthUser.roles user) permission
                 (Some (AuthUser.permissions user)))
      then ErrorHandler.Thrown
             (ErrorHandler.AuthorizationError
                ("Permission required: " +:+ permission))
      else ErrorHandler.Next
  end.

Definition requireAnyPermission (permissions : list string)
    (user : option AuthUser.t) : ErrorHandler.Guard :=
  match user with
  | None =>
      ErrorHandler.Thrown (ErrorHandler.AuthorizationError "Authentication required")
  | Some user =>
      if negb (hasAnyPermission (AuthUser.roles user) permissions None)
      then ErrorHandler.Thrown
             (ErrorHandler.AuthorizationError
                ("One of these permissions required: " +:+ join ", " permissions))
      else ErrorHandler.Next
  end.

Definition requireAllPermissions (permissions : list string)
    (user : option AuthUser.t) : ErrorHandler.Guard :=
  match user with
  | None =>
      ErrorHandler.Thrown (ErrorHandler.AuthorizationError "Authentication required")
  | Some user =>
      if negb (hasAllPermissions (AuthUser.roles user) permissions None)
      then ErrorHandler.Thrown
             (ErrorHandler.AuthorizationError
                ("All these permissions required: " +:+ join ", " permissions))
      else ErrorHandler.Next
  end.

End Roles.

Definition requireRole (role : string) (user : option AuthUser.t)
    : ErrorHandler.Guard :=
  match user with
  | None =>
      ErrorHandler.Thrown (ErrorHandler.AuthorizationError "Authentication required")
  | Some user =>
      if negb (bool_decide (role ∈ AuthUser.roles user))
      then ErrorHandler.Thrown
             (ErrorHandler.AuthorizationError ("Role required: " +:+ role))
      else ErrorHandler.Next
  end.

Definition requireAnyRole (roles : list string) (user : option AuthUser.t)
    : ErrorHandler.Guard :=
  match user with
  | None =>
      ErrorHandler.Thrown (ErrorHandler.AuthorizationError "Authentication required")
  | Some user =>
      if negb (existsb (fun role => bool_decide (role ∈ AuthUser.roles user)) roles)
      then ErrorHandler.Thrown
             (ErrorHandler.AuthorizationError
                ("One of these roles required: " +:+ join ", " roles))
      else ErrorHandler.Next
  end.

Definition requireAdmin (user : option AuthUser.t) : ErrorHandler.Guard :=
  match user with
  | None =>
      ErrorHandler.Thrown (ErrorHandler.AuthorizationError "Authentication required")
  | Some user =>
      if negb (AuthUser.isAdmin user)
      then ErrorHandler.Thrown (ErrorHandler.AuthorizationError "Admin access required")
      else ErrorHandler.Next
  end.

End Rbac.

(** ** middleware/tenantContext.ts *)

Module RoleRow.
Record t : Type := {
  name : string;
  permissions : option (list string)
}.
End RoleRow.

Module UserRecord.
(** A user row with its tenant and its roles included. *)
Record t : Type := {
  id : string;
  tenantId : string;
  email : string;
  isActive : bool;
  lockedUntil : option Date;
  tenantIsActive : bool;
  roles : list RoleRow.t
}.
End UserRecord.

Module TenantContext.

Import ErrorHandler.

Definition publicRoutes : list string :=
  ["/api/auth/login"; "/api/auth/register"; "/api/health"].

(** [s.replace(pattern, replacement)] for a non-empty string pattern and
    a replacement without [$] patterns: the first occurrence is
    replaced. *)
Fixpoint replace (pattern replacement s : string) : string :=
  if String.prefix pattern s then
    replacement +:+
    String.substring (String.length pattern)
      (String.length s - String.length pattern) s
  else
    match s with
    | EmptyString => EmptyString
    | String a s' => String a (replace pattern replacement s')
    end.

(** The [req.user] object built from the user row. *)
Definition userContext (user : UserRecord.t) : AuthUser.t :=
  let allPermissions :=
    foldl (fun allPermissions role =>
             match RoleRow.permissions role with
             | Some permissions => foldl Rbac.setAdd allPermissions permissions
             | None => allPermissions
             end)
          [] (UserRecord.roles user) in
  {| AuthUser.id := UserRecord.id user;
     AuthUser.tenantId := UserRecord.tenantId user;
     AuthUser.email := UserRecord.email user;
     AuthUser.roles := RoleRow.name <$> UserRecord.roles user;
     AuthUser.permissions := allPermissions;
     AuthUser.isAdmin :=
       existsb (fun role => bool_decide (RoleRow.name role = "admin") ||
                            bool_decide (RoleRow.name role = "OWNER"))
               (UserRecord.roles user) |}.

(** [tenantContext]: the value is the [req.user] it sets, [None] on a
    public route, and [Raised] stands for [next(error)].  [verify] is
    [jwt.verify] with the server's secret, giving [decoded.userId];
    [users] is the user table and [now] the clock.  The two statements
    after [req.user] is set (the session setting for row-level security
    and the [lastLoginAt] update) are taken to succeed. *)
Definition tenantContext (verify : string -> Outcome string)
    (users : list UserRecord.t) (now : Date) (path : string)
    (authorization : option string) : Outcome (option AuthUser.t) :=
  if existsb (fun route => String.prefix route path) publicRoutes then Done None
  else
    let token := replace "Bearer " "" <$> authorization in
    match token with
    | None | Some EmptyString => Raised (AuthenticationError "No token provided")
    | Some token =>
        match verify token with
        | Raised err => Raised err
        | Done userId =>
            match find (fun u => bool_decide (UserRecord.id u = userId)) users with
            | None => Raised (AuthenticationError "Invalid token")
            | Some user =>
                if negb (UserRecord.isActive user) then
                  Raised (AuthenticationError "Account is deactivated")
                else if negb (UserRecord.tenantIsActive user) then
                  Raised (TenantError "Tenant account is suspended")
                else if match UserRecord.lockedUntil user with
                        | Some lockedUntil => now <? lockedUntil
                        | None => false
                        end then
                  Raised (AuthenticationError "Account is temporarily locked")
                else Done (Some (userContext user))
            end
        end
    end.

End TenantContext.

(** ** TaskController: deleteTask, assignTask, addChecklistItem *)

Module TaskRow.
(** A row of the task table, with the columns these three methods read
    or write. *)
Record t : Type := {
  id : string;
  tenantId : string;
  title : string;
  createdBy : string;
  assigneeId : option string
}.
End TaskRow.

Module TaskChecklist.
Record t : Type := {
  taskId : string;
  title : string;
  description : option string;
  order : Z
}.
End TaskChecklist.

Module Assignee.
(** A row of the user table, as the assignee lookup reads it. *)
Record t : Type := {
  id : string;
  tenantId : string;
  isActive : bool;
  email : string
}.
End Assignee.

Module AuditEvent.
(** An audit row, with the fields these methods fill from the caller and
    the task. *)
Record t : Type := {
  tenantId : string;
  userId : string;
  action : string;
  entityType : string;
  entityId : string
}.
End AuditEvent.

Module TaskOperations.

Import ErrorHandler.

Record Store : Type := {
  tasks : list TaskRow.t;
  checklists : list TaskChecklist.t;
  users : list Assignee.t;
  auditLogs : list AuditEvent.t
}.

(** [prisma.task.findFirst({ where: { id, tenantId } })] *)
Definition findTask (st : Store) (id tenantId : string) : option TaskRow.t :=
  find (fun t => bool_decide (TaskRow.id t = id) &&
                 bool_decide (TaskRow.tenantId t = tenantId))
       (tasks st).

(** [auditService.log(data)]: a failed write is logged and swallowed. *)
Definition auditServiceLog (auditWritable : bool) (st : Store) (data : AuditEvent.t)
    : Store :=
  if auditWritable then
    {| tasks := tasks st; checklists := checklists st; users := users st;
       auditLogs := auditLogs st ++ [data] |}
  else st.

(** [deleteTask]; the value is the message of the response.
    [prisma.task.delete({ where: { id } })] removes the row with that
    primary key; rows of other tables that refer to the task are not
    part of the store. *)
Definition deleteTask (auditWritable : bool) (user : option AuthUser.t)
    (id : string) (st : Store) : Outcome (string * Store) :=
  match user with
  | None => Raised (NotFoundError "User not found")
  | Some user =>
      match findTask st id (AuthUser.tenantId user) with
      | None => Raised (NotFoundError "Task not found")
      | Some task =>
          let canDelete :=
            AuthUser.isAdmin user ||
            bool_decide (TaskRow.createdBy task = AuthUser.id user) in
          if negb canDelete then
            Raised (AuthorizationError "You can only delete tasks created by you")
          else
            let st1 :=
              {| tasks := filter (fun t => TaskRow.id t <> id) (tasks st);
                 checklists := checklists st; users := users st;
                 auditLogs := auditLogs st |} in
            let st2 :=
              auditServiceLog auditWritable st1
                {| AuditEvent.tenantId := AuthUser.tenantId user;
                   AuditEvent.userId := AuthUser.id user;
                   AuditEvent.action := "TASK_DELETED";
                   AuditEvent.entityType := "task";
                   AuditEvent.entityId := id |} in
            Done ("Task deleted successfully", st2)
      end
  end.

(** [assignTask], for a body that carries an [assigneeId]; the value is
    the updated task.  The notification goes to the mail service, which
    swallows its errors and writes nothing to the store. *)
Definition assignTask (auditWritable : bool) (user : option AuthUser.t)
    (id assigneeId : string) (st : Store) : Outcome (option TaskRow.t * Store) :=
  match user with
  | None => Raised (NotFoundError "User not found")
  | Some user =>
      match findTask st id (AuthUser.tenantId user) with
      | None => Raised (NotFoundError "Task not found")
      | Some task =>
          match find (fun u => bool_decide (Assignee.id u = assigneeId) &&
                               bool_decide (Assignee.tenantId u = AuthUser.tenantId user) &&
                               Assignee.isActive u)
                     (users st) with
          | None => Raised (ValidationError "Assignee not found")
          | Some assignee =>
              let update := fun t : TaskRow.t =>
                if bool_decide (TaskRow.id t = id) then
                  {| TaskRow.id := TaskRow.id t;
                     TaskRow.tenantId := TaskRow.tenantId t;
                     TaskRow.title := TaskRow.title t;
                     TaskRow.createdBy := TaskRow.createdBy t;
                     TaskRow.assigneeId := Some assigneeId |}
                else t in
              let st1 :=
                {| tasks := update <$> tasks st;
                   checklists := checklists st; users := users st;
                   auditLogs := auditLogs st |} in
              let updatedTask :=
                find (fun t => bool_decide (TaskRow.id t = id)) (tasks st1) in
              let st2 :=
                auditServiceLog auditWritable st1
                  {| AuditEvent.tenantId := AuthUser.tenantId user;
                     AuditEvent.userId := AuthUser.id user;
                     AuditEvent.action := "TASK_ASSIGNED";
                     AuditEvent.entityType := "task";
                     AuditEvent.entityId := id |} in
              Done (updatedTask, st2)
          end
      end
  end.

(** [prisma.taskChecklist.findFirst({ where: { taskId },
    orderBy: { order: 'desc' } })]: an item of the task with the greatest
    order. *)
Definition lastChecklist (st : Store) (taskId : string)
    : option TaskChecklist.t :=
  foldr (fun item best =>
           match best with
           | Some b =>
               if TaskChecklist.order b <? TaskChecklist.order item
               then Some item else Some b
           | None => Some item
           end)
        None
        (filter (fun item => TaskChecklist.taskId item = taskId) (checklists st)).

(** [addChecklistItem]; the value is the created item. *)
Definition addChecklistItem (user : option AuthUser.t) (id title : string)
    (description : option string) (st : Store)
    : Outcome (TaskChecklist.t * Store) :=
  match user with
  | None => Raised (NotFoundError "User not found")
  | Some user =>
      match findTask st id (AuthUser.tenantId user) with
      | None => Raised (NotFoundError "Task not found")
      | Some task =>
          let checklistItem :=
            {| TaskChecklist.taskId := id;
               TaskChecklist.title := title;
               TaskChecklist.description := description;
               TaskChecklist.order :=
                 orElse (TaskChecklist.order <$> lastChecklist st id) 0 + 1 |} in
          Done (checklistItem,
                {| tasks := tasks st;
                   checklists := checklists st ++ [checklistItem];
                   users := users st; auditLogs := auditLogs st |})
      end
  end.

End TaskOperations.

(** ** routes/tasks.ts, with the error handler of the application *)

Module TaskRoutes.

Import ErrorHandler.

(** What the client receives. *)
Inductive Reply (A : Type) : Type :=
| Sent (status : Z) (data : A)
| Failed (body : ErrorBody).

Arguments Sent {A} status data.
Arguments Failed {A} body.

(** The request [generateTasks] sees: it reads the id and the tenant of
    [req.user]. *)
Definition controllerRequest (user : option AuthUser.t) (body : Request.t)
    : Request.t :=
  {| Request.user :=
       (fun u => {| User.id := AuthUser.id u;
                    User.tenantId := AuthUser.tenantId u |}) <$> user;
     Request.entityId := Request.entityId body;
     Request.year := Request.year body;
     Request.complianceIds := Request.complianceIds body |}.

Section Routes.

Variable toUpperCase : string -> string.
Variable isDevelopment : bool.

(** [router.post('/generate', requirePermission(PERMISSIONS.TASK_WRITE),
    asyncHandler(taskController.generateTasks))]; [None] when the
    handler does not return. *)
Definition postGenerate (calc : Compliance.t -> Z -> res (list Date))
    (S : Storage) (now : Date) (user : option AuthUser.t) (body : Request.t)
    (db : Db) : option (Reply Response.t * Db) :=
  match Rbac.requirePermission toUpperCase Rbac.PERMISSIONS.TASK_WRITE user with
  | Thrown err => Some (Failed (errorHandler isDevelopment err), db)
  | Next =>
      match generateTasks calc S now (controllerRequest user body) db with
      | Ok (response, db1) => Some (Sent (Response.status response) response, db1)
      | Throw e => Some (Failed (errorHandler isDevelopment (fromController e)), db)
      | OutOfFuel => None
      end
  end.

(** [router.delete('/:id', requirePermission(PERMISSIONS.TASK_DELETE),
    asyncHandler(taskController.deleteTask))] *)
Definition deleteById (auditWritable : bool) (user : option AuthUser.t)
    (id : string) (st : TaskOperations.Store)
    : Reply string * TaskOperations.Store :=
  match Rbac.requirePermission toUpperCase Rbac.PERMISSIONS.TASK_DELETE user with
  | Thrown err => (Failed (errorHandler isDevelopment err), st)
  | Next =>
      match TaskOperations.deleteTask auditWritable user id st with
      | Done (message, st1) => (Sent 200 message, st1)
      | Raised err => (Failed (errorHandler isDevelopment err), st)
      end
  end.

End Routes.

End TaskRoutes.

(** ** Tenancy of the task table *)

Module Tenancy.

(** Every assigned task is assigned to a user of the task's own tenant. *)
Definition assignedWithinTenant (st : TaskOperations.Store) : Prop :=
  forall t a,
    t ∈ TaskOperations.tasks st -> TaskRow.assigneeId t = Some a ->
    exists u, u ∈ TaskOperations.users st /\ Assignee.id u = a /\
              Assignee.tenantId u = TaskRow.tenantId t.

(** The orders of the checklist items of a task. *)
Definition ordersOf (st : TaskOperations.Store) (taskId : string) : list Z :=
  TaskChecklist.order <$>
    filter (fun item => TaskChecklist.taskId item = taskId)
           (TaskOperations.checklists st).

End Tenancy.

(** ** An office, used to run the middleware and the task operations *)

Module SampleOffice.

(** [toUpperCase] on role names written in ASCII. *)
Definition upperChar (a : Ascii.ascii) : Ascii.ascii :=
  let n := Ascii.nat_of_ascii a in
  if (97 <=? n)%nat && (n <=? 122)%nat then Ascii.ascii_of_nat (n - 32) else a.

Fixpoint toUpperCase (s : string) : string :=
  match s with
  | EmptyString => EmptyString
  | String a s' => String (upperChar a) (toUpperCase s')
  end.

Definition staffRecord : UserRecord.t :=
  {| UserRecord.id := "u1"; UserRecord.tenantId := "t1";
     UserRecord.email := "alice@acme.example"; UserRecord.isActive := true;
     UserRecord.lockedUntil := None; UserRecord.tenantIsActive := true;
     UserRecord.roles :=
       [{| RoleRow.name := "staff"; RoleRow.permissions := Some [] |}] |}.

Definition adminRecord : UserRecord.t :=
  {| UserRecord.id := "u2"; UserRecord.tenantId := "t1";
     UserRecord.email := "bala@acme.example"; UserRecord.isActive := true;
     UserRecord.lockedUntil := None; UserRecord.tenantIsActive := true;
     UserRecord.roles :=
       [{| RoleRow.name := "ADMIN"; RoleRow.permissions := Some ["task:delete"] |}] |}.

Definition ownerRecord : UserRecord.t :=
  {| UserRecord.id := "u3"; UserRecord.tenantId := "t1";
     UserRecord.email := "chitra@acme.example"; UserRecord.isActive := true;
     UserRecord.lockedUntil := None; UserRecord.tenantIsActive := true;
     UserRecord.roles :=
       [{| RoleRow.name := "OWNER"; RoleRow.permissions := None |}] |}.


Definition staff : AuthUser.t := TenantContext.userContext staffRecord.
Definition admin : AuthUser.t := TenantContext.userContext adminRecord.
Definition owner : AuthUser.t := TenantContext.userContext ownerRecord.

(** A token is the user id it was signed for. *)
Definition verify (token : string) : ErrorHandler.Outcome string :=
  ErrorHandler.Done token.

Definition filing : TaskRow.t :=
  {| TaskRow.id := "k1"; TaskRow.tenantId := "t1";
     TaskRow.title := "File GSTR-3B"; TaskRow.createdBy := "u1";
     TaskRow.assigneeId := None |}.

Definition review : TaskRow.t :=
  {| TaskRow.id := "k2"; TaskRow.tenantId := "t1";
     TaskRow.title := "Review ledger"; TaskRow.createdBy := "u3";
     TaskRow.assigneeId := Some "u1" |}.

Definition store : TaskOperations.Store :=
  {| TaskOperations.tasks := [filing; review];
     TaskOperations.checklists :=
       [{| TaskChecklist.taskId := "k1"; TaskChecklist.title := "Collect invoices";
           TaskChecklist.description := None; TaskChecklist.order := 1 |};
        {| TaskChecklist.taskId := "k1"; TaskChecklist.title := "Reconcile";
           TaskChecklist.description := None; TaskChecklist.order := 2 |}];
     TaskOperations.users :=
       [{| Assignee.id := "u1"; Assignee.tenantId := "t1";
           Assignee.isActive := true; Assignee.email := "alice@acme.example" |};
        {| Assignee.id := "u2"; Assignee.tenantId := "t1";
           Assignee.isActive := true; Assignee.email := "bala@acme.example" |};
        {| Assignee.id := "u9"; Assignee.tenantId := "t2";
           Assignee.isActive := true; Assignee.email := "dev@other.example" |}];
     TaskOperations.auditLogs := [] |}.

End SampleOffice.

(** * Facts *)

(** ** Calendar arithmetic *)

Module JSDateFacts.

Ltac split_ltb :=
  repeat match goal with
         | |- context [?a <? ?b] => destruct (Z.ltb_spec a b); try lia
         | |- context [?a <=? ?b] => destruct (Z.leb_spec a b); try lia
         | |- context [?a =? ?b] => destruct (Z.eqb_spec a b); try lia
         end.

(** The twelve cases of a month index known to lie between 0 and 11. *)
Ltac month_cases m :=
  let Hc := fresh "Hc" in
  assert (Hc : m = 0 \/ m = 1 \/ m = 2 \/ m = 3 \/ m = 4 \/ m = 5 \/ m = 6 \/
               m = 7 \/ m = 8 \/ m = 9 \/ m = 10 \/ m = 11) by lia;
  destruct Hc as [-> | [-> | [-> | [-> | [-> | [-> | [-> | [-> | [-> | [-> | [-> | ->]]]]]]]]]]].

Lemma LeapOf_cases y : LeapOf y = 0 \/ LeapOf y = 1.
Proof. unfold LeapOf. destruct (DaysInYear y =? 366); auto. Qed.

Lemma DaysInYear_LeapOf y : DaysInYear y = 365 + LeapOf y.
Proof.
  unfold LeapOf, DaysInYear.
  destruct (y mod 4 =? 0), (y mod 100 =? 0), (y mod 400 =? 0); reflexivity.
Qed.

Lemma quarter_step y :
  (y + 1 - 1969) / 4 = (y - 1969) / 4 + (if y mod 4 =? 0 then 1 else 0).
Proof. destruct (Z.eqb_spec (y mod 4) 0); Z.div_mod_to_equations; lia. Qed.

Lemma century_step y :
  (y + 1 - 1901) / 100 = (y - 1901) / 100 + (if y mod 100 =? 0 then 1 else 0).
Proof. destruct (Z.eqb_spec (y mod 100) 0); Z.div_mod_to_equations; lia. Qed.

Lemma era_step y :
  (y + 1 - 1601) / 400 = (y - 1601) / 400 + (if y mod 400 =? 0 then 1 else 0).
Proof. destruct (Z.eqb_spec (y mod 400) 0); Z.div_mod_to_equations; lia. Qed.

Lemma DayFromYear_succ y : DayFromYear (y + 1) = DayFromYear y + DaysInYear y.
Proof.
  unfold DayFromYear, DaysInYear.
  rewrite quarter_step, century_step, era_step.
  assert (y mod 100 = 0 -> y mod 4 = 0) by (intros; Z.div_mod_to_equations; lia).
  assert (y mod 400 = 0 -> y mod 100 = 0) by (intros; Z.div_mod_to_equations; lia).
  destruct (Z.eqb_spec (y mod 4) 0), (Z.eqb_spec (y mod 100) 0),
    (Z.eqb_spec (y mod 400) 0); cbn [negb]; lia.
Qed.

Lemma DayFromYear_next y : DayFromYear (y + 1) = DayFromYear y + 365 + LeapOf y.
Proof. rewrite DayFromYear_succ, DaysInYear_LeapOf. lia. Qed.

Lemma DayFromYear_le y1 y2 : y1 <= y2 -> DayFromYear y1 <= DayFromYear y2.
Proof. unfold DayFromYear. intros. Z.div_mod_to_equations. lia. Qed.

Lemma YearFromDay_spec d :
  DayFromYear (YearFromDay d) <= d < DayFromYear (YearFromDay d + 1).
Proof.
  unfold YearFromDay. cbv zeta.
  destruct (Z.ltb_spec d (DayFromYear (1970 + 400 * d / 146097))).
  - unfold DayFromYear in *. Z.div_mod_to_equations. lia.
  - destruct (Z.leb_spec (DayFromYear (1970 + 400 * d / 146097 + 1)) d).
    + unfold DayFromYear in *. Z.div_mod_to_equations. lia.
    + lia.
Qed.

Lemma YearFromDay_unique y d :
  DayFromYear y <= d < DayFromYear (y + 1) -> YearFromDay d = y.
Proof.
  intros Hy. pose proof (YearFromDay_spec d) as Hs.
  destruct (Z.lt_trichotomy (YearFromDay d) y) as [Hlt | [Heq | Hgt]]; [| exact Heq |].
  - pose proof (DayFromYear_le (YearFromDay d + 1) y). lia.
  - pose proof (DayFromYear_le (y + 1) (YearFromDay d)). lia.
Qed.

Lemma DayWithinYear_range d :
  0 <= DayWithinYear d < 365 + LeapOf (YearFromDay d).
Proof.
  unfold DayWithinYear. pose proof (YearFromDay_spec d) as Hs.
  rewrite DayFromYear_next in Hs. lia.
Qed.

Lemma MakeDay_in_year y m dt :
  0 <= m < 12 ->
  MakeDay y m dt = DayFromYear y + MonthStart m (LeapOf y) + dt - 1.
Proof.
  intros Hm. unfold MakeDay. cbv zeta.
  rewrite (Z.div_small m 12), (Z.mod_small m 12), Z.add_0_r by lia.
  reflexivity.
Qed.

Lemma MakeDay_add y m dt k : MakeDay y m (dt + k) = MakeDay y m dt + k.
Proof. unfold MakeDay. lia. Qed.

Lemma MakeDay_next_month y m :
  0 <= m < 12 -> MakeDay y (m + 1) 1 = MakeDay y m 1 + DaysInMonth y m.
Proof.
  intros Hm. pose proof (LeapOf_cases y) as HL.
  destruct (Z.eq_dec m 11) as [-> | Hne].
  - unfold MakeDay. cbv zeta.
    change ((11 + 1) / 12) with 1. change ((11 + 1) mod 12) with 0.
    change (11 / 12) with 0. change (11 mod 12) with 11.
    rewrite !Z.add_0_r, DayFromYear_next. cbn [MonthStart DaysInMonth]. lia.
  - rewrite !MakeDay_in_year by lia.
    month_cases m; try lia;
      match goal with
      | |- context [MonthStart (?a + 1)] =>
          let v := eval vm_compute in (a + 1) in change (a + 1) with v
      end; cbn [MonthStart DaysInMonth]; lia.
Qed.

Lemma MonthStart_bounds m L :
  0 <= m < 12 -> (L = 0 \/ L = 1) ->
  0 <= MonthStart m L /\
  MonthStart m L + (match m with 1 => 28 + L | 3 | 5 | 8 | 10 => 30 | _ => 31 end)
    <= 365 + L.
Proof.
  intros Hm HL.
  month_cases m;
    cbn; lia.
Qed.

(** The calendar fields of a valid (year, month, date). *)
Lemma fields_of_MakeDay y m dt :
  0 <= m < 12 -> 1 <= dt <= DaysInMonth y m ->
  YearFromDay (MakeDay y m dt) = y /\
  MonthFromDay (MakeDay y m dt) = m /\
  DateFromDay (MakeDay y m dt) = dt.
Proof.
  intros Hm Hdt. rewrite MakeDay_in_year by lia.
  pose proof (LeapOf_cases y) as HL.
  pose proof (MonthStart_bounds m (LeapOf y) Hm HL) as [Hlo Hhi].
  assert (Hy : YearFromDay (DayFromYear y + MonthStart m (LeapOf y) + dt - 1) = y).
  { apply YearFromDay_unique. rewrite DayFromYear_next.
    unfold DaysInMonth in Hdt. lia. }
  assert (Hmo : MonthFromDay (DayFromYear y + MonthStart m (LeapOf y) + dt - 1) = m).
  { unfold MonthFromDay, DayWithinYear. rewrite Hy. cbv zeta.
    month_cases m;
      cbn [MonthStart DaysInMonth] in *; split_ltb. }
  split; [exact Hy |]. split; [exact Hmo |].
  unfold DateFromDay. rewrite Hmo. unfold DayWithinYear. rewrite Hy. cbv zeta.
  month_cases m;
    cbn [MonthStart]; lia.
Qed.

Lemma MonthFromDay_range d : 0 <= MonthFromDay d < 12.
Proof. unfold MonthFromDay. cbv zeta. split_ltb. Qed.

(** Every day number is the day of its own calendar fields. *)
Lemma MakeDay_fields d :
  MakeDay (YearFromDay d) (MonthFromDay d) (DateFromDay d) = d /\
  1 <= DateFromDay d <= DaysInMonth (YearFromDay d) (MonthFromDay d).
Proof.
  pose proof (MonthFromDay_range d) as Hm.
  rewrite MakeDay_in_year by exact Hm.
  pose proof (DayWithinYear_range d) as Hw.
  pose proof (LeapOf_cases (YearFromDay d)) as HL.
  assert (Hd : d = DayFromYear (YearFromDay d) + DayWithinYear d)
    by (unfold DayWithinYear; lia).
  unfold DateFromDay, DaysInMonth, MonthFromDay in *. cbv zeta in *.
  remember (DayWithinYear d) as w eqn:Ew.
  remember (LeapOf (YearFromDay d)) as L' eqn:EL.
  clear Ew EL. split_ltb; cbn [MonthStart]; lia.
Qed.

Lemma msPerDay_pos : 0 < msPerDay.
Proof. reflexivity. Qed.

Lemma Day_MakeDate d tod : 0 <= tod < msPerDay -> Day (MakeDate d tod) = d.
Proof.
  intros H. unfold Day, MakeDate.
  rewrite Z.add_comm, Z.div_add by (pose proof msPerDay_pos; lia).
  rewrite Z.div_small by exact H. reflexivity.
Qed.

Lemma MakeDate_Day t : MakeDate (Day t) (TimeWithinDay t) = t.
Proof.
  unfold MakeDate, Day, TimeWithinDay.
  pose proof (Z.div_mod t msPerDay) as H. pose proof msPerDay_pos. lia.
Qed.

Lemma Day_shift t k : Day (t + k * msPerDay) = Day t + k.
Proof. unfold Day. apply Z.div_add. pose proof msPerDay_pos. lia. Qed.

Lemma Day_newDate y m dt : Day (newDate y m dt) = MakeDay (fullYear y) m dt.
Proof. unfold newDate. apply Day_MakeDate. pose proof msPerDay_pos. lia. Qed.

(** [d.setDate(d.getDate() + k)] moves a date by [k] whole days. *)
Lemma setDate_shift t k : setDate t (getDate t + k) = t + k * msPerDay.
Proof.
  unfold setDate, getFullYear, getMonth, getDate.
  rewrite MakeDay_add. destruct (MakeDay_fields (Day t)) as [-> _].
  pose proof (MakeDate_Day t) as H. unfold MakeDate in *. lia.
Qed.

Lemma WeekDay_range d : 0 <= WeekDay d < 7.
Proof. unfold WeekDay. apply Z.mod_pos_bound. lia. Qed.

Lemma WeekDay_succ d :
  WeekDay (d + 1) = if WeekDay d =? 6 then 0 else WeekDay d + 1.
Proof.
  unfold WeekDay. destruct (Z.eqb_spec ((d + 4) mod 7) 6);
    Z.div_mod_to_equations; lia.
Qed.

Lemma WeekDay_week d : WeekDay (d + 7) = WeekDay d.
Proof. unfold WeekDay. Z.div_mod_to_equations. lia. Qed.

Lemma getDay_shift_week t : getDay (t + 7 * msPerDay) = getDay t.
Proof. unfold getDay. rewrite Day_shift. apply WeekDay_week. Qed.

(** Two dates print the same date string exactly when they are the same
    calendar day. *)
Lemma toDateString_eqb_Day a b :
  (toDateString_eqb a b = true) <-> (Day a = Day b).
Proof.
  unfold toDateString_eqb, toDateString, getDay, getMonth, getDate, getFullYear.
  rewrite bool_decide_eq_true. split.
  - intros H. injection H as _ Hm Hd Hy.
    destruct (MakeDay_fields (Day a)) as [<- _].
    destruct (MakeDay_fields (Day b)) as [<- _].
    rewrite Hm, Hd, Hy.
    destruct (MakeDay_fields (Day b)) as [-> _]. reflexivity.
  - intros ->. reflexivity.
Qed.

Lemma fields_of_newDate y m dt :
  0 <= m < 12 -> 1 <= dt <= DaysInMonth (fullYear y) m ->
  getFullYear (newDate y m dt) = fullYear y /\
  getMonth (newDate y m dt) = m /\
  getDate (newDate y m dt) = dt.
Proof.
  intros Hm Hdt. unfold getFullYear, getMonth, getDate.
  rewrite Day_newDate. apply fields_of_MakeDay; assumption.
Qed.

(** A day number lies in month [m] of year [y] exactly when it lies between
    the first of that month and the first of the next. *)
Lemma month_window y m d :
  0 <= m < 12 ->
  (MakeDay y m 1 <= d < MakeDay y (m + 1) 1 <->
   YearFromDay d = y /\ MonthFromDay d = m).
Proof.
  intros Hm. rewrite MakeDay_next_month by exact Hm. split.
  - intros Hd.
    assert (Hk : d = MakeDay y m (d - MakeDay y m 1 + 1)) by (unfold MakeDay; lia).
    destruct (fields_of_MakeDay y m (d - MakeDay y m 1 + 1)) as (Hy & Hmo & _);
      [exact Hm | lia |].
    rewrite <- Hk in Hy, Hmo. split; assumption.
  - intros [<- <-]. destruct (MakeDay_fields d) as [Hd Hr].
    assert (Hk : MakeDay (YearFromDay d) (MonthFromDay d) 1 =
                 d - (DateFromDay d - 1)) by (unfold MakeDay in *; lia).
    lia.
Qed.

End JSDateFacts.

(** ** Loops and outcomes *)

Module LoopFacts.

Section While.

Context {S : Type}.
Variables (cond : S -> bool) (body : S -> S).

Lemma while_false fuel s : cond s = false -> while fuel cond body s = Ok s.
Proof. intros H. destruct fuel; cbn; rewrite H; reflexivity. Qed.

Lemma while_true fuel s :
  cond s = true ->
  while (Datatypes.S fuel) cond body s = while fuel cond body (body s).
Proof. intros H. cbn. rewrite H. reflexivity. Qed.

(** A loop invariant holds on exit, where the condition is false. *)
Lemma while_invariant (P : S -> Prop) fuel s s' :
  P s -> (forall x, P x -> cond x = true -> P (body x)) ->
  while fuel cond body s = Ok s' -> P s' /\ cond s' = false.
Proof.
  intros Hs Hstep. revert s Hs.
  induction fuel as [| fuel IH]; intros s Hs; cbn;
    destruct (cond s) eqn:Hc; intros Hw; try discriminate.
  - injection Hw as <-. auto.
  - apply (IH (body s)); auto.
  - injection Hw as <-. auto.
Qed.

(** More fuel does not change the result of a loop that finished. *)
Lemma while_more_fuel fuel fuel' s s' :
  (fuel <= fuel')%nat ->
  while fuel cond body s = Ok s' -> while fuel' cond body s = Ok s'.
Proof.
  revert fuel' s. induction fuel as [| fuel IH]; intros fuel' s Hle; cbn;
    destruct (cond s) eqn:Hc; intros Hw; try discriminate.
  - rewrite while_false by exact Hc. exact Hw.
  - destruct fuel' as [| fuel']; [lia |]. cbn. rewrite Hc.
    apply IH; [lia | exact Hw].
  - rewrite while_false by exact Hc. exact Hw.
Qed.

(** A loop whose body decreases a measure finishes on that much fuel. *)
Lemma while_terminates (mu : S -> nat) fuel s :
  (forall x, cond x = true -> (mu (body x) < mu x)%nat) ->
  (mu s <= fuel)%nat ->
  exists s', while fuel cond body s = Ok s'.
Proof.
  intros Hdec. revert s. induction fuel as [| fuel IH]; intros s Hmu; cbn;
    destruct (cond s) eqn:Hc; try (eexists; reflexivity).
  - specialize (Hdec s Hc). lia.
  - apply IH. specialize (Hdec s Hc). lia.
Qed.

(** A loop whose condition never becomes false uses up any fuel. *)
Lemma while_diverges fuel s :
  (forall x, cond x = true) -> while fuel cond body s = OutOfFuel.
Proof.
  intros Hc. revert s. induction fuel as [| fuel IH]; intros s; cbn;
    rewrite Hc; [reflexivity | apply IH].
Qed.

End While.

Lemma mapM_Ok_Forall {A B : Type} (f : A -> res B) (P : B -> Prop) l bs :
  (forall a b, f a = Ok b -> P b) -> mapM f l = Ok bs -> Forall P bs.
Proof.
  intros Hf. revert bs. induction l as [| a l IH]; intros bs; cbn.
  - intros [= <-]. constructor.
  - destruct (f a) as [b | e |] eqn:Ea; cbn; try discriminate.
    destruct (mapM f l) as [bs' | e |]; cbn; try discriminate.
    intros [= <-]. constructor; eauto.
Qed.

Lemma mapM_total {A B : Type} (f : A -> res B) l :
  (forall a, In a l -> exists b, f a = Ok b) -> exists bs, mapM f l = Ok bs.
Proof.
  induction l as [| a l IH]; intros Hf; cbn.
  - eexists. reflexivity.
  - destruct (Hf a) as [b ->]; [left; reflexivity |].
    destruct IH as [bs ->]; [intros; apply Hf; right; assumption |].
    eexists. reflexivity.
Qed.

End LoopFacts.

(** ** The holiday table and the business-day adjustment *)

Module AdjustFacts.

Import JSDateFacts LoopFacts.

Lemma initializeHolidays_lookup currentYear y :
  initializeHolidays currentYear !! pretty y =
  if bool_decide (currentYear <= y <= currentYear + 2)
  then Some (holidaysOfYear y) else None.
Proof.
  unfold initializeHolidays.
  change (seqZ currentYear 3)
    with [0 + currentYear; 1 + currentYear; 2 + currentYear].
  cbn [foldl]. rewrite !lookup_insert, lookup_empty.
  repeat case_decide; case_bool_decide;
    repeat match goal with
           | H : pretty _ = pretty _ |- _ => apply (inj pretty) in H
           | H : pretty ?a <> pretty ?b |- _ =>
               assert (a <> b) by congruence; clear H
           end;
    try lia; try (f_equal; f_equal; lia); reflexivity.
Qed.

Lemma listed_holidaysOfYear y t :
  listed (holidaysOfYear y) t = true <->
  holidayOffset (LeapOf (fullYear y)) (Day t - DayFromYear (fullYear y)).
Proof.
  unfold listed, holidaysOfYear, holidayOffset. cbn [existsb IndianHoliday.date].
  rewrite !orb_true_iff, !toDateString_eqb_Day, !Day_newDate.
  rewrite !MakeDay_in_year by lia. cbn [MonthStart].
  split; intros H; [| lia].
  destruct H as [H | [H | [H | [H | [H | [H | [H | [H | [H | H]]]]]]]]];
    try discriminate; lia.
Qed.

(** A listed day lies in the year whose list it is in. *)
Lemma listed_year y t :
  getFullYear t = y -> listed (holidaysOfYear y) t = true -> fullYear y = y.
Proof.
  intros Hy Hl. apply listed_holidaysOfYear in Hl.
  pose proof (LeapOf_cases (fullYear y)) as HL.
  rewrite <- Hy at 2. unfold getFullYear. symmetry.
  apply YearFromDay_unique. rewrite DayFromYear_next.
  unfold holidayOffset in Hl. lia.
Qed.

(** No listed holiday is followed, one day or three days later, by
    another, and the three days after a holiday stay in its year. *)
Lemma after_holiday y t k :
  getFullYear t = y -> listed (holidaysOfYear y) t = true ->
  1 <= k <= 3 ->
  getFullYear (t + k * msPerDay) = y /\
  (k <> 2 -> listed (holidaysOfYear y) (t + k * msPerDay) = false).
Proof.
  intros Hy Hl Hk. pose proof (listed_year y t Hy Hl) as Hfy.
  pose proof (LeapOf_cases y) as HL.
  pose proof Hl as Ho. apply listed_holidaysOfYear in Ho. rewrite Hfy in Ho.
  split.
  - unfold getFullYear. rewrite Day_shift. apply YearFromDay_unique.
    rewrite DayFromYear_next. unfold holidayOffset in Ho. lia.
  - intros Hk2. apply not_true_is_false. intros Hl'.
    apply listed_holidaysOfYear in Hl'. rewrite Hfy, Day_shift in Hl'.
    unfold holidayOffset in *. lia.
Qed.

Lemma getDay_range t : 0 <= getDay t < 7.
Proof. apply WeekDay_range. Qed.

Lemma getDay_next t :
  getDay (t + 1 * msPerDay) = if getDay t =? 6 then 0 else getDay t + 1.
Proof. unfold getDay. rewrite Day_shift. apply WeekDay_succ. Qed.

Lemma shift_shift t a b :
  t + a * msPerDay + b * msPerDay = t + (a + b) * msPerDay.
Proof. lia. Qed.

(** The first loop: a Saturday moves two days, a Sunday one, to a Monday. *)
Lemma skip_weekend fuel t :
  (2 <= fuel)%nat ->
  exists k,
    0 <= k <= 2 /\
    while fuel (fun d => (getDay d =? 0) || (getDay d =? 6))
          (fun d => setDate d (getDate d + 1)) t = Ok (t + k * msPerDay) /\
    1 <= getDay (t + k * msPerDay) <= 5 /\
    (0 < k -> getDay (t + k * msPerDay) = 1).
Proof.
  intros Hfuel. destruct fuel as [| [| fuel]]; try lia.
  pose proof (getDay_range t) as Hr.
  destruct (Z.eq_dec (getDay t) 6) as [H6 | H6];
    [| destruct (Z.eq_dec (getDay t) 0) as [H0 | H0]].
  - exists 2.
    assert (H1 : getDay (t + 1 * msPerDay) = 0) by (rewrite getDay_next, H6; reflexivity).
    assert (H2 : getDay (t + 2 * msPerDay) = 1).
    { replace (t + 2 * msPerDay) with (t + 1 * msPerDay + 1 * msPerDay) by lia.
      rewrite getDay_next, H1. reflexivity. }
    split; [lia |]. split; [| rewrite H2; lia].
    rewrite while_true by (rewrite H6; reflexivity). rewrite setDate_shift.
    rewrite while_true by (rewrite H1; reflexivity). rewrite setDate_shift.
    rewrite shift_shift. apply while_false. cbn beta. rewrite H2. reflexivity.
  - exists 1.
    assert (H1 : getDay (t + 1 * msPerDay) = 1) by (rewrite getDay_next, H0; reflexivity).
    split; [lia |]. split; [| rewrite H1; lia].
    rewrite while_true by (rewrite H0; reflexivity). rewrite setDate_shift.
    apply while_false. cbn beta. rewrite H1. reflexivity.
  - exists 0. replace (t + 0 * msPerDay) with t by lia.
    split; [lia |]. split; [| lia].
    apply while_false. cbn beta.
    destruct (Z.eqb_spec (getDay t) 0), (Z.eqb_spec (getDay t) 6); lia.
Qed.

(** What [adjustForHolidaysAndWeekends] computes, with the calculator's
    own holiday table: the date moves forward by at most three days, to a
    business day.  Two iterations per loop are enough. *)
Lemma adjust_spec currentYear fuel t :
  (2 <= fuel)%nat ->
  exists k,
    0 <= k <= 3 /\
    adjustForHolidaysAndWeekends (initializeHolidays currentYear) fuel t =
      Ok (t + k * msPerDay) /\
    isBusinessDay (initializeHolidays currentYear) (t + k * msPerDay).
Proof.
  intros Hfuel. unfold adjustForHolidaysAndWeekends, isBusinessDay.
  destruct (skip_weekend fuel t Hfuel) as (k1 & Hk1 & -> & Hd1 & Hmon).
  cbn [mbind res_bind]. cbv zeta.
  set (d1 := t + k1 * msPerDay) in *.
  set (hs := default [] (initializeHolidays currentYear !! pretty (getFullYear d1))).
  assert (Hhs : hs = [] \/ hs = holidaysOfYear (getFullYear d1)).
  { unfold hs. rewrite initializeHolidays_lookup.
    destruct (bool_decide _); cbn; auto. }
  assert (Hbus : forall r, getFullYear r = getFullYear d1 ->
                           isHoliday (initializeHolidays currentYear) r = listed hs r).
  { intros r Hr. unfold isHoliday. rewrite Hr. reflexivity. }
  fold (listed hs d1).
  destruct (listed hs d1) eqn:El.
  2: { exists k1. fold d1. rewrite Hbus, El by reflexivity. repeat split; lia. }
  destruct Hhs as [Hhs | Hhs]; [rewrite Hhs in El; discriminate |].
  rewrite setDate_shift.
  destruct (after_holiday _ d1 1 eq_refl) as [Hy1 Hl1]; [congruence | lia |].
  destruct (after_holiday _ d1 3 eq_refl) as [Hy3 Hl3]; [congruence | lia |].
  specialize (Hl1 ltac:(lia)). specialize (Hl3 ltac:(lia)).
  rewrite <- Hhs in Hl1, Hl3.
  pose proof (getDay_next d1) as Hn1.
  destruct (Z.eq_dec (getDay d1) 5) as [H5 | H5].
  - (* a Friday holiday: Saturday and Sunday are skipped as well *)
    assert (k1 = 0) by lia. subst k1.
    assert (H1 : getDay (d1 + 1 * msPerDay) = 6) by (rewrite Hn1, H5; reflexivity).
    assert (H2 : getDay (d1 + 2 * msPerDay) = 0).
    { replace (d1 + 2 * msPerDay) with (d1 + 1 * msPerDay + 1 * msPerDay) by lia.
      rewrite getDay_next, H1. reflexivity. }
    assert (H3 : getDay (d1 + 3 * msPerDay) = 1).
    { replace (d1 + 3 * msPerDay) with (d1 + 2 * msPerDay + 1 * msPerDay) by lia.
      rewrite getDay_next, H2. reflexivity. }
    exists 3. replace (t + 3 * msPerDay) with (d1 + 3 * msPerDay) by (unfold d1; lia).
    split; [lia |]. split.
    + destruct fuel as [| [| fuel]]; try lia.
      rewrite while_true by (cbn beta; rewrite H1; reflexivity).
      rewrite setDate_shift, shift_shift. change (1 + 1) with 2.
      rewrite while_true by (cbn beta; rewrite H2; reflexivity).
      rewrite setDate_shift, shift_shift. change (2 + 1) with 3.
      apply while_false. cbn beta. rewrite H3. exact Hl3.
    + rewrite H3, Hbus, Hl3 by exact Hy3. repeat split; lia.
  - exists (k1 + 1).
    replace (t + (k1 + 1) * msPerDay) with (d1 + 1 * msPerDay) by (unfold d1; lia).
    assert (H1 : getDay (d1 + 1 * msPerDay) = getDay d1 + 1).
    { rewrite Hn1. destruct (Z.eqb_spec (getDay d1) 6); [lia | reflexivity]. }
    split; [lia |]. split.
    + apply while_false. cbn beta. rewrite H1.
      destruct (Z.eqb_spec (getDay d1 + 1) 0), (Z.eqb_spec (getDay d1 + 1) 6);
        try lia. exact Hl1.
    + rewrite H1, Hbus, Hl1 by exact Hy1. repeat split; lia.
Qed.

Lemma adjust_more_fuel cal fuel fuel' t r :
  (fuel <= fuel')%nat ->
  adjustForHolidaysAndWeekends cal fuel t = Ok r ->
  adjustForHolidaysAndWeekends cal fuel' t = Ok r.
Proof.
  intros Hle. unfold adjustForHolidaysAndWeekends.
  destruct (while fuel _ _ t) as [d1 | e |] eqn:Hw; cbn [mbind res_bind];
    try discriminate.
  rewrite (while_more_fuel _ _ fuel fuel' t d1 Hle Hw). cbn [mbind res_bind].
  cbv zeta. destruct (existsb _ _); [| trivial].
  apply while_more_fuel. exact Hle.
Qed.

(** Whatever the fuel, a returned date is the input moved forward by at
    most three days, and is a business day. *)
Lemma adjust_Ok currentYear fuel t r :
  adjustForHolidaysAndWeekends (initializeHolidays currentYear) fuel t = Ok r ->
  (exists k, 0 <= k <= 3 /\ r = t + k * msPerDay) /\
  isBusinessDay (initializeHolidays currentYear) r.
Proof.
  intros Hr.
  apply (adjust_more_fuel _ fuel (Nat.max fuel 2)) in Hr; [| lia].
  destruct (adjust_spec currentYear (Nat.max fuel 2) t) as (k & Hk & Ha & Hb); [lia |].
  rewrite Ha in Hr. injection Hr as <-. split; [exists k; auto | exact Hb].
Qed.

(** A business day is left where it is, for any holiday table. *)
Lemma adjust_business_day cal fuel r :
  isBusinessDay cal r -> adjustForHolidaysAndWeekends cal fuel r = Ok r.
Proof.
  intros (H0 & H6 & Hh). unfold adjustForHolidaysAndWeekends.
  rewrite while_false.
  - cbn [mbind res_bind]. cbv zeta. unfold isHoliday in Hh. rewrite Hh.
    reflexivity.
  - destruct (Z.eqb_spec (getDay r) 0), (Z.eqb_spec (getDay r) 6);
      try contradiction; reflexivity.
Qed.

End AdjustFacts.

(** ** The per-periodicity date rules *)

Module RuleFacts.

Import JSDateFacts LoopFacts AdjustFacts.

Lemma TimeWithinDay_newDate y m dt : TimeWithinDay (newDate y m dt) = 0.
Proof.
  unfold TimeWithinDay, newDate, MakeDate.
  rewrite Z.add_0_r. apply Z.mod_mul. discriminate.
Qed.

Lemma DaysInMonth_range y m : 28 <= DaysInMonth y m <= 31.
Proof.
  pose proof (LeapOf_cases y). unfold DaysInMonth.
  destruct m as [| p | p]; try lia.
  do 4 (try destruct p as [p | p |]); lia.
Qed.

(** The body of the loop of [calculateMonthlyDueDates]: a day that does
    not exist in the month is replaced by the last day of the month. *)
Lemma monthly_body year dueDay month :
  0 <= month < 12 -> 1 <= dueDay <= 31 ->
  (let dueDate := newDate year month dueDay in
   if negb (getMonth dueDate =? month) then setDate dueDate 0 else dueDate) =
  newDate year month (Z.min dueDay (DaysInMonth (fullYear year) month)).
Proof.
  intros Hm Hd. cbv zeta.
  pose proof (DaysInMonth_range (fullYear year) month) as Hr.
  destruct (Z.le_gt_cases dueDay (DaysInMonth (fullYear year) month)) as [Hle | Hgt].
  - destruct (fields_of_newDate year month dueDay) as (_ & -> & _); [lia | lia |].
    rewrite Z.eqb_refl, Z.min_l by lia. reflexivity.
  - assert (Hm' : 0 <= month < 11).
    { destruct (Z.eq_dec month 11) as [-> | ?]; [cbn in Hgt; lia | lia]. }
    pose proof (MakeDay_next_month (fullYear year) month Hm) as Hnext.
    pose proof (DaysInMonth_range (fullYear year) (month + 1)) as Hr'.
    assert (Hday : Day (newDate year month dueDay) =
                   MakeDay (fullYear year) (month + 1)
                           (dueDay - DaysInMonth (fullYear year) month)).
    { rewrite Day_newDate. unfold MakeDay in *. lia. }
    destruct (fields_of_MakeDay (fullYear year) (month + 1)
                (dueDay - DaysInMonth (fullYear year) month)) as (Hy & Hmo & _);
      [lia | lia |].
    rewrite <- Hday in Hy, Hmo.
    unfold getMonth at 1. rewrite Hmo.
    destruct (Z.eqb_spec (month + 1) month) as [? | _]; [lia |]. cbn [negb].
    unfold setDate, getFullYear, getMonth. rewrite Hy, Hmo, TimeWithinDay_newDate.
    rewrite Z.min_r by lia. unfold newDate. f_equal.
    unfold MakeDay in *. lia.
Qed.

Lemma calculateMonthlyDueDates_lookup c year month :
  0 <= month < 12 ->
  calculateMonthlyDueDates c year !! Z.to_nat month =
  Some (let dueDay := orElse (extractDueDayFromRules (Compliance.dueDateRules c)) 15 in
        let dueDate := newDate year month dueDay in
        if negb (getMonth dueDate =? month) then setDate dueDate 0 else dueDate).
Proof.
  intros Hm. unfold calculateMonthlyDueDates.
  change (seqZ 0 12) with [0; 1; 2; 3; 4; 5; 6; 7; 8; 9; 10; 11].
  month_cases month;
    reflexivity.
Qed.

Lemma year_span year :
  newDate year 0 1 = DayFromYear (fullYear year) * msPerDay /\
  newDate year 11 31 =
    (DayFromYear (fullYear year) + 364 + LeapOf (fullYear year)) * msPerDay.
Proof.
  unfold newDate, MakeDate. rewrite !MakeDay_in_year by lia.
  cbn [MonthStart]. split; f_equal; lia.
Qed.

Lemma Day_le a b : a <= b -> Day a <= Day b.
Proof. apply Z.div_le_mono. reflexivity. Qed.

Lemma Day_of_days n : Day (n * msPerDay) = n.
Proof. unfold Day. apply Z.div_mul. discriminate. Qed.

(** The first loop of [calculateWeeklyDueDates] stops, within six steps,
    on the first date of the year that falls on [dayOfWeek]. *)
Lemma weekly_first_occurrence fuel dayOfWeek start :
  0 <= dayOfWeek <= 6 -> (6 <= fuel)%nat ->
  exists k,
    0 <= k <= 6 /\
    while fuel (fun cur => negb (getDay cur =? dayOfWeek))
          (fun cur => setDate cur (getDate cur + 1)) start
      = Ok (start + k * msPerDay) /\
    getDay (start + k * msPerDay) = dayOfWeek.
Proof.
  intros Hdow Hfuel.
  set (mu := fun cur : Date => Z.to_nat ((dayOfWeek - getDay cur) mod 7)).
  assert (Hstep : forall x, negb (getDay x =? dayOfWeek) = true ->
                            (dayOfWeek - getDay (x + 1 * msPerDay)) mod 7 =
                            (dayOfWeek - getDay x) mod 7 - 1).
  { intros x Hx. rewrite getDay_next. pose proof (getDay_range x).
    destruct (Z.eqb_spec (getDay x) dayOfWeek); [discriminate |].
    destruct (Z.eqb_spec (getDay x) 6); Z.div_mod_to_equations; lia. }
  destruct (while_terminates (fun cur => negb (getDay cur =? dayOfWeek))
              (fun cur => setDate cur (getDate cur + 1)) mu fuel start)
    as [cur Hw].
  { intros x Hx. unfold mu. rewrite setDate_shift, (Hstep x Hx).
    pose proof (getDay_range x).
    destruct (Z.eqb_spec (getDay x) dayOfWeek); [discriminate |].
    Z.div_mod_to_equations. lia. }
  { unfold mu. pose proof (getDay_range start). Z.div_mod_to_equations. lia. }
  destruct (while_invariant (fun cur => negb (getDay cur =? dayOfWeek))
              (fun cur => setDate cur (getDate cur + 1))
              (fun cur => exists k, 0 <= k /\ cur = start + k * msPerDay /\
                                    k + (dayOfWeek - getDay cur) mod 7 <= 6)
              fuel start cur) as [(k & Hk & -> & Hk6) Hc]; [| | exact Hw |].
  - exists 0. split; [lia |]. split; [lia |].
    pose proof (getDay_range start). Z.div_mod_to_equations. lia.
  - intros x (k & Hk & -> & Hk6) Hx. exists (k + 1).
    rewrite setDate_shift, (Hstep _ Hx). split; [lia |]. split; lia.
  - cbn beta in Hc. apply negb_false_iff, Z.eqb_eq in Hc.
    exists k. rewrite Hw. split; [| split; [reflexivity | exact Hc]].
    pose proof (Z.mod_pos_bound (dayOfWeek - getDay (start + k * msPerDay)) 7).
    lia.
Qed.

(** The second loop collects the dates a week apart up to the end of the
    year, at least one, all on the same day of the week. *)
Lemma weekly_collect fuel dayOfWeek start endDate cur0 :
  getDay cur0 = dayOfWeek -> start <= cur0 <= endDate ->
  Day endDate - Day start < 366 -> (366 <= fuel)%nat ->
  exists st,
    while fuel (fun st : Date * list Date => fst st <=? endDate)
          (fun st => (setDate (fst st) (getDate (fst st) + 7), snd st ++ [fst st]))
          (cur0, []) = Ok st /\
    snd st <> [] /\ Forall (fun d => getDay d = dayOfWeek) (snd st).
Proof.
  intros Hday Hcur Hspan Hfuel.
  destruct (while_terminates (fun st : Date * list Date => fst st <=? endDate)
              (fun st => (setDate (fst st) (getDate (fst st) + 7), snd st ++ [fst st]))
              (fun st => Z.to_nat (Day endDate - Day (fst st) + 1)) fuel (cur0, []))
    as [st Hw].
  { intros [cur acc] Hc. cbn [fst snd] in *. apply Z.leb_le in Hc.
    rewrite setDate_shift, Day_shift. pose proof (Day_le _ _ Hc). lia. }
  { cbn [fst]. pose proof (Day_le start cur0 ltac:(lia)). lia. }
  exists st. split; [exact Hw |].
  destruct (while_invariant (fun st : Date * list Date => fst st <=? endDate)
              (fun st => (setDate (fst st) (getDate (fst st) + 7), snd st ++ [fst st]))
              (fun st : Date * list Date =>
                 getDay (fst st) = dayOfWeek /\
                 Forall (fun d => getDay d = dayOfWeek) (snd st) /\
                 (snd st = [] -> fst st = cur0))
              fuel (cur0, []) st) as [(Hd & Hall & Hnil) Hc]; [| | exact Hw |].
  - cbn [fst snd]. auto.
  - intros [cur acc] (Hd & Hall & Hnil) Hc. cbn [fst snd] in *.
    rewrite setDate_shift, getDay_shift_week. split; [exact Hd |]. split.
    + apply Forall_app. split; [exact Hall | constructor; [exact Hd | constructor]].
    + intros Hnil'. destruct acc; discriminate.
  - split; [| exact Hall]. intros Hnil'. specialize (Hnil Hnil').
    cbn beta in Hc. apply Z.leb_gt in Hc. lia.
Qed.

Lemma calculateWeeklyDueDates_spec fuel c year :
  let dayOfWeek :=
    orElse (extractDayOfWeekFromRules (Compliance.dueDateRules c)) 1 in
  0 <= dayOfWeek <= 6 -> (366 <= fuel)%nat ->
  exists ds,
    calculateWeeklyDueDates fuel c year = Ok ds /\
    ds <> [] /\ Forall (fun d => getDay d = dayOfWeek) ds.
Proof.
  intros dayOfWeek Hdow Hfuel. unfold calculateWeeklyDueDates. fold dayOfWeek.
  cbv zeta. destruct (year_span year) as [Hs He].
  destruct (weekly_first_occurrence fuel dayOfWeek (newDate year 0 1) Hdow)
    as (k & Hk & -> & Hd); [lia |].
  cbn [mbind res_bind].
  pose proof (LeapOf_cases (fullYear year)) as HL.
  destruct (weekly_collect fuel dayOfWeek (newDate year 0 1) (newDate year 11 31)
              (newDate year 0 1 + k * msPerDay) Hd) as (st & -> & Hne & Hall).
  - rewrite Hs, He. pose proof msPerDay_pos. nia.
  - rewrite Hs, He, !Day_of_days. lia.
  - exact Hfuel.
  - cbn [mbind res_bind]. eauto.
Qed.

(** [calculateDailyDueDates] walks through the year and returns. *)
Lemma calculateDailyDueDates_returns fuel c year :
  (366 <= fuel)%nat -> exists ds, calculateDailyDueDates fuel c year = Ok ds.
Proof.
  intros Hfuel. unfold calculateDailyDueDates. cbv zeta.
  destruct (year_span year) as [Hs He].
  pose proof (LeapOf_cases (fullYear year)) as HL.
  match goal with
  | |- context [while fuel ?c ?b ?s] =>
      destruct (while_terminates c b
                  (fun st => Z.to_nat (Day (newDate year 11 31) - Day (fst st) + 1))
                  fuel s) as [st ->]
  end.
  - intros [cur acc] Hc. cbn [fst snd] in *. apply Z.leb_le in Hc.
    rewrite setDate_shift, Day_shift. pose proof (Day_le _ _ Hc). lia.
  - cbn [fst]. rewrite Hs, He, !Day_of_days. lia.
  - cbn [mbind res_bind]. eauto.
Qed.

(** The month of a valid date moved forward by at most three days is its
    own month or the next one. *)
Lemma month_after_shift y m dt k :
  0 <= m < 11 -> 1 <= dt <= DaysInMonth y m -> 0 <= k <= 3 ->
  MonthFromDay (MakeDay y m dt + k) = m \/ MonthFromDay (MakeDay y m dt + k) = m + 1.
Proof.
  intros Hm Hdt Hk.
  pose proof (DaysInMonth_range y m) as Hr.
  pose proof (DaysInMonth_range y (m + 1)) as Hr'.
  rewrite <- MakeDay_add.
  destruct (Z.le_gt_cases (dt + k) (DaysInMonth y m)) as [Hle | Hgt].
  - left. apply fields_of_MakeDay; lia.
  - right.
    pose proof (MakeDay_next_month y m ltac:(lia)) as Hnext.
    replace (MakeDay y m (dt + k))
      with (MakeDay y (m + 1) (dt + k - DaysInMonth y m))
      by (unfold MakeDay in *; lia).
    apply fields_of_MakeDay; lia.
Qed.

Lemma adjusted_month currentYear fuel y m dt a :
  0 <= m < 11 -> 1 <= dt <= DaysInMonth (fullYear y) m ->
  adjustForHolidaysAndWeekends (initializeHolidays currentYear) fuel
    (newDate y m dt) = Ok a ->
  getMonth a = m \/ getMonth a = m + 1.
Proof.
  intros Hm Hdt Ha. apply adjust_Ok in Ha as [(k & Hk & ->) _].
  unfold getMonth. rewrite Day_shift, Day_newDate.
  apply month_after_shift; assumption.
Qed.

Lemma adjust_returns currentYear fuel t :
  (2 <= fuel)%nat ->
  exists r, adjustForHolidaysAndWeekends (initializeHolidays currentYear) fuel t = Ok r.
Proof.
  intros Hfuel. destruct (adjust_spec currentYear fuel t Hfuel) as (k & _ & H & _).
  eauto.
Qed.

(** With 366 iterations per loop the calculator returns, provided a WEEKLY
    rule names a day of the week (0 to 6, or none). *)
Lemma calculateDueDates_returns currentYear fuel c year :
  (366 <= fuel)%nat ->
  (Compliance.periodicity c = WEEKLY ->
   0 <= orElse (extractDayOfWeekFromRules (Compliance.dueDateRules c)) 1 <= 6) ->
  exists ds, calculateDueDates fuel (initializeHolidays currentYear) c year = Ok ds.
Proof.
  intros Hfuel Hweek.
  assert (Hraw : exists raw,
             rawDueDates (methods fuel (initializeHolidays currentYear)) c year = Ok raw).
  { unfold rawDueDates. destruct (Compliance.periodicity c); cbn;
      try (eexists; reflexivity).
    - destruct (calculateWeeklyDueDates_spec fuel c year) as (ds & -> & _); eauto.
    - apply calculateDailyDueDates_returns. exact Hfuel. }
  destruct Hraw as [raw Hraw].
  unfold calculateDueDates, calculateDueDatesWith, tryBlock. rewrite Hraw.
  cbn [mbind res_bind].
  destruct (mapM_total (adjust (methods fuel (initializeHolidays currentYear))) raw)
    as [ds ->]; [| eauto].
  intros a _. cbn. apply adjust_returns. lia.
Qed.

End RuleFacts.

(** * Properties of the due-date calculator *)

Module CalculatorProperties.

Import JSDateFacts LoopFacts AdjustFacts RuleFacts.

(** C1, as the code has it.  For every QUARTERLY compliance and year,
    [calculateDueDates] returns exactly four dates: the business-day
    adjustments of day [rule.dueDay] (default 15) of April, July and
    October of the year and of January of the next year.  For a
    [dueDay] from 1 to 30 the four raw dates are that day of those months,
    and no returned date lies in March, June, September or December. *)
Theorem quarterly_anchors currentYear fuel (c : Compliance.t) (year : Z) :
  Compliance.periodicity c = QUARTERLY -> (2 <= fuel)%nat ->
  let cal := initializeHolidays currentYear in
  let dueDay := orElse (extractDueDayFromRules (Compliance.dueDateRules c)) 15 in
  let april := newDate year 3 dueDay in
  let july := newDate year 6 dueDay in
  let october := newDate year 9 dueDay in
  let january := newDate (year + 1) 0 dueDay in
  exists a1 a2 a3 a4,
    calculateDueDates fuel cal c year = Ok [a1; a2; a3; a4] /\
    adjustForHolidaysAndWeekends cal fuel april = Ok a1 /\
    adjustForHolidaysAndWeekends cal fuel july = Ok a2 /\
    adjustForHolidaysAndWeekends cal fuel october = Ok a3 /\
    adjustForHolidaysAndWeekends cal fuel january = Ok a4 /\
    (1 <= dueDay <= 30 ->
     (getFullYear april, getMonth april, getDate april) = (fullYear year, 3, dueDay) /\
     (getFullYear july, getMonth july, getDate july) = (fullYear year, 6, dueDay) /\
     (getFullYear october, getMonth october, getDate october) = (fullYear year, 9, dueDay) /\
     (getFullYear january, getMonth january, getDate january) =
       (fullYear (year + 1), 0, dueDay) /\
     Forall (fun a => getMonth a <> 2 /\ getMonth a <> 5 /\
                      getMonth a <> 8 /\ getMonth a <> 11) [a1; a2; a3; a4]).
Proof.
  intros Hp Hfuel cal dueDay april july october january.
  destruct (adjust_returns currentYear fuel april Hfuel) as [a1 H1].
  destruct (adjust_returns currentYear fuel july Hfuel) as [a2 H2].
  destruct (adjust_returns currentYear fuel october Hfuel) as [a3 H3].
  destruct (adjust_returns currentYear fuel january Hfuel) as [a4 H4].
  exists a1, a2, a3, a4. fold cal in H1, H2, H3, H4.
  split; [| repeat (split; [assumption |])].
  - unfold calculateDueDates, calculateDueDatesWith, tryBlock, rawDueDates.
    rewrite Hp. cbn [methods quarterly adjust mbind res_bind].
    unfold calculateQuarterlyDueDates. fold dueDay. cbn [map Z.eqb mapM].
    fold april july october january.
    rewrite H1, H2, H3, H4. reflexivity.
  - intros Hd. subst april july october january.
    assert (Hf : forall y m, 0 <= m < 11 ->
                   (m = 3 \/ m = 6 \/ m = 9 \/ m = 0) ->
                   1 <= dueDay <= DaysInMonth (fullYear y) m).
    { intros y m _ [-> | [-> | [-> | ->]]]; cbn; lia. }
    destruct (fields_of_newDate year 3 dueDay) as (-> & -> & ->); [lia | apply Hf; lia |].
    destruct (fields_of_newDate year 6 dueDay) as (-> & -> & ->); [lia | apply Hf; lia |].
    destruct (fields_of_newDate year 9 dueDay) as (-> & -> & ->); [lia | apply Hf; lia |].
    destruct (fields_of_newDate (year + 1) 0 dueDay) as (-> & -> & ->);
      [lia | apply Hf; lia |].
    repeat (split; [reflexivity |]).
    apply adjusted_month in H1; [| lia | apply Hf; lia].
    apply adjusted_month in H2; [| lia | apply Hf; lia].
    apply adjusted_month in H3; [| lia | apply Hf; lia].
    apply adjusted_month in H4; [| lia | apply Hf; lia].
    repeat constructor; lia.
Qed.

Lemma quarterly_anchors_witness :
  exists a1 a2 a3 a4,
    calculateDueDates 2 (initializeHolidays 2025)
      (Compliance.Build_t "tds" "TDS return" None "TDS_TCS" QUARTERLY
         (Some (Build_DueDateRules None None None None)) ["LLP"] true)
      2025 = Ok [a1; a2; a3; a4] /\
    (getFullYear a4, getMonth a4, getDate a4) = (2026, 0, 15).
Proof.
  destruct (quarterly_anchors 2025 2
              (Compliance.Build_t "tds" "TDS return" None "TDS_TCS" QUARTERLY
                 (Some (Build_DueDateRules None None None None)) ["LLP"] true)
              2025 eq_refl ltac:(lia))
    as (a1 & a2 & a3 & a4 & Hall & _ & _ & _ & H4 & _).
  exists a1, a2, a3, a4. split; [exact Hall |].
  vm_compute in H4. injection H4 as <-. vm_compute. reflexivity.
Defined.

(** C1 as stated fails: for 2025 and the default day the fourth date is
    15 January 2026, not a date in April 2026. *)
Lemma quarterly_fourth_date_is_january :
  exists ds,
    calculateDueDates 2 (initializeHolidays 2025)
      (Compliance.Build_t "tds" "TDS return" None "TDS_TCS" QUARTERLY
         (Some (Build_DueDateRules None None None None)) ["LLP"] true)
      2025 = Ok ds /\
    map (fun d => (getFullYear d, getMonth d, getDate d)) ds =
      [(2025, 3, 15); (2025, 6, 15); (2025, 9, 15); (2026, 0, 15)] /\
    map (fun d => (getFullYear d, getMonth d)) ds <>
      [(2025, 3); (2025, 6); (2025, 9); (2026, 3)].
Proof.
  eexists. split; [vm_compute; reflexivity |].
  split; [vm_compute; reflexivity | vm_compute; discriminate].
Qed.

(** C5.  Every date [calculateDueDates] returns is a business day: not a
    Saturday, not a Sunday, and not listed as a holiday of the year the
    date itself falls in, for every compliance, every year, and every year
    in which the calculator was constructed.  And it does return: 366
    iterations per loop are enough, for a WEEKLY rule that names a day of
    the week (0 to 6, or none). *)
Theorem calculateDueDates_business_days currentYear fuel
    (c : Compliance.t) (year : Z) :
  (forall ds,
     calculateDueDates fuel (initializeHolidays currentYear) c year = Ok ds ->
     Forall (isBusinessDay (initializeHolidays currentYear)) ds) /\
  ((366 <= fuel)%nat ->
   (Compliance.periodicity c = WEEKLY ->
    0 <= orElse (extractDayOfWeekFromRules (Compliance.dueDateRules c)) 1 <= 6) ->
   exists ds, calculateDueDates fuel (initializeHolidays currentYear) c year = Ok ds).
Proof.
  split; [| apply calculateDueDates_returns].
  intros ds. unfold calculateDueDates, calculateDueDatesWith, tryBlock.
  destruct (rawDueDates _ c year) as [raw | e |]; cbn [mbind res_bind].
  - destruct (mapM _ raw) as [bs | e |] eqn:Hm; intros [= <-].
    + eapply mapM_Ok_Forall; [| exact Hm].
      intros a b Hab. cbn in Hab. apply adjust_Ok in Hab. apply Hab.
    + constructor.
  - intros [= <-]. constructor.
  - discriminate.
Qed.

Lemma calculateDueDates_business_days_witness :
  exists ds,
    calculateDueDates 366 (initializeHolidays 2025)
      (Compliance.Build_t "pf" "PF return" None "ESI_PF" MONTHLY
         (Some (Build_DueDateRules (Some 26) None None None)) ["LLP"] true)
      2025 = Ok ds /\
    Forall (isBusinessDay (initializeHolidays 2025)) ds.
Proof.
  destruct (calculateDueDates_business_days 2025 366
              (Compliance.Build_t "pf" "PF return" None "ESI_PF" MONTHLY
                 (Some (Build_DueDateRules (Some 26) None None None)) ["LLP"] true)
              2025) as [Hall Hret].
  destruct Hret as [ds Hds]; [lia | discriminate |].
  exists ds. split; [exact Hds | apply Hall, Hds].
Defined.

(** A WEEKLY rule whose [dayOfWeek] is not a day of the week (7, say) keeps
    the first loop of [calculateWeeklyDueDates] running for ever: no amount
    of fuel gives a result, and [calculateDueDates] does not return. *)
Remark weekly_needs_a_day_of_the_week currentYear fuel (c : Compliance.t)
    (year : Z) :
  Compliance.periodicity c = WEEKLY ->
  ~ (0 <= orElse (extractDayOfWeekFromRules (Compliance.dueDateRules c)) 1 <= 6) ->
  calculateDueDates fuel (initializeHolidays currentYear) c year = OutOfFuel.
Proof.
  intros Hp Hd.
  unfold calculateDueDates, calculateDueDatesWith, tryBlock, rawDueDates.
  rewrite Hp. cbn [methods weekly]. unfold calculateWeeklyDueDates. cbv zeta.
  rewrite while_diverges; [reflexivity |].
  intros x. pose proof (getDay_range x).
  destruct (Z.eqb_spec (getDay x)
              (orElse (extractDayOfWeekFromRules (Compliance.dueDateRules c)) 1));
    [lia | reflexivity].
Qed.




(** C7.  The business-day adjustment is idempotent: it returns (two
    iterations per loop suffice), and adjusting the date it returned gives
    that date again. *)
Theorem adjustment_idempotent currentYear fuel (d : Date) :
  (2 <= fuel)%nat ->
  exists r,
    getNextBusinessDay (initializeHolidays currentYear) fuel d = Ok r /\
    getNextBusinessDay (initializeHolidays currentYear) fuel r = Ok r /\
    adjustForHolidaysAndWeekends (initializeHolidays currentYear) fuel d = Ok r /\
    adjustForHolidaysAndWeekends (initializeHolidays currentYear) fuel r = Ok r.
Proof.
  intros Hfuel. unfold getNextBusinessDay.
  destruct (adjust_spec currentYear fuel d Hfuel) as (k & _ & Ha & Hb).
  exists (d + k * msPerDay).
  pose proof (adjust_business_day _ fuel _ Hb). auto.
Qed.

Lemma adjustment_idempotent_witness :
  exists r,
    getNextBusinessDay (initializeHolidays 2026) 2 (newDate 2026 0 24) = Ok r /\
    getNextBusinessDay (initializeHolidays 2026) 2 r = Ok r /\
    adjustForHolidaysAndWeekends (initializeHolidays 2026) 2 (newDate 2026 0 24) = Ok r /\
    adjustForHolidaysAndWeekends (initializeHolidays 2026) 2 r = Ok r.
Proof. apply (adjustment_idempotent 2026 2 (newDate 2026 0 24)). lia. Defined.

(** A holiday on a Friday before a weekend gives the Monday after it, in
    one pass: Independence Day 2025. *)
Example friday_holiday_gives_monday :
  adjustForHolidaysAndWeekends (initializeHolidays 2025) 2 (newDate 2025 7 15)
  = Ok (newDate 2025 7 18) /\
  getDay (newDate 2025 7 15) = 5 /\ getDay (newDate 2025 7 18) = 1.
Proof. vm_compute. auto. Qed.

(** C9.  A rule field with value 0 is read as absent and replaced by the
    default.  A WEEKLY rule with [dayOfWeek = 0] (Sunday) yields the Mondays
    of the year, and [calculateDueDates] gives what it gives for a WEEKLY
    compliance without rules; a YEARLY rule with [dueMonth = 0] (January)
    yields a date in April (month index 3). *)
Theorem zero_rule_field_is_absent
    (indianHolidays : gmap string (list IndianHoliday.t)) fuel
    (c : Compliance.t) (r : DueDateRules) (year : Z) :
  Compliance.dueDateRules c = Some r ->
  (dueDay r = Some 0 -> extractDueDayFromRules (Some r) = None) /\
  (dayOfWeek r = Some 0 ->
   extractDayOfWeekFromRules (Some r) = None /\
   (forall c',
      Compliance.periodicity c = WEEKLY -> Compliance.periodicity c' = WEEKLY ->
      Compliance.dueDateRules c' = None ->
      calculateDueDates fuel indianHolidays c year =
      calculateDueDates fuel indianHolidays c' year) /\
   ((366 <= fuel)%nat ->
    exists ds,
      calculateWeeklyDueDates fuel c year = Ok ds /\ ds <> [] /\
      Forall (fun d => getDay d = 1) ds)) /\
  (dueMonth r = Some 0 ->
   extractDueMonthFromRules (Some r) = None /\
   let dueDay := orElse (extractDueDayFromRules (Some r)) 15 in
   calculateYearlyDueDates c year = [newDate year 3 dueDay] /\
   (1 <= dueDay <= 30 -> getMonth (newDate year 3 dueDay) = 3)).
Proof.
  intros Hr. split; [| split].
  - intros H. cbn. rewrite H. reflexivity.
  - intros H.
    assert (Hdow : orElse (extractDayOfWeekFromRules (Compliance.dueDateRules c)) 1 = 1)
      by (rewrite Hr; cbn; rewrite H; reflexivity).
    split; [cbn; rewrite H; reflexivity |]. split.
    + intros c' Hp Hp' Hc'.
      unfold calculateDueDates, calculateDueDatesWith, tryBlock, rawDueDates.
      rewrite Hp, Hp'. cbn [methods weekly].
      unfold calculateWeeklyDueDates. rewrite Hdow, Hc'. reflexivity.
    + intros Hfuel.
      destruct (calculateWeeklyDueDates_spec fuel c year) as (ds & Hds & Hne & Hall);
        [rewrite Hdow; lia | exact Hfuel |].
      rewrite Hdow in Hall. eauto.
  - intros H. split; [cbn; rewrite H; reflexivity |]. cbv zeta. split.
    + unfold calculateYearlyDueDates. rewrite Hr. cbn [extractDueMonthFromRules].
      rewrite H. reflexivity.
    + intros Hd. apply fields_of_newDate; [lia | cbn [DaysInMonth]; lia].
Qed.

Lemma zero_rule_field_is_absent_witness :
  exists ds,
    calculateWeeklyDueDates 366
      (Compliance.Build_t "w" "Weekly filing" None "OTHER" WEEKLY
         (Some (Build_DueDateRules None None (Some 0) None)) ["LLP"] true)
      2025 = Ok ds /\
    ds <> [] /\ Forall (fun d => getDay d = 1) ds.
Proof.
  destruct (zero_rule_field_is_absent (initializeHolidays 2025) 366
              (Compliance.Build_t "w" "Weekly filing" None "OTHER" WEEKLY
                 (Some (Build_DueDateRules None None (Some 0) None)) ["LLP"] true)
              (Build_DueDateRules None None (Some 0) None) 2025 eq_refl)
    as (_ & Hw & _).
  destruct (Hw eq_refl) as (_ & _ & Hds). apply Hds. lia.
Defined.

End CalculatorProperties.

(** ** The existence check and the staging loops *)

Module GeneratorFacts.

Import JSDateFacts LoopFacts.

Lemma fullYear_plain y : ~ (0 <= y <= 99) -> fullYear y = y.
Proof.
  intros H. unfold fullYear.
  destruct (Z.leb_spec 0 y), (Z.leb_spec y 99); cbn [andb]; try reflexivity. lia.
Qed.

Lemma newDate_le y m t : newDate y m 1 <= t <-> MakeDay (fullYear y) m 1 <= Day t.
Proof.
  unfold newDate, MakeDate, Day. rewrite Z.add_0_r. pose proof msPerDay_pos.
  split; intros Hle.
  - apply Z.div_le_lower_bound; lia.
  - pose proof (Z.mul_div_le t msPerDay). nia.
Qed.

Lemma newDate_gt y m t : t < newDate y m 1 <-> Day t < MakeDay (fullYear y) m 1.
Proof. pose proof (newDate_le y m t). lia. Qed.

(** For a due date outside the years 0 to 99, the [gte]/[lt] filter of the
    existence check selects exactly the dates of its calendar month. *)
Lemma inMonthOf_spec dueDate t :
  plainYear dueDate ->
  inMonthOf dueDate t = true <->
  getFullYear t = getFullYear dueDate /\ getMonth t = getMonth dueDate.
Proof.
  intros Hp. unfold inMonthOf.
  rewrite andb_true_iff, Z.leb_le, Z.ltb_lt, newDate_le, newDate_gt.
  rewrite (fullYear_plain _ Hp).
  apply month_window. apply MonthFromDay_range.
Qed.

Lemma inMonthOf_self d : plainYear d -> inMonthOf d d = true.
Proof. intros Hp. apply inMonthOf_spec; auto. Qed.

Lemma stageCompliance_elem db user entity entityId c ds t :
  t ∈ stageCompliance db user entity entityId c ds <->
  exists d, d ∈ ds /\
            findExistingTask db (User.tenantId user) entityId (Compliance.id c) d = None /\
            t = newTask user entity entityId c d.
Proof.
  unfold stageCompliance. rewrite list_elem_of_In, in_flat_map. split.
  - intros (d & Hd & Ht). exists d. rewrite list_elem_of_In.
    destruct (findExistingTask _ _ _ _ d); cbn in Ht; [tauto |].
    destruct Ht as [<- | []]. auto.
  - intros (d & Hd & Hf & ->). exists d. rewrite <- list_elem_of_In.
    rewrite Hf. cbn. auto.
Qed.

Section Staging.

Variable calc : Compliance.t -> Z -> res (list Date).
Variables (db : Db) (user : User.t) (entity : Entity.t) (entityId : string).
Variable year : Z.

(** Every staged task is a new task for a due date of a selected
    compliance that had no task in its month. *)
Lemma stageTasks_elem cs staged t :
  stageTasks calc db user entity entityId year cs = Ok staged ->
  t ∈ staged ->
  exists c ds d,
    c ∈ cs /\ calc c year = Ok ds /\ d ∈ ds /\
    findExistingTask db (User.tenantId user) entityId (Compliance.id c) d = None /\
    t = newTask user entity entityId c d.
Proof.
  revert staged. induction cs as [| c cs IH]; intros staged; cbn.
  - intros [= <-] Ht. inversion Ht.
  - destruct (calc c year) as [ds | e |] eqn:Hc; cbn; try discriminate.
    destruct (stageTasks _ _ _ _ _ _ cs) as [later | e |]; cbn; try discriminate.
    intros [= <-] Ht. apply elem_of_app in Ht as [Ht | Ht].
    + apply stageCompliance_elem in Ht as (d & Hd & Hf & ->).
      exists c, ds, d. repeat split; auto. left.
    + destruct (IH later eq_refl Ht) as (c' & ds' & d & Hc' & Hcalc & Hd & Hf & ->).
      exists c', ds', d. repeat split; auto. right. exact Hc'.
Qed.

(** Conversely, every such due date is staged. *)
Lemma stageTasks_complete cs staged c ds d :
  stageTasks calc db user entity entityId year cs = Ok staged ->
  c ∈ cs -> calc c year = Ok ds -> d ∈ ds ->
  findExistingTask db (User.tenantId user) entityId (Compliance.id c) d = None ->
  newTask user entity entityId c d ∈ staged.
Proof.
  revert staged. induction cs as [| c0 cs IH]; intros staged; cbn.
  - intros _ Hc. inversion Hc.
  - destruct (calc c0 year) as [ds0 | e |] eqn:Hc0; cbn; try discriminate.
    destruct (stageTasks _ _ _ _ _ _ cs) as [later | e |]; cbn; try discriminate.
    intros [= <-] Hc Hcalc Hd Hf. apply elem_of_app.
    apply elem_of_cons in Hc as [-> | Hc].
    + left. rewrite Hcalc in Hc0. injection Hc0 as <-.
      apply stageCompliance_elem. eauto.
    + right. eapply IH; eauto.
Qed.

End Staging.

Lemma findExistingTask_Some db tenantId entityId complianceId dueDate :
  (exists t, t ∈ tasks db /\
             Task.tenantId t = tenantId /\ Task.entityId t = entityId /\
             Task.complianceId t = Some complianceId /\
             inMonthOf dueDate (Task.dueDate t) = true) ->
  findExistingTask db tenantId entityId complianceId dueDate <> None.
Proof.
  intros (t & Hin & Ht & He & Hc & Hm) Hnone. unfold findExistingTask in Hnone.
  apply list_elem_of_In in Hin.
  pose proof (find_none _ _ Hnone t Hin) as Hf. cbn beta in Hf.
  rewrite Ht, He, Hc, Hm, !bool_decide_eq_true_2 in Hf by reflexivity.
  discriminate.
Qed.

Lemma findExistingTask_None_inv db tenantId entityId complianceId dueDate t :
  findExistingTask db tenantId entityId complianceId dueDate = None ->
  t ∈ tasks db ->
  Task.tenantId t = tenantId -> Task.entityId t = entityId ->
  Task.complianceId t = Some complianceId ->
  inMonthOf dueDate (Task.dueDate t) = false.
Proof.
  intros Hnone Hin Ht He Hc. apply not_true_is_false. intros Hm.
  eapply findExistingTask_Some; [| exact Hnone]. eauto 10.
Qed.

Lemma findExistingTask_more db db' tenantId entityId complianceId dueDate :
  (forall t, t ∈ tasks db -> t ∈ tasks db') ->
  findExistingTask db tenantId entityId complianceId dueDate <> None ->
  findExistingTask db' tenantId entityId complianceId dueDate <> None.
Proof.
  intros Hsub Hf.
  destruct (findExistingTask db tenantId entityId complianceId dueDate) as [t |] eqn:E;
    [| contradiction].
  unfold findExistingTask in E. apply find_some in E as [Hin Hp].
  rewrite !andb_true_iff, !bool_decide_eq_true in Hp.
  destruct Hp as [[[Ht He] Hc] Hm].
  apply findExistingTask_Some. exists t.
  repeat split; auto. apply Hsub, list_elem_of_In, Hin.
Qed.


Lemma stageRequest_Ok calc now req db user year staged :
  stageRequest calc now req db = Ok (user, year, staged) ->
  exists entity,
    Request.user req = Some user /\
    year = default (getFullYear now) (Request.year req) /\
    findEntity db (Request.entityId req) (User.tenantId user) = Some entity /\
    stageTasks calc db user entity (Request.entityId req) year
      (applicableCompliances db entity (Request.complianceIds req)) = Ok staged.
Proof.
  unfold stageRequest. destruct (Request.user req) as [u |]; [| discriminate].
  destruct (findEntity db _ _) as [entity |] eqn:He; [| discriminate].
  destruct (stageTasks _ _ _ _ _ _ _) as [ts | e |] eqn:Hs; cbn; try discriminate.
  intros [= <- <- <-]. exists entity. repeat split; assumption.
Qed.

(** A successful bulk insert appends the staged tasks and changes neither
    the entities nor the catalog. *)
Lemma insertStaged_Ok S req user year staged db resp db1 :
  insertStaged S req user year staged db = Ok (resp, db1) ->
  entities db1 = entities db /\ compliances db1 = compliances db /\
  tasks db1 = tasks db ++ staged /\
  Response.tasksCreated resp = Z.of_nat (length staged).
Proof.
  unfold insertStaged. destruct staged as [| t ts].
  - intros [= <- <-]. rewrite app_nil_r. auto.
  - unfold createMany. destruct (rejects S _ _); cbn; [discriminate |].
    intros [= <- <-]. unfold auditLog. destruct (auditWritable S); cbn; auto.
Qed.

Lemma periodKey_newTask user entity entityId c d :
  periodKey (newTask user entity entityId c d) =
  Some (User.tenantId user, entityId, Compliance.id c, getFullYear d, getMonth d).
Proof. reflexivity. Qed.

(** The staged tasks of one compliance have distinct periods when its due
    dates fall in distinct months. *)
Lemma stageCompliance_keys db user entity entityId c ds key :
  key ∈ periodKeys (stageCompliance db user entity entityId c ds) ->
  exists d, d ∈ ds /\
    findExistingTask db (User.tenantId user) entityId (Compliance.id c) d = None /\
    key = (User.tenantId user, entityId, Compliance.id c, getFullYear d, getMonth d).
Proof.
  unfold periodKeys. rewrite list_elem_of_omap.
  intros (t & Ht & Hk). apply stageCompliance_elem in Ht as (d & Hd & Hf & ->).
  rewrite periodKey_newTask in Hk. injection Hk as <-.
  exists d. repeat split; assumption.
Qed.

Lemma stageCompliance_NoDup db user entity entityId c ds :
  NoDup ((fun d => (getFullYear d, getMonth d)) <$> ds) ->
  NoDup (periodKeys (stageCompliance db user entity entityId c ds)).
Proof.
  induction ds as [| d ds IH]; cbn; [constructor |].
  rewrite NoDup_cons. intros [Hd Hnd]. specialize (IH Hnd).
  unfold stageCompliance in *. cbn [flat_map].
  destruct (findExistingTask _ _ _ _ d); cbn [app]; [exact IH |].
  unfold periodKeys in *. cbn [omap list_omap]. rewrite periodKey_newTask.
  apply NoDup_cons. split; [| exact IH].
  intros Hin. apply (stageCompliance_keys db user entity entityId c ds) in Hin
    as (d' & Hd' & _ & Heq).
  injection Heq as Hy Hm. apply Hd. apply list_elem_of_fmap.
  exists d'. rewrite Hy, Hm. auto.
Qed.

Lemma stageTasks_keys calc db user entity entityId year cs staged key :
  stageTasks calc db user entity entityId year cs = Ok staged ->
  key ∈ periodKeys staged ->
  exists c ds d,
    c ∈ cs /\ calc c year = Ok ds /\ d ∈ ds /\
    findExistingTask db (User.tenantId user) entityId (Compliance.id c) d = None /\
    key = (User.tenantId user, entityId, Compliance.id c, getFullYear d, getMonth d).
Proof.
  intros Hs. unfold periodKeys. rewrite list_elem_of_omap. intros (t & Ht & Hk).
  destruct (stageTasks_elem _ _ _ _ _ _ _ _ _ Hs Ht)
    as (c & ds & d & Hc & Hcalc & Hd & Hf & ->).
  rewrite periodKey_newTask in Hk. injection Hk as <-.
  exists c, ds, d. repeat split; assumption.
Qed.

Lemma stageTasks_NoDup calc db user entity entityId year cs staged :
  NoDup (Compliance.id <$> cs) ->
  (forall c ds, c ∈ cs -> calc c year = Ok ds ->
                NoDup ((fun d => (getFullYear d, getMonth d)) <$> ds)) ->
  stageTasks calc db user entity entityId year cs = Ok staged ->
  NoDup (periodKeys staged).
Proof.
  revert staged. induction cs as [| c cs IH]; intros staged Hids Hds; cbn.
  - intros [= <-]. constructor.
  - destruct (calc c year) as [ds | e |] eqn:Hc; cbn; try discriminate.
    destruct (stageTasks _ _ _ _ _ _ cs) as [later | e |] eqn:Hl; cbn;
      try discriminate.
    intros [= <-]. cbn in Hids. apply NoDup_cons in Hids as [Hid Hids].
    unfold periodKeys. rewrite omap_app. apply NoDup_app. split; [| split].
    + apply stageCompliance_NoDup, (Hds c ds); [left | exact Hc].
    + intros key Hk Hk'.
      apply stageCompliance_keys in Hk as (d & _ & _ & ->).
      destruct (stageTasks_keys _ _ _ _ _ _ _ _ _ Hl Hk')
        as (c' & _ & d' & Hc' & _ & _ & _ & Heq).
      injection Heq as Heq _ _. apply Hid. rewrite Heq.
      apply list_elem_of_fmap_2. exact Hc'.
    + apply (IH later Hids); [| reflexivity].
      intros c' ds' Hc'. apply Hds. right. exact Hc'.
Qed.

Lemma applicableCompliances_sublist db entity complianceIds :
  applicableCompliances db entity complianceIds `sublist_of` compliances db.
Proof.
  unfold applicableCompliances, findCompliancesByIds, findCompliancesByEntityType.
  destruct complianceIds as [[| i ids] |]; apply sublist_filter.
Qed.

(** A failure inside [calculateDueDates] stages nothing for that
    compliance and leaves the rest of the batch as it is. *)
Lemma stageTasks_skips calc db user entity entityId year c rest :
  calc c year = Ok [] ->
  stageTasks calc db user entity entityId year (c :: rest) =
  stageTasks calc db user entity entityId year rest.
Proof.
  intros Hc. cbn. rewrite Hc. cbn.
  destruct (stageTasks _ _ _ _ _ _ rest); reflexivity.
Qed.

End GeneratorFacts.

(** * Properties of the task generator *)

Module GeneratorProperties.

Import JSDateFacts LoopFacts GeneratorFacts.

(** C2, as the code has it.  [generateTasks] checks each due date against
    the tasks stored before the call and not against the tasks it has
    staged.  So a completed call keeps "at most one task per (tenant,
    entity, compliance, year and month of the due date)" when the task
    table had that property before, the catalog ids are distinct, and the
    calculator gives each compliance at most one due date per calendar
    month (due dates outside the years 0 to 99). *)
Theorem generate_keeps_one_task_per_period
    (calc : Compliance.t -> Z -> res (list Date)) (S : Storage) (now : Date)
    (req : Request.t) (db db1 : Db) (resp : Response.t) :
  generateTasks calc S now req db = Ok (resp, db1) ->
  NoDup (periodKeys (tasks db)) ->
  NoDup (Compliance.id <$> compliances db) ->
  (forall c ds,
     c ∈ compliances db ->
     calc c (default (getFullYear now) (Request.year req)) = Ok ds ->
     NoDup ((fun d => (getFullYear d, getMonth d)) <$> ds) /\
     Forall plainYear ds) ->
  NoDup (periodKeys (tasks db1)).
Proof.
  unfold generateTasks. intros Hgen Hold Hids Hcalc.
  destruct (stageRequest calc now req db) as [[[user year] staged] | e |] eqn:Hs;
    cbn [mbind res_bind fst snd] in Hgen; try discriminate.
  apply stageRequest_Ok in Hs as (entity & Hu & Hy & He & Hst).
  apply insertStaged_Ok in Hgen as (_ & _ & -> & _).
  pose proof (applicableCompliances_sublist db entity (Request.complianceIds req))
    as Hsub.
  assert (Hin : forall c, c ∈ applicableCompliances db entity (Request.complianceIds req) ->
                          c ∈ compliances db).
  { intros c Hc. eapply sublist_subseteq; eauto. }
  unfold periodKeys. rewrite omap_app. apply NoDup_app.
  split; [exact Hold |]. split.
  - intros key Hk Hk'.
    destruct (stageTasks_keys _ _ _ _ _ _ _ _ _ Hst Hk')
      as (c & ds & d & Hc & Hds & Hd & Hf & ->).
    apply list_elem_of_omap in Hk as (t & Ht & Hkey).
    unfold periodKey in Hkey.
    destruct (Task.complianceId t) as [cid |] eqn:Hcid; [| discriminate].
    injection Hkey as Hten Hent Hcid' Hyr Hmo. subst cid.
    pose proof (findExistingTask_None_inv _ _ _ _ _ t Hf Ht Hten Hent Hcid) as Hno.
    subst year. destruct (Hcalc c ds (Hin c Hc) Hds) as [_ Hplain].
    rewrite Forall_forall in Hplain.
    assert (Hyes : inMonthOf d (Task.dueDate t) = true)
      by (apply inMonthOf_spec; auto).
    congruence.
  - eapply stageTasks_NoDup; [| | exact Hst].
    + refine (sublist_NoDup _ _ Hids _). apply fmap_sublist, Hsub.
    + intros c ds Hc Hds. subst year. apply (Hcalc c ds); auto.
Qed.

Lemma generate_keeps_one_task_per_period_witness :
  exists resp db1,
    generateTasks Sample.calculator plainStorage Sample.now Sample.request
      Sample.db0 = Ok (resp, db1) /\
    NoDup (periodKeys (tasks db1)).
Proof.
  eexists _, _. split; [vm_compute; reflexivity |].
  eapply (generate_keeps_one_task_per_period Sample.calculator plainStorage
            Sample.now Sample.request Sample.db0).
  - vm_compute. reflexivity.
  - constructor.
  - apply (bool_decide_unpack _). vm_compute. exact I.
  - intros c ds Hc Hds. cbn [Sample.request Request.year default] in Hds.
    assert (Hone : exists d, ds = [d] /\ getFullYear d = 2025).
    { cbn [Sample.db0 compliances] in Hc.
      repeat (apply elem_of_cons in Hc as [-> | Hc]); [| | | inversion Hc];
        vm_compute in Hds; injection Hds as <-; eexists;
        (split; [reflexivity |]); vm_compute; reflexivity. }
    destruct Hone as (d & -> & Hy). split.
    + cbn. apply NoDup_singleton.
    + constructor; [| constructor]. unfold plainYear. rewrite Hy. lia.
Defined.

(** C2 as stated fails: on an empty task table, one call for a WEEKLY
    compliance creates 52 tasks, four or five in each calendar month. *)
Lemma weekly_first_run_duplicates_periods :
  exists resp db1,
    generateTasks Sample.calculator plainStorage Sample.now Sample.request
      Sample.dbWeekly = Ok (resp, db1) /\
    Response.tasksCreated resp = 52 /\
    ~ NoDup (periodKeys (tasks db1)).
Proof.
  eexists _, _. split; [vm_compute; reflexivity |]. split; [reflexivity |].
  apply (bool_decide_eq_false_1 (NoDup _)). vm_compute. reflexivity.
Qed.

(** An exception of the bulk insert is not caught: it is the outcome of
    [generateTasks], whatever was staged. *)
Lemma insert_failure_propagates calc S now req db user year t ts e :
  stageRequest calc now req db = Ok (user, year, t :: ts) ->
  rejects S (tasks db) (t :: ts) = Some e ->
  generateTasks calc S now req db = Throw e.
Proof.
  intros Hs Hr. unfold generateTasks. rewrite Hs.
  cbn [mbind res_bind fst snd insertStaged]. unfold createMany. rewrite Hr.
  reflexivity.
Qed.

(** C3 at the racing input: another request inserts the income-tax task
    for April 2025 between this request's existence check and its bulk
    insert; the store's uniqueness constraint rejects the insert, and the
    caller gets the P2002 error instead of a response. *)
Lemma uniqueness_violation_reaches_caller :
  generateTasksRacing Sample.calculator uniquePeriodStorage Sample.now
    Sample.request Sample.db0
    [newTask Sample.alice Sample.acme "e1" Sample.incomeTax (newDate 2025 3 15)]
  = Throw (PrismaClientKnownRequestError "P2002").
Proof. vm_compute. reflexivity. Qed.

(** Without any race: with the uniqueness constraint in the store, the
    first run for a WEEKLY compliance stages four or five tasks for each
    month, the bulk insert is rejected, and the call fails with P2002. *)
Remark weekly_first_run_rejected_by_constraint :
  generateTasks Sample.calculator uniquePeriodStorage Sample.now
    Sample.request Sample.dbWeekly
  = Throw (PrismaClientKnownRequestError "P2002").
Proof. vm_compute. reflexivity. Qed.




(** The [try] block throws when a periodicity rule throws, and when the
    adjustment of the first raw date throws. *)
Lemma tryBlock_throws_in_rule M c year e :
  rawDueDates M c year = Throw e -> tryBlock M c year = Throw e.
Proof. intros H. unfold tryBlock. rewrite H. reflexivity. Qed.

Lemma tryBlock_throws_in_adjust M c year d ds e :
  rawDueDates M c year = Ok (d :: ds) -> adjust M d = Throw e ->
  tryBlock M c year = Throw e.
Proof. intros H Ha. unfold tryBlock. rewrite H. cbn. rewrite Ha. reflexivity. Qed.

(** C8.  If anything throws while the due dates of a compliance are
    computed, in a periodicity rule or in the holiday and weekend
    adjustment, [calculateDueDates] returns the empty list; it never
    throws, and the loop of [generateTasks] over the compliances goes on
    with the remaining ones. *)
Theorem exception_yields_empty_list (M : Methods) (c : Compliance.t)
    (year : Z) (e : Exn) :
  tryBlock M c year = Throw e ->
  calculateDueDatesWith M c year = Ok [] /\
  (forall c' year' e', calculateDueDatesWith M c' year' <> Throw e') /\
  (forall db user entity entityId rest,
     stageTasks (calculateDueDatesWith M) db user entity entityId year (c :: rest) =
     stageTasks (calculateDueDatesWith M) db user entity entityId year rest).
Proof.
  intros Ht.
  assert (Hc : calculateDueDatesWith M c year = Ok [])
    by (unfold calculateDueDatesWith; rewrite Ht; reflexivity).
  split; [exact Hc |]. split.
  - intros c' year' e'. unfold calculateDueDatesWith.
    destruct (tryBlock M c' year'); discriminate.
  - intros. apply stageTasks_skips. exact Hc.
Qed.

Lemma exception_yields_empty_list_witness :
  let M := {| monthly := monthly (methods 2 (initializeHolidays 2025));
              quarterly := quarterly (methods 2 (initializeHolidays 2025));
              halfYearly := halfYearly (methods 2 (initializeHolidays 2025));
              yearly := yearly (methods 2 (initializeHolidays 2025));
              weekly := weekly (methods 2 (initializeHolidays 2025));
              daily := daily (methods 2 (initializeHolidays 2025));
              oneTime := oneTime (methods 2 (initializeHolidays 2025));
              adjust := fun _ => Throw (Error "date arithmetic failed") |} in
  calculateDueDatesWith M
    (Compliance.Build_t "itr" "Income tax return" None "INCOME_TAX" YEARLY
       None ["LLP"] true) 2025 = Ok [].
Proof.
  intros M.
  apply (exception_yields_empty_list M
           (Compliance.Build_t "itr" "Income tax return" None "INCOME_TAX" YEARLY
              None ["LLP"] true) 2025 (Error "date arithmetic failed")).
  reflexivity.
Defined.



(** An entity whose type matches one active YEARLY compliance gets one
    task, due on the adjusted date in April. *)
Example first_run_creates_the_yearly_task :
  exists resp db1,
    generateTasks Sample.calculator plainStorage Sample.now Sample.request
      Sample.db0 = Ok (resp, db1) /\
    Response.status resp = 201 /\ Response.tasksCreated resp = 1 /\
    (fun t => (Task.complianceId t, getFullYear (Task.dueDate t),
               getMonth (Task.dueDate t), getDate (Task.dueDate t)))
      <$> tasks db1 = [(Some "c-itr", 2025, 3, 15)].
Proof.
  eexists _, _. split; [vm_compute; reflexivity |].
  repeat split; vm_compute; reflexivity.
Qed.

End GeneratorProperties.

(** * The calendar and the date rules in closed form *)

(** ** The first business day *)

Module AdjustOrder.

Import JSDateFacts LoopFacts AdjustFacts RuleFacts.

(** The days the first loop steps over are a Saturday or a Sunday. *)
Lemma weekend_before t k :
  0 <= k <= 2 -> (0 < k -> getDay (t + k * msPerDay) = 1) ->
  forall j, 0 <= j < k ->
    getDay (t + j * msPerDay) = 0 \/ getDay (t + j * msPerDay) = 6.
Proof.
  intros Hk Hmon j Hj.
  pose proof (getDay_next t) as H1.
  pose proof (getDay_next (t + 1 * msPerDay)) as H2.
  rewrite shift_shift in H2. change (1 + 1) with 2 in H2.
  pose proof (getDay_range t) as Hr.
  pose proof (getDay_range (t + 1 * msPerDay)) as Hr1.
  assert (Hk' : k = 1 \/ k = 2) by lia.
  destruct Hk' as [-> | ->]; specialize (Hmon ltac:(lia)).
  - assert (j = 0) by lia. subst j. replace (t + 0 * msPerDay) with t by lia.
    rewrite Hmon in H1. destruct (Z.eqb_spec (getDay t) 6); lia.
  - rewrite Hmon in H2.
    destruct (Z.eqb_spec (getDay (t + 1 * msPerDay)) 6) as [? | ?]; [lia |].
    assert (H10 : getDay (t + 1 * msPerDay) = 0) by lia.
    rewrite H10 in H1.
    destruct (Z.eqb_spec (getDay t) 6); [| lia].
    assert (Hj' : j = 0 \/ j = 1) by lia.
    destruct Hj' as [-> | ->]; [replace (t + 0 * msPerDay) with t by lia |]; lia.
Qed.

(** [adjustForHolidaysAndWeekends] stops on the first business day on or
    after the date. *)
Lemma adjust_first currentYear fuel t :
  (2 <= fuel)%nat ->
  exists k,
    0 <= k <= 3 /\
    adjustForHolidaysAndWeekends (initializeHolidays currentYear) fuel t =
      Ok (t + k * msPerDay) /\
    isBusinessDay (initializeHolidays currentYear) (t + k * msPerDay) /\
    forall j, 0 <= j < k ->
      ~ isBusinessDay (initializeHolidays currentYear) (t + j * msPerDay).
Proof.
  intros Hfuel. unfold adjustForHolidaysAndWeekends.
  destruct (skip_weekend fuel t Hfuel) as (k1 & Hk1 & -> & Hd1 & Hmon).
  pose proof (weekend_before t k1 Hk1 Hmon) as Hwk.
  cbn [mbind res_bind]. cbv zeta.
  set (d1 := t + k1 * msPerDay) in *.
  set (hs := default [] (initializeHolidays currentYear !! pretty (getFullYear d1))).
  assert (Hhs : hs = [] \/ hs = holidaysOfYear (getFullYear d1)).
  { unfold hs. rewrite initializeHolidays_lookup.
    destruct (bool_decide _); cbn; auto. }
  assert (Hbus : forall r, getFullYear r = getFullYear d1 ->
                           isHoliday (initializeHolidays currentYear) r = listed hs r).
  { intros r Hr. unfold isHoliday. rewrite Hr. reflexivity. }
  assert (Hweekend : forall j, 0 <= j < k1 ->
            ~ isBusinessDay (initializeHolidays currentYear) (t + j * msPerDay)).
  { intros j Hj (H0 & H6 & _). destruct (Hwk j Hj); contradiction. }
  fold (listed hs d1).
  destruct (listed hs d1) eqn:El.
  2: { exists k1. fold d1. unfold isBusinessDay at 1.
       rewrite Hbus, El by reflexivity. repeat split; try lia. exact Hweekend. }
  assert (Hhol : ~ isBusinessDay (initializeHolidays currentYear) d1).
  { intros (_ & _ & Hh). rewrite Hbus, El in Hh by reflexivity. discriminate. }
  destruct Hhs as [Hhs | Hhs]; [rewrite Hhs in El; discriminate |].
  rewrite setDate_shift.
  destruct (after_holiday _ d1 1 eq_refl) as [Hy1 Hl1]; [congruence | lia |].
  destruct (after_holiday _ d1 3 eq_refl) as [Hy3 Hl3]; [congruence | lia |].
  specialize (Hl1 ltac:(lia)). specialize (Hl3 ltac:(lia)).
  rewrite <- Hhs in Hl1, Hl3.
  pose proof (getDay_next d1) as Hn1.
  destruct (Z.eq_dec (getDay d1) 5) as [H5 | H5].
  - assert (k1 = 0) by lia. subst k1.
    assert (Ht : d1 = t) by (unfold d1; lia).
    assert (H1 : getDay (d1 + 1 * msPerDay) = 6) by (rewrite Hn1, H5; reflexivity).
    assert (H2 : getDay (d1 + 2 * msPerDay) = 0).
    { replace (d1 + 2 * msPerDay) with (d1 + 1 * msPerDay + 1 * msPerDay) by lia.
      rewrite getDay_next, H1. reflexivity. }
    assert (H3 : getDay (d1 + 3 * msPerDay) = 1).
    { replace (d1 + 3 * msPerDay) with (d1 + 2 * msPerDay + 1 * msPerDay) by lia.
      rewrite getDay_next, H2. reflexivity. }
    exists 3. rewrite <- Ht.
    split; [lia |]. split; [| split].
    + destruct fuel as [| [| fuel]]; try lia.
      rewrite while_true by (cbn beta; rewrite H1; reflexivity).
      rewrite setDate_shift, shift_shift. change (1 + 1) with 2.
      rewrite while_true by (cbn beta; rewrite H2; reflexivity).
      rewrite setDate_shift, shift_shift. change (2 + 1) with 3.
      apply while_false. cbn beta. rewrite H3. exact Hl3.
    + unfold isBusinessDay. rewrite H3, Hbus, Hl3 by exact Hy3. repeat split; lia.
    + intros j Hj. assert (Hj' : j = 0 \/ j = 1 \/ j = 2) by lia.
      destruct Hj' as [-> | [-> | ->]].
      * replace (d1 + 0 * msPerDay) with d1 by lia. exact Hhol.
      * intros (_ & H6 & _). contradiction.
      * intros (H0 & _). contradiction.
  - exists (k1 + 1).
    replace (t + (k1 + 1) * msPerDay) with (d1 + 1 * msPerDay) by (unfold d1; lia).
    assert (H1 : getDay (d1 + 1 * msPerDay) = getDay d1 + 1).
    { rewrite Hn1. destruct (Z.eqb_spec (getDay d1) 6); [lia | reflexivity]. }
    split; [lia |]. split; [| split].
    + apply while_false. cbn beta. rewrite H1.
      destruct (Z.eqb_spec (getDay d1 + 1) 0), (Z.eqb_spec (getDay d1 + 1) 6);
        try lia. exact Hl1.
    + unfold isBusinessDay. rewrite H1, Hbus, Hl1 by exact Hy1. repeat split; lia.
    + intros j Hj. destruct (Z.eq_dec j k1) as [-> | Hne].
      * exact Hhol.
      * apply Hweekend. lia.
Qed.

End AdjustOrder.

(** ** The holiday table by month and day *)

Module HolidayFacts.

Import JSDateFacts LoopFacts AdjustFacts RuleFacts.

Lemma isHoliday_lookup currentYear t :
  isHoliday (initializeHolidays currentYear) t =
  if bool_decide (currentYear <= getFullYear t <= currentYear + 2)
  then listed (holidaysOfYear (getFullYear t)) t else false.
Proof.
  unfold isHoliday, listed. rewrite initializeHolidays_lookup.
  destruct (bool_decide _); cbn [default from_option id]; reflexivity.
Qed.

(** Day within the year of a calendar date. *)
Lemma DayWithinYear_fields d :
  DayWithinYear d =
    MonthStart (MonthFromDay d) (LeapOf (YearFromDay d)) + DateFromDay d - 1 /\
  0 <= MonthFromDay d < 12 /\
  1 <= DateFromDay d <= DaysInMonth (YearFromDay d) (MonthFromDay d).
Proof.
  destruct (MakeDay_fields d) as [Hmk Hdt].
  pose proof (MonthFromDay_range d) as Hm.
  rewrite MakeDay_in_year in Hmk by exact Hm.
  unfold DayWithinYear. split; [lia | split; assumption].
Qed.

(** The nine offsets of the holiday table, read as month and day. *)
Lemma holidayOffset_fields d :
  holidayOffset (LeapOf (YearFromDay d)) (DayWithinYear d) <->
  (MonthFromDay d = 0 /\ DateFromDay d = 26) \/
  (MonthFromDay d = 7 /\ DateFromDay d = 15) \/
  (MonthFromDay d = 9 /\ DateFromDay d = 2) \/
  (MonthFromDay d = 2 /\ DateFromDay d = 8) \/
  (MonthFromDay d = 3 /\ DateFromDay d = 14) \/
  (MonthFromDay d = 7 /\ DateFromDay d = 19) \/
  (MonthFromDay d = 9 /\ DateFromDay d = 24) \/
  (MonthFromDay d = 10 /\ DateFromDay d = 12) \/
  (MonthFromDay d = 11 /\ DateFromDay d = 25).
Proof.
  destruct (DayWithinYear_fields d) as (Hw & Hm & Hdt).
  pose proof (LeapOf_cases (YearFromDay d)) as HL.
  unfold holidayOffset. rewrite Hw. clear Hw.
  unfold DaysInMonth in Hdt.
  remember (LeapOf (YearFromDay d)) as L eqn:EL. clear EL.
  remember (DateFromDay d) as dt eqn:Edt. clear Edt.
  remember (MonthFromDay d) as m eqn:Em. clear Em.
  month_cases m; cbn [MonthStart] in *; lia.
Qed.

End HolidayFacts.

(** ** Lists of adjusted dates *)

Module CollectFacts.

Import JSDateFacts LoopFacts AdjustFacts RuleFacts AdjustOrder HolidayFacts.

Lemma mapM_length {A B : Type} (f : A -> res B) l bs :
  mapM f l = Ok bs -> length bs = length l.
Proof.
  revert bs. induction l as [| a l IH]; intros bs; cbn.
  - intros [= <-]. reflexivity.
  - destruct (f a) as [b | e |]; cbn; try discriminate.
    destruct (mapM f l) as [bs' | e |]; cbn; try discriminate.
    intros [= <-]. cbn. f_equal. apply IH. reflexivity.
Qed.

Lemma mapM_lookup {A B : Type} (f : A -> res B) l bs i b :
  mapM f l = Ok bs -> bs !! i = Some b ->
  exists a, l !! i = Some a /\ f a = Ok b.
Proof.
  revert bs i. induction l as [| a l IH]; intros bs i; cbn.
  - intros [= <-]. rewrite lookup_nil. discriminate.
  - destruct (f a) as [b' | e |] eqn:Ea; cbn; try discriminate.
    destruct (mapM f l) as [bs' | e |]; cbn; try discriminate.
    intros [= <-]. destruct i as [| i]; cbn.
    + intros [= <-]. eauto.
    + intros Hb. apply (IH bs' i); [reflexivity | exact Hb].
Qed.

Lemma mapM_lookup_2 {A B : Type} (f : A -> res B) l bs i a :
  mapM f l = Ok bs -> l !! i = Some a ->
  exists b, bs !! i = Some b /\ f a = Ok b.
Proof.
  revert bs i. induction l as [| a' l IH]; intros bs i; cbn.
  - intros _. rewrite lookup_nil. discriminate.
  - destruct (f a') as [b' | e |] eqn:Ea; cbn; try discriminate.
    destruct (mapM f l) as [bs' | e |]; cbn; try discriminate.
    intros [= <-]. destruct i as [| i]; cbn.
    + intros [= <-]. eauto.
    + intros Ha. apply (IH bs' i); [reflexivity | exact Ha].
Qed.

(** The calculator adjusts whatever the periodicity rule returned, date
    by date. *)
Lemma calculateDueDates_of_raw currentYear fuel c year raw :
  (2 <= fuel)%nat ->
  rawDueDates (methods fuel (initializeHolidays currentYear)) c year = Ok raw ->
  exists ds,
    calculateDueDates fuel (initializeHolidays currentYear) c year = Ok ds /\
    mapM (adjustForHolidaysAndWeekends (initializeHolidays currentYear) fuel) raw
      = Ok ds.
Proof.
  intros Hfuel Hraw.
  unfold calculateDueDates, calculateDueDatesWith, tryBlock. rewrite Hraw.
  cbn [mbind res_bind adjust methods].
  destruct (mapM_total
              (adjustForHolidaysAndWeekends (initializeHolidays currentYear) fuel) raw)
    as [ds Hds]; [| rewrite Hds; eauto].
  intros a _. apply adjust_returns. exact Hfuel.
Qed.

Lemma newDate_days y m dt : newDate y m dt = MakeDay (fullYear y) m dt * msPerDay.
Proof. unfold newDate, MakeDate. lia. Qed.

(** Months follow one another. *)
Lemma month_order y i j :
  0 <= i -> i < j -> j < 12 ->
  MakeDay y i 1 + DaysInMonth y i <= MakeDay y j 1.
Proof.
  intros Hi Hij Hj. rewrite !MakeDay_in_year by lia.
  pose proof (LeapOf_cases y) as HL. unfold DaysInMonth.
  remember (LeapOf y) as L eqn:EL. clear EL.
  month_cases i; month_cases j; cbn [MonthStart]; lia.
Qed.

(** The raw MONTHLY dates, for a day of the month. *)
Lemma monthly_raw c year month :
  let dueDay := orElse (extractDueDayFromRules (Compliance.dueDateRules c)) 15 in
  1 <= dueDay <= 31 -> 0 <= month < 12 ->
  calculateMonthlyDueDates c year !! Z.to_nat month =
  Some (newDate year month (Z.min dueDay (DaysInMonth (fullYear year) month))).
Proof.
  intros dueDay Hd Hm. rewrite calculateMonthlyDueDates_lookup by exact Hm.
  fold dueDay. rewrite monthly_body by assumption. reflexivity.
Qed.

Lemma calculateMonthlyDueDates_length c year :
  length (calculateMonthlyDueDates c year) = 12%nat.
Proof. unfold calculateMonthlyDueDates. rewrite length_map. reflexivity. Qed.

End CollectFacts.

(** ** The loops over a year *)

Module YearWalk.

Import JSDateFacts LoopFacts AdjustFacts RuleFacts AdjustOrder HolidayFacts CollectFacts.

Lemma getDay_shift t j : getDay (t + j * msPerDay) = (getDay t + j) mod 7.
Proof.
  unfold getDay, WeekDay. rewrite Day_shift.
  rewrite Zplus_mod_idemp_l. f_equal. lia.
Qed.

Lemma seqZ_snoc n : 0 <= n -> seqZ 0 (n + 1) = seqZ 0 n ++ [n].
Proof.
  intros Hn. rewrite seqZ_app by lia. f_equal.
Qed.

(** The second loop of [calculateWeeklyDueDates], from the first
    occurrence [k] days into the year. *)
Lemma weekly_collect_exact fuel start endDate k :
  0 <= k -> start + k * msPerDay <= endDate ->
  Day endDate - Day start < 366 -> (366 <= fuel)%nat ->
  exists n,
    0 < n /\
    while fuel (fun st : Date * list Date => fst st <=? endDate)
          (fun st => (setDate (fst st) (getDate (fst st) + 7), snd st ++ [fst st]))
          (start + k * msPerDay, [])
      = Ok (start + (k + 7 * n) * msPerDay,
            (fun i => start + (k + 7 * i) * msPerDay) <$> seqZ 0 n) /\
    start + (k + 7 * (n - 1)) * msPerDay <= endDate < start + (k + 7 * n) * msPerDay.
Proof.
  intros Hk Hfirst Hspan Hfuel.
  destruct (while_terminates (fun st : Date * list Date => fst st <=? endDate)
              (fun st => (setDate (fst st) (getDate (fst st) + 7), snd st ++ [fst st]))
              (fun st => Z.to_nat (Day endDate - Day (fst st) + 1)) fuel
              (start + k * msPerDay, []))
    as [st Hw].
  { intros [cur acc] Hc. cbn [fst snd] in *. apply Z.leb_le in Hc.
    rewrite setDate_shift, Day_shift. pose proof (Day_le _ _ Hc). lia. }
  { cbn [fst]. rewrite Day_shift. lia. }
  destruct (while_invariant (fun st : Date * list Date => fst st <=? endDate)
              (fun st => (setDate (fst st) (getDate (fst st) + 7), snd st ++ [fst st]))
              (fun st : Date * list Date =>
                 exists n, 0 <= n /\
                   st = (start + (k + 7 * n) * msPerDay,
                         (fun i => start + (k + 7 * i) * msPerDay) <$> seqZ 0 n) /\
                   (0 < n -> start + (k + 7 * (n - 1)) * msPerDay <= endDate))
              fuel (start + k * msPerDay, []) st)
    as [(n & Hn & -> & Hlast) Hc]; [| | exact Hw |].
  - exists 0. split; [lia |]. split; [| lia].
    f_equal. f_equal. lia.
  - intros [cur acc] (n & Hn & [= -> ->] & Hlast) Hc. cbn [fst snd] in *.
    apply Z.leb_le in Hc. exists (n + 1). split; [lia |]. split.
    + rewrite setDate_shift, seqZ_snoc, fmap_app by lia. cbn [fmap list_fmap].
      f_equal. lia.
    + intros _. replace (n + 1 - 1) with n by lia. exact Hc.
  - cbn [fst] in Hc. apply Z.leb_gt in Hc.
    assert (0 < n).
    { destruct (Z.eq_dec n 0) as [-> | ?]; [| lia].
      replace (k + 7 * 0) with k in Hc by lia. lia. }
    exists n. split; [assumption |]. split; [exact Hw |]. split; [auto | lia].
Qed.

(** The loop of [calculateDailyDueDates]: every day of the year is
    visited, and the Mondays to Fridays are kept, in order. *)
Lemma daily_collect fuel start N :
  0 < N -> (Z.to_nat N <= fuel)%nat ->
  while fuel (fun st : Date * list Date => fst st <=? start + (N - 1) * msPerDay)
        (fun st =>
           (setDate (fst st) (getDate (fst st) + 1),
            if negb (getDay (fst st) =? 0) && negb (getDay (fst st) =? 6)
            then snd st ++ [fst st] else snd st))
        (start, [])
    = Ok (start + N * msPerDay,
          filter (fun d => getDay d <> 0 /\ getDay d <> 6)
                 ((fun i => start + i * msPerDay) <$> seqZ 0 N)).
Proof.
  intros HN Hfuel.
  match goal with
  | |- while fuel ?c ?b ?s = _ =>
      destruct (while_terminates c b
                  (fun st => Z.to_nat (Day (start + (N - 1) * msPerDay)
                                       - Day (fst st) + 1))
                  fuel s) as [st Hw];
      [| | rewrite Hw;
           destruct (while_invariant c b
                  (fun st : Date * list Date =>
                     exists n, 0 <= n <= N /\
                       st = (start + n * msPerDay,
                             filter (fun d => getDay d <> 0 /\ getDay d <> 6)
                                    ((fun i => start + i * msPerDay) <$> seqZ 0 n)))
                  fuel s st) as [(n & Hn & ->) Hc]; [| | exact Hw |]]
  end.
  - intros [cur acc] Hc. cbn [fst snd] in *. apply Z.leb_le in Hc.
    rewrite setDate_shift, (Day_shift cur 1). pose proof (Day_le _ _ Hc). lia.
  - cbn [fst]. rewrite Day_shift. lia.
  - exists 0. split; [lia |]. f_equal. lia.
  - intros [cur acc] (n & Hn & [= -> ->]) Hc. cbn [fst snd] in *.
    apply Z.leb_le in Hc. pose proof msPerDay_pos.
    assert (n < N) by nia.
    exists (n + 1). split; [lia |].
    rewrite setDate_shift, shift_shift, seqZ_snoc, fmap_app, filter_app by lia.
    f_equal. cbn [fmap list_fmap]. rewrite filter_cons, filter_nil.
    destruct (Z.eqb_spec (getDay (start + n * msPerDay)) 0),
             (Z.eqb_spec (getDay (start + n * msPerDay)) 6);
      cbn [negb andb]; case_decide; try tauto; try lia.
    all: rewrite app_nil_r; reflexivity.
  - cbn [fst] in Hc. apply Z.leb_gt in Hc. pose proof msPerDay_pos.
    assert (n = N) by nia. subst n. reflexivity.
Qed.

End YearWalk.

(** ** A holiday and the day after it *)

Module RepeatFacts.

Import JSDateFacts LoopFacts AdjustFacts RuleFacts GeneratorFacts.
Import AdjustOrder HolidayFacts CollectFacts YearWalk.

(** Two different inputs with the same image leave a repeated entry. *)
Lemma mapM_collision {A B : Type} (f : A -> res B) l bs a a' b :
  mapM f l = Ok bs -> a ∈ l -> a' ∈ l -> a <> a' ->
  f a = Ok b -> f a' = Ok b -> ~ NoDup bs.
Proof.
  intros Hm Ha Ha' Hne Hfa Hfa' Hnd.
  apply list_elem_of_lookup in Ha as [i Hi].
  apply list_elem_of_lookup in Ha' as [j Hj].
  destruct (mapM_lookup_2 _ _ _ _ _ Hm Hi) as (b1 & Hb1 & E1).
  destruct (mapM_lookup_2 _ _ _ _ _ Hm Hj) as (b2 & Hb2 & E2).
  rewrite Hfa in E1. rewrite Hfa' in E2. injection E1 as <-. injection E2 as <-.
  pose proof (NoDup_lookup _ _ _ _ Hnd Hb1 Hb2) as ->. congruence.
Qed.

(** Every year has a listed holiday on a Monday to Friday. *)
Lemma weekday_holiday year :
  exists o,
    holidayOffset (LeapOf (fullYear year)) o /\
    1 <= getDay (newDate year 0 1 + o * msPerDay) <= 5.
Proof.
  pose proof (LeapOf_cases (fullYear year)) as HL.
  pose proof (getDay_range (newDate year 0 1)) as Hr.
  assert (Hex : exists o, holidayOffset (LeapOf (fullYear year)) o /\
                  1 <= (getDay (newDate year 0 1) + o) mod 7 <= 5).
  { unfold holidayOffset.
    remember (LeapOf (fullYear year)) as L eqn:EL. clear EL.
    remember (getDay (newDate year 0 1)) as g eqn:Eg. clear Eg.
    assert (Hg : g = 0 \/ g = 1 \/ g = 2 \/ g = 3 \/ g = 4 \/ g = 5 \/ g = 6) by lia.
    destruct HL as [-> | ->];
      destruct Hg as [-> | [-> | [-> | [-> | [-> | [-> | ->]]]]]];
      first [ exists 25; split; [lia | vm_compute; split; discriminate]
            | exists (226 + 0); split; [lia | vm_compute; split; discriminate]
            | exists (226 + 1); split; [lia | vm_compute; split; discriminate]
            | exists (274 + 0); split; [lia | vm_compute; split; discriminate]
            | exists (274 + 1); split; [lia | vm_compute; split; discriminate] ]. }
  destruct Hex as (o & Ho & Hd). exists o. rewrite getDay_shift. auto.
Qed.

(** The adjustment of a holiday on a Monday to Friday, in a year the
    calculator has a list for, is the next Monday to Friday, which is
    also what that next day is adjusted to. *)
Lemma holiday_meets_next_day currentYear fuel year o :
  (2 <= fuel)%nat ->
  currentYear <= year <= currentYear + 2 -> ~ (0 <= year <= 99) ->
  holidayOffset (LeapOf (fullYear year)) o ->
  1 <= getDay (newDate year 0 1 + o * msPerDay) <= 5 ->
  exists k,
    1 <= k <= 3 /\
    adjustForHolidaysAndWeekends (initializeHolidays currentYear) fuel
      (newDate year 0 1 + o * msPerDay)
      = Ok (newDate year 0 1 + (o + k) * msPerDay) /\
    adjustForHolidaysAndWeekends (initializeHolidays currentYear) fuel
      (newDate year 0 1 + (o + k) * msPerDay)
      = Ok (newDate year 0 1 + (o + k) * msPerDay) /\
    1 <= getDay (newDate year 0 1 + (o + k) * msPerDay) <= 5.
Proof.
  intros Hfuel Hwin Hplain Ho Hwd.
  set (cal := initializeHolidays currentYear).
  set (H := newDate year 0 1 + o * msPerDay) in *.
  pose proof (LeapOf_cases (fullYear year)) as HL.
  pose proof (fullYear_plain _ Hplain) as Hfy.
  destruct (year_span year) as [Hs _].
  assert (HdayH : Day H = DayFromYear year + o).
  { unfold H. rewrite Day_shift, Hs, Day_of_days, Hfy. reflexivity. }
  assert (HyH : getFullYear H = year).
  { unfold getFullYear. apply YearFromDay_unique. rewrite DayFromYear_next.
    rewrite Hfy in Ho, HL. unfold holidayOffset in Ho. lia. }
  assert (Hl : listed (holidaysOfYear year) H = true).
  { apply listed_holidaysOfYear. rewrite HdayH, Hfy.
    replace (DayFromYear year + o - DayFromYear year) with o by lia.
    rewrite <- Hfy at 1. exact Ho. }
  assert (Hhol : ~ isBusinessDay cal H).
  { intros (_ & _ & Hh). unfold cal in Hh.
    rewrite isHoliday_lookup, HyH, bool_decide_eq_true_2, Hl in Hh by exact Hwin.
    discriminate. }
  assert (Hafter : forall k, 1 <= k <= 3 -> k <> 2 ->
            1 <= getDay (H + k * msPerDay) <= 5 ->
            isBusinessDay cal (H + k * msPerDay)).
  { intros k Hk Hk2 Hg.
    destruct (after_holiday year H k HyH Hl Hk) as [Hy Hnl].
    unfold isBusinessDay, cal.
    rewrite isHoliday_lookup, Hy, bool_decide_eq_true_2, (Hnl Hk2) by exact Hwin.
    repeat split; lia. }
  pose proof (getDay_shift H 1) as H1. pose proof (getDay_shift H 2) as H2.
  pose proof (getDay_shift H 3) as H3.
  destruct (adjust_first currentYear fuel H Hfuel) as (k & Hk & Ha & Hb & Hmin).
  fold cal in Ha, Hb, Hmin.
  assert (Hk0 : k <> 0).
  { intros ->. apply Hhol. replace H with (H + 0 * msPerDay) by lia. exact Hb. }
  destruct (Z.eq_dec (getDay H) 5) as [H5 | H5].
  - (* a Friday: Saturday and Sunday are no business days *)
    assert (k = 3).
    { destruct Hb as (Hb0 & Hb6 & _).
      rewrite getDay_shift, H5 in Hb0, Hb6.
      assert (Hk' : k = 1 \/ k = 2 \/ k = 3) by lia.
      destruct Hk' as [-> | [-> | ->]]; [exfalso; apply Hb6 | exfalso; apply Hb0 |];
        reflexivity. }
    subst k. exists 3. split; [lia |].
    replace (newDate year 0 1 + (o + 3) * msPerDay) with (H + 3 * msPerDay)
      by (unfold H; lia).
    split; [exact Ha |]. split; [apply adjust_business_day; exact Hb |].
    rewrite H3, H5. vm_compute. split; discriminate.
  - assert (Hg1 : getDay (H + 1 * msPerDay) = getDay H + 1).
    { rewrite H1. apply Z.mod_small. lia. }
    assert (Hb1 : isBusinessDay cal (H + 1 * msPerDay)).
    { apply Hafter; lia. }
    assert (k = 1).
    { destruct (Z.eq_dec k 1) as [? | ?]; [assumption |].
      exfalso. apply (Hmin 1); [lia | exact Hb1]. }
    subst k. exists 1. split; [lia |].
    replace (newDate year 0 1 + (o + 1) * msPerDay) with (H + 1 * msPerDay)
      by (unfold H; lia).
    split; [exact Ha |]. split; [apply adjust_business_day; exact Hb |]. lia.
Qed.

End RepeatFacts.

(** * Business days and holidays *)

Module CalendarProperties.

Import JSDateFacts LoopFacts AdjustFacts RuleFacts GeneratorFacts.
Import AdjustOrder HolidayFacts.

(** X1.  [getNextBusinessDay], and the private adjustment it calls,
    returns the first business day on or after the date: the date moved
    forward by at most three whole days, with no business day stepped
    over and the time of day kept.  The date comes back unchanged exactly
    when it is a business day itself.  Two iterations per loop suffice. *)
Theorem next_business_day_is_first currentYear fuel (d : Date) :
  (2 <= fuel)%nat ->
  let cal := initializeHolidays currentYear in
  exists k,
    0 <= k <= 3 /\
    getNextBusinessDay cal fuel d = Ok (d + k * msPerDay) /\
    adjustForHolidaysAndWeekends cal fuel d = Ok (d + k * msPerDay) /\
    isBusinessDay cal (d + k * msPerDay) /\
    (forall j, 0 <= j < k -> ~ isBusinessDay cal (d + j * msPerDay)) /\
    TimeWithinDay (d + k * msPerDay) = TimeWithinDay d /\
    (k = 0 <-> isBusinessDay cal d).
Proof.
  intros Hfuel cal.
  destruct (adjust_first currentYear fuel d Hfuel) as (k & Hk & Ha & Hb & Hmin).
  exists k. unfold getNextBusinessDay. fold cal in Ha, Hb, Hmin.
  repeat (split; [assumption |]). split.
  - unfold TimeWithinDay. apply Z.mod_add. discriminate.
  - split.
    + intros ->. replace d with (d + 0 * msPerDay) by lia. exact Hb.
    + intros Hd. destruct (Z.eq_dec k 0) as [-> | Hne]; [reflexivity |].
      exfalso. apply (Hmin 0); [lia |].
      replace (d + 0 * msPerDay) with d by lia. exact Hd.
Qed.

Lemma next_business_day_is_first_witness :
  exists k,
    0 <= k <= 3 /\
    getNextBusinessDay (initializeHolidays 2025) 2 (newDate 2025 7 15)
      = Ok (newDate 2025 7 15 + k * msPerDay) /\
    forall j, 0 <= j < k ->
      ~ isBusinessDay (initializeHolidays 2025) (newDate 2025 7 15 + j * msPerDay).
Proof.
  destruct (next_business_day_is_first 2025 2 (newDate 2025 7 15) ltac:(lia))
    as (k & Hk & Hn & _ & _ & Hmin & _).
  exists k. auto.
Defined.

(** X2.  [isHoliday] answers true exactly for the nine fixed month/day
    pairs of [initializeHolidays], in the three years from the one in
    which the calculator was constructed, and for no date of any other
    year. *)
Theorem isHoliday_characterised currentYear (t : Date) :
  (isHoliday (initializeHolidays currentYear) t = true) <->
  (currentYear <= getFullYear t <= currentYear + 2 /\ plainYear t /\
   (getMonth t, getDate t) ∈
     [(0, 26); (7, 15); (9, 2); (2, 8); (3, 14); (7, 19); (9, 24); (10, 12);
      (11, 25)]).
Proof.
  rewrite isHoliday_lookup.
  assert (Hin : (getMonth t, getDate t) ∈
            [(0, 26); (7, 15); (9, 2); (2, 8); (3, 14); (7, 19); (9, 24);
             (10, 12); (11, 25)] <->
          holidayOffset (LeapOf (YearFromDay (Day t))) (DayWithinYear (Day t))).
  { rewrite holidayOffset_fields. unfold getMonth, getDate.
    rewrite !elem_of_cons, elem_of_nil, !pair_equal_spec. tauto. }
  case_bool_decide as Hwin.
  - rewrite listed_holidaysOfYear, Hin. unfold plainYear.
    destruct (decide (0 <= getFullYear t <= 99)) as [Hold | Hplain].
    + split; [| tauto]. intros Ho. exfalso.
      pose proof (YearFromDay_spec (Day t)) as Hy. fold (getFullYear t) in Hy.
      pose proof (DayFromYear_le (getFullYear t + 1) (fullYear (getFullYear t))) as Hle.
      unfold fullYear in *.
      destruct (Z.leb_spec 0 (getFullYear t)), (Z.leb_spec (getFullYear t) 99);
        try lia. cbn [andb] in *.
      pose proof (LeapOf_cases (1900 + getFullYear t)).
      unfold holidayOffset in Ho. lia.
    + rewrite (fullYear_plain _ Hplain). unfold DayWithinYear, getFullYear. tauto.
  - split; [discriminate | tauto].
Qed.

(** X3.  [getHolidays] knows the three years from the one in which the
    calculator was constructed, nine holidays each, and returns the empty
    list for every other year; [isHoliday] agrees with it: the listed
    dates are holidays, and a date of a year outside the window never
    is. *)
Theorem getHolidays_window currentYear (year : Z) :
  let cal := initializeHolidays currentYear in
  (currentYear <= year <= currentYear + 2 ->
   length (getHolidays cal year) = 9%nat /\
   (~ (0 <= year <= 99) ->
    Forall (fun h => getFullYear (IndianHoliday.date h) = year /\
                     isHoliday cal (IndianHoliday.date h) = true)
           (getHolidays cal year))) /\
  (~ (currentYear <= year <= currentYear + 2) ->
   getHolidays cal year = [] /\
   forall t, getFullYear t = year -> isHoliday cal t = false).
Proof.
  intros cal. unfold getHolidays, cal. rewrite initializeHolidays_lookup.
  split; intros Hwin.
  - rewrite bool_decide_eq_true_2 by exact Hwin. cbn [default from_option id].
    split; [reflexivity |]. intros Hplain.
    assert (Hf : forall m dt, 0 <= m < 12 -> 1 <= dt <= 26 ->
              getFullYear (newDate year m dt) = year /\
              isHoliday (initializeHolidays currentYear) (newDate year m dt) =
                listed (holidaysOfYear year) (newDate year m dt)).
    { intros m dt Hm Hdt.
      destruct (fields_of_newDate year m dt) as (Hy & _); [exact Hm | |].
      { pose proof (DaysInMonth_range (fullYear year) m). lia. }
      rewrite (fullYear_plain _ Hplain) in Hy. split; [exact Hy |].
      rewrite isHoliday_lookup, Hy, bool_decide_eq_true_2 by exact Hwin.
      reflexivity. }
    unfold holidaysOfYear.
    repeat (apply Forall_cons_2; [cbn [IndianHoliday.date] |]); [.. | constructor].
    all: match goal with
         | |- context [newDate _ ?m ?dt] =>
             destruct (Hf m dt ltac:(lia) ltac:(lia)) as [Hy ->]; split; [exact Hy |]
         end.
    all: apply listed_holidaysOfYear; rewrite Day_newDate, (fullYear_plain _ Hplain).
    all: rewrite MakeDay_in_year by lia; unfold holidayOffset; cbn [MonthStart]; lia.
  - rewrite bool_decide_eq_false_2 by exact Hwin. split; [reflexivity |].
    intros t Ht. rewrite isHoliday_lookup, Ht, bool_decide_eq_false_2 by exact Hwin.
    reflexivity.
Qed.

Lemma getHolidays_window_witness :
  length (getHolidays (initializeHolidays 2025) 2027) = 9%nat /\
  getHolidays (initializeHolidays 2025) 2028 = [] /\
  isHoliday (initializeHolidays 2025) (newDate 2028 0 26) = false.
Proof.
  destruct (getHolidays_window 2025 2027) as [Hin _].
  destruct (getHolidays_window 2025 2028) as [_ Hout].
  destruct (Hin ltac:(lia)) as [Hlen _].
  destruct (Hout ltac:(lia)) as [Hnil Hno].
  split; [exact Hlen |]. split; [exact Hnil |].
  apply Hno. vm_compute. reflexivity.
Defined.

End CalendarProperties.

(** * The dates of each periodicity *)

Module RuleProperties.

Import JSDateFacts LoopFacts AdjustFacts RuleFacts GeneratorFacts.
Import AdjustOrder HolidayFacts CollectFacts YearWalk RepeatFacts.

(** X4.  MONTHLY, for a day of the month from 1 to 31 (or none: 15): the
    calculator returns twelve dates in strictly increasing order; the
    date at index [m] is day [min dueDay (length of month m)] of month [m]
    moved forward by at most three days. *)
Theorem monthly_dates_in_order currentYear fuel (c : Compliance.t) (year : Z) :
  Compliance.periodicity c = MONTHLY -> (2 <= fuel)%nat ->
  let dueDay := orElse (extractDueDayFromRules (Compliance.dueDateRules c)) 15 in
  1 <= dueDay <= 31 ->
  exists ds,
    calculateDueDates fuel (initializeHolidays currentYear) c year = Ok ds /\
    length ds = 12%nat /\
    (forall m, 0 <= m < 12 ->
       exists k, 0 <= k <= 3 /\
         ds !! Z.to_nat m =
           Some (newDate year m (Z.min dueDay (DaysInMonth (fullYear year) m))
                 + k * msPerDay)) /\
    (forall i j a b,
       ds !! i = Some a -> ds !! j = Some b -> (i < j)%nat -> a < b).
Proof.
  intros Hp Hfuel dueDay Hd.
  destruct (calculateDueDates_of_raw currentYear fuel c year
              (calculateMonthlyDueDates c year) Hfuel) as (ds & Hds & Hmap).
  { unfold rawDueDates. rewrite Hp. reflexivity. }
  exists ds. split; [exact Hds |].
  assert (Hlen : length ds = 12%nat).
  { rewrite (mapM_length _ _ _ Hmap). apply calculateMonthlyDueDates_length. }
  split; [exact Hlen |].
  assert (Hat : forall i a, ds !! i = Some a ->
            exists k, 0 <= k <= 3 /\ 0 <= Z.of_nat i < 12 /\
              a = newDate year (Z.of_nat i)
                    (Z.min dueDay (DaysInMonth (fullYear year) (Z.of_nat i)))
                  + k * msPerDay).
  { intros i a Ha.
    assert (Hi : (i < 12)%nat) by (rewrite <- Hlen; eapply lookup_lt_Some; exact Ha).
    destruct (mapM_lookup _ _ _ _ _ Hmap Ha) as (r & Hr & Hadj).
    pose proof (monthly_raw c year (Z.of_nat i) Hd ltac:(lia)) as Hraw.
    rewrite Nat2Z.id in Hraw. fold dueDay in Hraw. rewrite Hraw in Hr.
    injection Hr as <-.
    apply adjust_Ok in Hadj as [(k & Hk & ->) _]. exists k. repeat split; lia. }
  split.
  - intros m Hm.
    destruct (lookup_lt_is_Some_2 ds (Z.to_nat m)) as [a Ha]; [lia |].
    destruct (Hat _ _ Ha) as (k & Hk & _ & ->). rewrite Z2Nat.id in Ha by lia.
    exists k. split; [exact Hk | exact Ha].
  - intros i j a b Ha Hb Hij.
    destruct (Hat _ _ Ha) as (k & Hk & Hi & ->).
    destruct (Hat _ _ Hb) as (k' & Hk' & Hj & ->).
    rewrite !newDate_days.
    pose proof (month_order (fullYear year) (Z.of_nat i) (Z.of_nat j)
                  ltac:(lia) ltac:(lia) ltac:(lia)) as Hord.
    pose proof (DaysInMonth_range (fullYear year) (Z.of_nat i)).
    pose proof (DaysInMonth_range (fullYear year) (Z.of_nat j)).
    replace (Z.min dueDay (DaysInMonth (fullYear year) (Z.of_nat i)))
      with (1 + (Z.min dueDay (DaysInMonth (fullYear year) (Z.of_nat i)) - 1)) by lia.
    replace (Z.min dueDay (DaysInMonth (fullYear year) (Z.of_nat j)))
      with (1 + (Z.min dueDay (DaysInMonth (fullYear year) (Z.of_nat j)) - 1)) by lia.
    rewrite !MakeDay_add. unfold msPerDay. lia.
Qed.

Lemma monthly_dates_in_order_witness :
  exists ds,
    calculateDueDates 2 (initializeHolidays 2025)
      (Compliance.Build_t "pf" "PF return" None "ESI_PF" MONTHLY
         (Some (Build_DueDateRules (Some 31) None None None)) ["LLP"] true)
      2025 = Ok ds /\
    length ds = 12%nat /\
    (forall i j a b,
       ds !! i = Some a -> ds !! j = Some b -> (i < j)%nat -> a < b).
Proof.
  destruct (monthly_dates_in_order 2025 2
              (Compliance.Build_t "pf" "PF return" None "ESI_PF" MONTHLY
                 (Some (Build_DueDateRules (Some 31) None None None)) ["LLP"] true)
              2025 eq_refl ltac:(lia)) as (ds & Hds & Hlen & _ & Hord).
  - cbn. lia.
  - exists ds. auto.
Defined.

(** X5.  HALF_YEARLY: the calculator returns exactly two dates, the
    adjusted day [rule.dueDay] (default 15) of October of the requested
    year and of April of the year after it, in this order.  For a
    [dueDay] from 1 to 30 the two raw dates are that day of those
    months. *)
Theorem half_yearly_anchors currentYear fuel (c : Compliance.t) (year : Z) :
  Compliance.periodicity c = HALF_YEARLY -> (2 <= fuel)%nat ->
  let cal := initializeHolidays currentYear in
  let dueDay := orElse (extractDueDayFromRules (Compliance.dueDateRules c)) 15 in
  let october := newDate year 9 dueDay in
  let april := newDate (year + 1) 3 dueDay in
  exists a1 a2,
    calculateDueDates fuel cal c year = Ok [a1; a2] /\
    adjustForHolidaysAndWeekends cal fuel october = Ok a1 /\
    adjustForHolidaysAndWeekends cal fuel april = Ok a2 /\
    (1 <= dueDay <= 30 ->
     (getFullYear october, getMonth october, getDate october) =
       (fullYear year, 9, dueDay) /\
     (getFullYear april, getMonth april, getDate april) =
       (fullYear (year + 1), 3, dueDay)).
Proof.
  intros Hp Hfuel cal dueDay october april.
  destruct (adjust_returns currentYear fuel october Hfuel) as [a1 H1].
  destruct (adjust_returns currentYear fuel april Hfuel) as [a2 H2].
  exists a1, a2. fold cal in H1, H2.
  split; [| split; [exact H1 | split; [exact H2 |]]].
  - unfold calculateDueDates, calculateDueDatesWith, tryBlock, rawDueDates.
    rewrite Hp. cbn [methods halfYearly adjust mbind res_bind].
    unfold calculateHalfYearlyDueDates. fold dueDay. cbn [mapM].
    fold october april cal. rewrite H1, H2. reflexivity.
  - intros Hd. subst october april.
    destruct (fields_of_newDate year 9 dueDay) as (-> & -> & ->);
      [lia | cbn; lia |].
    destruct (fields_of_newDate (year + 1) 3 dueDay) as (-> & -> & ->);
      [lia | cbn; lia |].
    split; reflexivity.
Qed.

Lemma half_yearly_anchors_witness :
  exists a1 a2,
    calculateDueDates 2 (initializeHolidays 2025)
      (Compliance.Build_t "roc" "Half-yearly return" None "ROC_MCA" HALF_YEARLY
         None ["LLP"] true)
      2025 = Ok [a1; a2] /\
    (getFullYear a1, getMonth a1, getDate a1) = (2025, 9, 15) /\
    (getFullYear a2, getMonth a2, getDate a2) = (2026, 3, 15).
Proof.
  destruct (half_yearly_anchors 2025 2
              (Compliance.Build_t "roc" "Half-yearly return" None "ROC_MCA"
                 HALF_YEARLY None ["LLP"] true)
              2025 eq_refl ltac:(lia))
    as (a1 & a2 & Hall & H1 & H2 & _).
  exists a1, a2. split; [exact Hall |].
  vm_compute in H1. injection H1 as <-.
  vm_compute in H2. injection H2 as <-.
  split; vm_compute; reflexivity.
Defined.

(** X6.  YEARLY: the calculator returns exactly one date, the adjusted
    day [rule.dueDay] (default 15) of month [rule.dueMonth], a month index
    counted from 0 (default 3, April).  Without rules the raw date is 15
    April of the requested year; a [dueMonth] of 12 is January of the
    year after it. *)
Theorem yearly_single_date currentYear fuel (c : Compliance.t) (year : Z) :
  Compliance.periodicity c = YEARLY -> (2 <= fuel)%nat ->
  let cal := initializeHolidays currentYear in
  let dueDay := orElse (extractDueDayFromRules (Compliance.dueDateRules c)) 15 in
  let dueMonth := orElse (extractDueMonthFromRules (Compliance.dueDateRules c)) 3 in
  let raw := newDate year dueMonth dueDay in
  exists a,
    calculateDueDates fuel cal c year = Ok [a] /\
    adjustForHolidaysAndWeekends cal fuel raw = Ok a /\
    (0 <= dueMonth < 12 -> 1 <= dueDay <= DaysInMonth (fullYear year) dueMonth ->
     (getFullYear raw, getMonth raw, getDate raw) = (fullYear year, dueMonth, dueDay)) /\
    (Compliance.dueDateRules c = None ->
     (getFullYear raw, getMonth raw, getDate raw) = (fullYear year, 3, 15)) /\
    (dueMonth = 12 -> 1 <= dueDay <= 31 ->
     (getFullYear raw, getMonth raw, getDate raw) = (fullYear year + 1, 0, dueDay)).
Proof.
  intros Hp Hfuel cal dueDay dueMonth raw.
  destruct (adjust_returns currentYear fuel raw Hfuel) as [a Ha].
  exists a. fold cal in Ha. split; [| split; [exact Ha |]].
  - unfold calculateDueDates, calculateDueDatesWith, tryBlock, rawDueDates.
    rewrite Hp. cbn [methods yearly adjust mbind res_bind].
    unfold calculateYearlyDueDates. fold dueDay dueMonth. cbn [mapM].
    fold raw cal. rewrite Ha. reflexivity.
  - assert (Hf : forall m dt, 0 <= m < 12 -> 1 <= dt <= DaysInMonth (fullYear year) m ->
              (getFullYear (newDate year m dt), getMonth (newDate year m dt),
               getDate (newDate year m dt)) = (fullYear year, m, dt)).
    { intros m dt Hm Hdt.
      destruct (fields_of_newDate year m dt Hm Hdt) as (-> & -> & ->). reflexivity. }
    split; [| split].
    + intros Hm Hd. apply Hf; assumption.
    + intros Hnone. subst raw dueMonth dueDay. rewrite Hnone. cbn [extractDueDayFromRules
        extractDueMonthFromRules orElse]. apply Hf; [lia | cbn; lia].
    + intros Hm Hd. subst raw. rewrite Hm.
      unfold getFullYear, getMonth, getDate. rewrite Day_newDate.
      assert (MakeDay (fullYear year) 12 dueDay =
              MakeDay (fullYear year + 1) 0 dueDay) as ->.
      { unfold MakeDay. change (12 / 12) with 1. change (12 mod 12) with 0.
        change (0 / 12) with 0. change (0 mod 12) with 0.
        cbn [MonthStart]. rewrite !Z.add_0_r. reflexivity. }
      destruct (fields_of_MakeDay (fullYear year + 1) 0 dueDay) as (-> & -> & ->);
        [lia | cbn; lia | reflexivity].
Qed.

Lemma yearly_single_date_witness :
  exists a,
    calculateDueDates 2 (initializeHolidays 2025)
      (Compliance.Build_t "aoc4" "Annual accounts" None "ROC_MCA" YEARLY
         (Some (Build_DueDateRules (Some 30) (Some 12) None None)) ["LLP"] true)
      2025 = Ok [a] /\
    (getFullYear (newDate 2025 12 30), getMonth (newDate 2025 12 30),
     getDate (newDate 2025 12 30)) = (2026, 0, 30).
Proof.
  destruct (yearly_single_date 2025 2
              (Compliance.Build_t "aoc4" "Annual accounts" None "ROC_MCA" YEARLY
                 (Some (Build_DueDateRules (Some 30) (Some 12) None None))
                 ["LLP"] true)
              2025 eq_refl ltac:(lia)) as (a & Hall & _ & _ & _ & H12).
  exists a. split; [exact Hall |].
  apply H12; [reflexivity | cbn; lia].
Defined.

(** X7.  ONE_TIME: the calculator returns the adjusted [rule.specificDate]
    when the rule has one and it lies in the requested year, and nothing
    otherwise: at most one date, never a date computed from anything but
    the rule's own. *)
Theorem one_time_only_in_its_year currentYear fuel (c : Compliance.t) (year : Z) :
  Compliance.periodicity c = ONE_TIME -> (2 <= fuel)%nat ->
  let cal := initializeHolidays currentYear in
  exists ds,
    calculateDueDates fuel cal c year = Ok ds /\
    (length ds <= 1)%nat /\
    (forall a, a ∈ ds <->
       exists r specificDate,
         Compliance.dueDateRules c = Some r /\
         extractSpecificDateFromRules (Some r) = Some specificDate /\
         getFullYear specificDate = year /\
         adjustForHolidaysAndWeekends cal fuel specificDate = Ok a).
Proof.
  intros Hp Hfuel cal.
  unfold calculateDueDates, calculateDueDatesWith, tryBlock, rawDueDates.
  rewrite Hp. cbn [methods oneTime adjust mbind res_bind].
  unfold calculateOneTimeDueDates.
  destruct (Compliance.dueDateRules c) as [r |] eqn:Hr; cbn [extractSpecificDateFromRules].
  - destruct (specificDate r) as [sd |] eqn:Hsd.
    + destruct (Z.eqb_spec (getFullYear sd) year) as [Hy | Hy].
      * cbn [mapM mbind res_bind].
        destruct (adjust_returns currentYear fuel sd Hfuel) as [a Ha].
        fold cal in Ha. rewrite Ha. cbn [mbind res_bind].
        exists [a]. split; [reflexivity |]. split; [cbn; lia |].
        intros a'. rewrite list_elem_of_singleton. split.
        -- intros ->. exists r, sd. rewrite Hsd. auto.
        -- intros (r' & sd' & [= <-] & Hsd' & _ & Ha').
           rewrite Hsd in Hsd'. injection Hsd' as <-. congruence.
      * exists []. split; [reflexivity |]. split; [cbn; lia |].
        intros a'. rewrite elem_of_nil. split; [tauto |].
        intros (r' & sd' & [= <-] & Hsd' & Hy' & _).
        rewrite Hsd in Hsd'. injection Hsd' as <-. contradiction.
    + exists []. split; [reflexivity |]. split; [cbn; lia |].
      intros a'. rewrite elem_of_nil. split; [tauto |].
      intros (r' & sd' & [= <-] & Hsd' & _). rewrite Hsd in Hsd'. discriminate.
  - exists []. split; [reflexivity |]. split; [cbn; lia |].
    intros a'. rewrite elem_of_nil. split; [tauto |].
    intros (r' & sd' & [=] & _).
Qed.

Lemma one_time_only_in_its_year_witness :
  exists ds,
    calculateDueDates 2 (initializeHolidays 2025)
      (Compliance.Build_t "inc" "Incorporation filing" None "ROC_MCA" ONE_TIME
         (Some (Build_DueDateRules None None None (Some (newDate 2025 7 15))))
         ["LLP"] true)
      2025 = Ok ds /\
    (length ds <= 1)%nat /\
    newDate 2025 7 18 ∈ ds.
Proof.
  destruct (one_time_only_in_its_year 2025 2
              (Compliance.Build_t "inc" "Incorporation filing" None "ROC_MCA"
                 ONE_TIME
                 (Some (Build_DueDateRules None None None (Some (newDate 2025 7 15))))
                 ["LLP"] true)
              2025 eq_refl ltac:(lia)) as (ds & Hds & Hlen & Hin).
  exists ds. split; [exact Hds |]. split; [exact Hlen |].
  apply Hin. eexists _, _. split; [reflexivity |]. split; [reflexivity |].
  split; vm_compute; reflexivity.
Defined.

(** X8.  WEEKLY, for a day of the week from 0 to 6 (or none: Monday):
    [calculateWeeklyDueDates] returns the dates of the requested year
    that fall on that day of the week, all of them and no other, in
    order: the first within the first seven days of the year, then every
    seventh day, 52 or 53 dates. *)
Theorem weekly_dates_characterised fuel (c : Compliance.t) (year : Z) :
  let dayOfWeek :=
    orElse (extractDayOfWeekFromRules (Compliance.dueDateRules c)) 1 in
  let start := newDate year 0 1 in
  0 <= dayOfWeek <= 6 -> (366 <= fuel)%nat ->
  exists k n,
    0 <= k <= 6 /\ (n = 52 \/ n = 53) /\
    calculateWeeklyDueDates fuel c year =
      Ok ((fun i => start + (k + 7 * i) * msPerDay) <$> seqZ 0 n) /\
    (forall j, 0 <= j < 365 + LeapOf (fullYear year) ->
       (getDay (start + j * msPerDay) = dayOfWeek <->
        exists i, 0 <= i < n /\ j = k + 7 * i)).
Proof.
  intros dayOfWeek start Hdow Hfuel.
  destruct (year_span year) as [Hs He]. fold start in Hs.
  pose proof (LeapOf_cases (fullYear year)) as HL.
  pose proof msPerDay_pos as Hms.
  destruct (weekly_first_occurrence fuel dayOfWeek start Hdow)
    as (k & Hk & Hw1 & Hd); [lia |].
  destruct (weekly_collect_exact fuel start (newDate year 11 31) k)
    as (n & Hn & Hw2 & Hlast); [lia | rewrite Hs, He; nia | | exact Hfuel |].
  { rewrite Hs, He, !Day_of_days. lia. }
  rewrite He, Hs in Hlast.
  assert (Hn' : k + 7 * (n - 1) <= 364 + LeapOf (fullYear year) < k + 7 * n) by nia.
  exists k, n. split; [exact Hk |]. split; [lia |]. split.
  { unfold calculateWeeklyDueDates. fold dayOfWeek start. cbv zeta.
    rewrite Hw1. cbn [mbind res_bind]. unfold Date in *. rewrite Hw2. reflexivity. }
  intros j Hj. rewrite getDay_shift. rewrite getDay_shift in Hd. rewrite <- Hd.
  pose proof (getDay_range start) as Hr. split.
  - intros Hmod. exists ((j - k) / 7). revert Hmod.
    generalize (getDay start) as g. intros g. Z.div_mod_to_equations. lia.
  - intros (i & Hi & ->).
    replace (getDay start + (k + 7 * i)) with (getDay start + k + i * 7) by lia.
    apply Z.mod_add. discriminate.
Qed.

Lemma weekly_dates_characterised_witness :
  exists k n,
    calculateWeeklyDueDates 366 Sample.weeklyReturn 2025 =
      Ok ((fun i => newDate 2025 0 1 + (k + 7 * i) * msPerDay) <$> seqZ 0 n) /\
    (n = 52 \/ n = 53).
Proof.
  destruct (weekly_dates_characterised 366 Sample.weeklyReturn 2025)
    as (k & n & _ & Hn & Hds & _).
  - cbn. lia.
  - lia.
  - exists k, n. auto.
Defined.

(** X9.  DAILY: [calculateDailyDueDates] returns the Mondays to Fridays
    of the requested year, every one of them and nothing else, in
    calendar order, holidays included. *)
Theorem daily_dates_are_the_weekdays fuel (c : Compliance.t) (year : Z) :
  (366 <= fuel)%nat ->
  let start := newDate year 0 1 in
  let N := 365 + LeapOf (fullYear year) in
  exists ds,
    calculateDailyDueDates fuel c year = Ok ds /\
    ds = filter (fun d => getDay d <> 0 /\ getDay d <> 6)
           ((fun i => start + i * msPerDay) <$> seqZ 0 N) /\
    (forall d, d ∈ ds <->
       exists i, 0 <= i < N /\ d = start + i * msPerDay /\ 1 <= getDay d <= 5).
Proof.
  intros Hfuel start N. eexists. split; [| split; [reflexivity |]].
  - unfold calculateDailyDueDates. cbv zeta. fold start.
    destruct (year_span year) as [_ He].
    assert (Hend : newDate year 11 31 = start + (N - 1) * msPerDay).
    { rewrite He. unfold start, N. rewrite newDate_days.
      rewrite MakeDay_in_year by lia. cbn [MonthStart]. lia. }
    rewrite Hend, daily_collect.
    + reflexivity.
    + pose proof (LeapOf_cases (fullYear year)). lia.
    + pose proof (LeapOf_cases (fullYear year)). lia.
  - intros d. rewrite list_elem_of_filter, list_elem_of_fmap.
    pose proof (getDay_range d) as Hr. split.
    + intros (Hwd & i & -> & Hi). apply elem_of_seqZ in Hi.
      exists i. split; [lia |]. split; [reflexivity | lia].
    + intros (i & Hi & -> & Hwd). split; [lia |].
      exists i. split; [reflexivity |]. apply elem_of_seqZ. lia.
Qed.

Lemma daily_dates_are_the_weekdays_witness :
  exists ds,
    calculateDailyDueDates 366 Sample.weeklyReturn 2025 = Ok ds /\
    (newDate 2025 0 26 ∉ ds) /\ newDate 2025 0 27 ∈ ds.
Proof.
  destruct (daily_dates_are_the_weekdays 366 Sample.weeklyReturn 2025 ltac:(lia))
    as (ds & Hds & _ & Hin).
  exists ds. split; [exact Hds |]. split.
  - intros H. apply Hin in H as (i & _ & _ & Hwd). vm_compute in Hwd.
    destruct Hwd as [Hwd _]. apply Hwd. reflexivity.
  - apply Hin. exists 26. split; [vm_compute; split; [discriminate | reflexivity] |].
    split; [vm_compute; reflexivity |].
    vm_compute. split; discriminate.
Defined.

(** X10.  DAILY, in a year the calculator has a holiday list for: the
    returned list has a repeated date.  A holiday on a Monday to Friday
    is moved to the next business day, which is in the list already. *)
Theorem daily_output_repeats_a_date currentYear fuel (c : Compliance.t)
    (year : Z) :
  Compliance.periodicity c = DAILY -> (366 <= fuel)%nat ->
  currentYear <= year <= currentYear + 2 -> ~ (0 <= year <= 99) ->
  exists ds,
    calculateDueDates fuel (initializeHolidays currentYear) c year = Ok ds /\
    ~ NoDup ds.
Proof.
  intros Hp Hfuel Hwin Hplain.
  pose proof (LeapOf_cases (fullYear year)) as HL.
  set (start := newDate year 0 1).
  set (N := 365 + LeapOf (fullYear year)).
  set (raw := filter (fun d => getDay d <> 0 /\ getDay d <> 6)
                ((fun i => start + i * msPerDay) <$> seqZ 0 N)).
  assert (Hraw : calculateDailyDueDates fuel c year = Ok raw).
  { unfold calculateDailyDueDates. cbv zeta. fold start.
    destruct (year_span year) as [_ He].
    assert (Hend : newDate year 11 31 = start + (N - 1) * msPerDay).
    { rewrite He. unfold start, N. rewrite newDate_days.
      rewrite MakeDay_in_year by lia. cbn [MonthStart]. lia. }
    rewrite Hend, daily_collect; [reflexivity | unfold N; lia | unfold N; lia]. }
  destruct (calculateDueDates_of_raw currentYear fuel c year raw)
    as (ds & Hds & Hmap); [lia | |].
  { unfold rawDueDates. rewrite Hp. exact Hraw. }
  exists ds. split; [exact Hds |].
  destruct (weekday_holiday year) as (o & Ho & Hwd).
  destruct (holiday_meets_next_day currentYear fuel year o)
    as (k & Hk & Ha & Ha' & Hwd'); try assumption; [lia |].
  fold start in Ha, Ha', Hwd, Hwd'.
  assert (Hmem : forall i, 0 <= i < N -> 1 <= getDay (start + i * msPerDay) <= 5 ->
                   start + i * msPerDay ∈ raw).
  { intros i Hi Hg. unfold raw. apply list_elem_of_filter. split; [lia |].
    apply list_elem_of_fmap. exists i. split; [reflexivity |].
    apply elem_of_seqZ. lia. }
  apply (mapM_collision _ _ _ (start + o * msPerDay) (start + (o + k) * msPerDay)
           (start + (o + k) * msPerDay) Hmap).
  - apply Hmem; [| exact Hwd]. unfold holidayOffset, N in *. lia.
  - apply Hmem; [| exact Hwd']. unfold holidayOffset, N in *. lia.
  - pose proof msPerDay_pos. nia.
  - exact Ha.
  - exact Ha'.
Qed.

Lemma daily_output_repeats_a_date_witness :
  exists ds,
    calculateDueDates 366 (initializeHolidays 2025)
      (Compliance.Build_t "log" "Daily cash log" None "OTHER" DAILY
         None ["LLP"] true)
      2026 = Ok ds /\
    ~ NoDup ds.
Proof.
  apply (daily_output_repeats_a_date 2025 366
           (Compliance.Build_t "log" "Daily cash log" None "OTHER" DAILY
              None ["LLP"] true) 2026 eq_refl); lia.
Defined.

End RuleProperties.

(** * The request as a whole *)

(** ** The entity lookup and the outcome of a call *)

Module RequestFacts.

Import JSDateFacts LoopFacts AdjustFacts GeneratorFacts.

Lemma findEntity_Some db entityId tenantId entity :
  findEntity db entityId tenantId = Some entity ->
  entity ∈ entities db /\ Entity.id entity = entityId /\
  Entity.tenantId entity = tenantId.
Proof.
  unfold findEntity. intros H. apply find_some in H as [Hin Hb].
  apply andb_true_iff in Hb as [H1 H2].
  apply bool_decide_eq_true in H1, H2. rewrite list_elem_of_In. auto.
Qed.

Lemma findEntity_None db entityId tenantId :
  (forall e, e ∈ entities db -> Entity.id e = entityId ->
             Entity.tenantId e <> tenantId) ->
  findEntity db entityId tenantId = None.
Proof.
  intros H. unfold findEntity.
  destruct (find _ (entities db)) as [e |] eqn:E; [| reflexivity].
  apply find_some in E as [Hin Hb]. apply andb_true_iff in Hb as [H1 H2].
  apply bool_decide_eq_true in H1, H2. apply list_elem_of_In in Hin.
  destruct (H e Hin H1 H2).
Qed.

Lemma applicableCompliances_active db entity complianceIds c :
  c ∈ applicableCompliances db entity complianceIds ->
  c ∈ compliances db /\ Compliance.isActive c = true.
Proof.
  unfold applicableCompliances, findCompliancesByIds, findCompliancesByEntityType.
  destruct complianceIds as [[| i ids] |]; rewrite list_elem_of_filter; tauto.
Qed.

(** What a completed call did, in terms of what it staged. *)
Lemma generateTasks_Ok calc S now req db resp db1 :
  generateTasks calc S now req db = Ok (resp, db1) ->
  exists user year staged,
    stageRequest calc now req db = Ok (user, year, staged) /\
    insertStaged S req user year staged db = Ok (resp, db1).
Proof.
  unfold generateTasks.
  destruct (stageRequest calc now req db) as [[[user year] staged] | e |];
    cbn [mbind res_bind fst snd]; try discriminate.
  intros H. eauto.
Qed.

End RequestFacts.

Module RequestProperties.

Import JSDateFacts LoopFacts AdjustFacts GeneratorFacts RequestFacts.

(** X11.  Tenant isolation of [generateTasks]: when no entity with the
    requested id belongs to the caller's tenant (the id is unknown, or it
    is an entity of another tenant), the call fails with
    [NotFoundError("Entity not found")], whatever the calculator and the
    store; no response is sent and nothing is written. *)
Theorem foreign_entity_is_not_found
    (calc : Compliance.t -> Z -> res (list Date)) (S : Storage) (now : Date)
    (req : Request.t) (db : Db) (user : User.t) :
  Request.user req = Some user ->
  (forall e, e ∈ entities db -> Entity.id e = Request.entityId req ->
             Entity.tenantId e <> User.tenantId user) ->
  generateTasks calc S now req db = Throw (NotFoundError "Entity not found").
Proof.
  intros Hu He. unfold generateTasks, stageRequest. rewrite Hu.
  rewrite findEntity_None by exact He. reflexivity.
Qed.

Lemma foreign_entity_is_not_found_witness :
  generateTasks Sample.calculator plainStorage Sample.now
    {| Request.user := Some {| User.id := "u9"; User.tenantId := "t2" |};
       Request.entityId := "e1"; Request.year := Some 2025;
       Request.complianceIds := None |}
    Sample.db0
  = Throw (NotFoundError "Entity not found").
Proof.
  apply (foreign_entity_is_not_found Sample.calculator plainStorage Sample.now
           {| Request.user := Some {| User.id := "u9"; User.tenantId := "t2" |};
              Request.entityId := "e1"; Request.year := Some 2025;
              Request.complianceIds := None |}
           Sample.db0 {| User.id := "u9"; User.tenantId := "t2" |} eq_refl).
  intros e He _. cbn in He. apply list_elem_of_singleton in He. subst e.
  cbn. discriminate.
Defined.

(** X12.  A completed [generateTasks] call only appends to the task
    table: entities and catalog are untouched, the stored tasks keep
    their place, and the response counts the appended rows.  It answers
    200 with the original database when it appended nothing, 201
    otherwise. *)
Theorem generate_only_appends
    (calc : Compliance.t -> Z -> res (list Date)) (S : Storage) (now : Date)
    (req : Request.t) (db db1 : Db) (resp : Response.t) :
  generateTasks calc S now req db = Ok (resp, db1) ->
  entities db1 = entities db /\ compliances db1 = compliances db /\
  Response.success resp = true /\
  exists new,
    tasks db1 = tasks db ++ new /\
    Response.tasksCreated resp = Z.of_nat (length new) /\
    (new = [] ->
     db1 = db /\ Response.status resp = 200 /\
     Response.message resp = "No new tasks to generate") /\
    (new <> [] ->
     Response.status resp = 201 /\
     Response.message resp =
       pretty (Z.of_nat (length new)) +:+ " tasks generated successfully").
Proof.
  intros H. apply generateTasks_Ok in H as (user & year & staged & _ & H).
  unfold insertStaged in H. destruct staged as [| t ts].
  - injection H as <- <-. do 3 (split; [reflexivity |]).
    exists []. rewrite app_nil_r. do 2 (split; [reflexivity |]).
    split; [intros _; repeat split; reflexivity | intros Hne; contradiction].
  - unfold createMany in H. destruct (rejects S (tasks db) (t :: ts)); [discriminate |].
    cbn [mbind res_bind fst snd] in H. injection H as <- <-.
    unfold auditLog. destruct (auditWritable S); cbn;
      (do 3 (split; [reflexivity |]); exists (t :: ts);
       do 2 (split; [reflexivity |]);
       split; [discriminate | intros _; split; reflexivity]).
Qed.

Lemma generate_only_appends_witness :
  exists resp db1 new,
    generateTasks Sample.calculator plainStorage Sample.now Sample.request
      Sample.db0 = Ok (resp, db1) /\
    tasks db1 = tasks Sample.db0 ++ new /\
    Response.tasksCreated resp = Z.of_nat (length new) /\
    compliances db1 = compliances Sample.db0.
Proof.
  destruct (generateTasks Sample.calculator plainStorage Sample.now Sample.request
              Sample.db0) as [[resp db1] | e |] eqn:E;
    [| vm_compute in E; discriminate | vm_compute in E; discriminate].
  destruct (generate_only_appends _ _ _ _ _ _ _ E)
    as (_ & Hc & _ & new & Ht & Hn & _).
  exists resp, db1, new. auto.
Defined.

(** X13.  Every task a [generateTasks] call creates belongs to the
    caller's tenant and to the requested entity, which is an entity of
    that tenant; it carries the entity's client, the caller as creator,
    type COMPLIANCE and priority MEDIUM, and it is for an active
    compliance of the catalog, on one of the due dates the calculator
    gave for it, in a month that had no task for it. *)
Theorem created_tasks_carry_request_context
    (calc : Compliance.t -> Z -> res (list Date)) (S : Storage) (now : Date)
    (req : Request.t) (db db1 : Db) (resp : Response.t) :
  generateTasks calc S now req db = Ok (resp, db1) ->
  exists user entity new,
    Request.user req = Some user /\
    entity ∈ entities db /\ Entity.id entity = Request.entityId req /\
    Entity.tenantId entity = User.tenantId user /\
    tasks db1 = tasks db ++ new /\
    forall t, t ∈ new ->
      Task.tenantId t = User.tenantId user /\
      Task.entityId t = Request.entityId req /\
      Task.clientId t = Entity.clientId entity /\
      Task.createdBy t = User.id user /\
      Task.type t = "COMPLIANCE" /\ Task.priority t = "MEDIUM" /\
      exists c ds,
        c ∈ compliances db /\ Compliance.isActive c = true /\
        Task.complianceId t = Some (Compliance.id c) /\
        Task.title t = Compliance.name c +:+ " - " +:+ Entity.legalName entity /\
        Task.tags t = [Compliance.category c; Entity.entityType entity] /\
        calc c (default (getFullYear now) (Request.year req)) = Ok ds /\
        Task.dueDate t ∈ ds /\
        findExistingTask db (User.tenantId user) (Request.entityId req)
          (Compliance.id c) (Task.dueDate t) = None.
Proof.
  intros H. apply generateTasks_Ok in H as (user & year & staged & Hst & Hins).
  apply stageRequest_Ok in Hst as (entity & Hu & -> & He & Hstage).
  apply findEntity_Some in He as (Hin & Hid & Hten).
  apply insertStaged_Ok in Hins as (_ & _ & Htasks & _).
  exists user, entity, staged. repeat (split; [assumption |]).
  intros t Ht.
  destruct (stageTasks_elem _ _ _ _ _ _ _ _ _ Hstage Ht)
    as (c & ds & d & Hc & Hds & Hd & Hnone & ->).
  apply applicableCompliances_active in Hc as [Hcat Hact].
  cbn. repeat (split; [reflexivity |]).
  exists c, ds. repeat (split; [assumption || reflexivity |]). exact Hnone.
Qed.

Lemma created_tasks_carry_request_context_witness :
  exists resp db1 new,
    generateTasks Sample.calculator plainStorage Sample.now Sample.request
      Sample.db0 = Ok (resp, db1) /\
    tasks db1 = tasks Sample.db0 ++ new /\
    forall t, t ∈ new -> Task.tenantId t = "t1" /\ Task.createdBy t = "u1".
Proof.
  destruct (generateTasks Sample.calculator plainStorage Sample.now Sample.request
              Sample.db0) as [[resp db1] | e |] eqn:E;
    [| vm_compute in E; discriminate | vm_compute in E; discriminate].
  destruct (created_tasks_carry_request_context _ _ _ _ _ _ _ E)
    as (user & entity & new & Hu & _ & _ & _ & Ht & Hall).
  injection Hu as <-.
  exists resp, db1, new. split; [reflexivity |]. split; [exact Ht |].
  intros t Hin. destruct (Hall t Hin) as (H1 & _ & _ & H4 & _). auto.
Defined.

(** X14.  The two components together: every task [generateTasks]
    creates with the calculator's [calculateDueDates] is due on a
    business day: not a Saturday, not a Sunday, not a listed holiday. *)
Theorem created_tasks_are_due_on_business_days currentYear fuel
    (S : Storage) (now : Date) (req : Request.t) (db db1 : Db)
    (resp : Response.t) :
  generateTasks (calculateDueDates fuel (initializeHolidays currentYear))
    S now req db = Ok (resp, db1) ->
  exists new,
    tasks db1 = tasks db ++ new /\
    Forall (fun t => isBusinessDay (initializeHolidays currentYear) (Task.dueDate t))
           new.
Proof.
  intros H. apply generateTasks_Ok in H as (user & year & staged & Hst & Hins).
  apply stageRequest_Ok in Hst as (entity & _ & _ & _ & Hstage).
  apply insertStaged_Ok in Hins as (_ & _ & Htasks & _).
  exists staged. split; [exact Htasks |].
  apply Forall_forall. intros t Ht.
  destruct (stageTasks_elem _ _ _ _ _ _ _ _ _ Hstage Ht)
    as (c & ds & d & _ & Hds & Hd & _ & ->).
  cbn [Task.dueDate newTask].
  unfold calculateDueDates, calculateDueDatesWith, tryBlock in Hds.
  destruct (rawDueDates _ c year) as [raw | e |]; cbn [mbind res_bind] in Hds.
  - destruct (mapM _ raw) as [bs | e |] eqn:Hm; try discriminate.
    + injection Hds as <-.
      assert (Hall : Forall (isBusinessDay (initializeHolidays currentYear)) bs).
      { eapply mapM_Ok_Forall; [| exact Hm].
        intros a b Hab. cbn in Hab. apply adjust_Ok in Hab. apply Hab. }
      rewrite Forall_forall in Hall. apply Hall, Hd.
    + injection Hds as <-. apply elem_of_nil in Hd. contradiction.
  - injection Hds as <-. apply elem_of_nil in Hd. contradiction.
  - discriminate.
Qed.

Lemma created_tasks_are_due_on_business_days_witness :
  exists resp db1 new,
    generateTasks (calculateDueDates 366 (initializeHolidays 2025)) plainStorage
      Sample.now Sample.request Sample.dbWeekly = Ok (resp, db1) /\
    tasks db1 = tasks Sample.dbWeekly ++ new /\
    Forall (fun t => isBusinessDay (initializeHolidays 2025) (Task.dueDate t)) new.
Proof.
  destruct (generateTasks (calculateDueDates 366 (initializeHolidays 2025))
              plainStorage Sample.now Sample.request Sample.dbWeekly)
    as [[resp db1] | e |] eqn:E;
    [| vm_compute in E; discriminate | vm_compute in E; discriminate].
  destruct (created_tasks_are_due_on_business_days _ _ _ _ _ _ _ _ E)
    as (new & Ht & Hall).
  exists resp, db1, new. auto.
Defined.

(** X15.  The audit trail of [generateTasks]: a call that creates tasks
    writes one TASKS_GENERATED event carrying the caller, the entity, the
    year and the number of tasks created; a call that creates none writes
    no event.  The audit write cannot fail the request: with an audit
    table that rejects the row the response and the task table are the
    same, only the event is missing. *)
Theorem audit_event_per_creating_call
    (calc : Compliance.t -> Z -> res (list Date)) (S : Storage) (now : Date)
    (req : Request.t) (db db1 : Db) (resp : Response.t) :
  generateTasks calc S now req db = Ok (resp, db1) ->
  (Response.tasksCreated resp = 0 -> auditLogs db1 = auditLogs db) /\
  (0 < Response.tasksCreated resp -> auditWritable S = true ->
   exists user event,
     Request.user req = Some user /\
     auditLogs db1 = auditLogs db ++ [event] /\
     AuditLogData.action event = "TASKS_GENERATED" /\
     AuditLogData.tenantId event = User.tenantId user /\
     AuditLogData.userId event = User.id user /\
     AuditLogData.entityType event = "entity" /\
     AuditLogData.entityId event = Request.entityId req /\
     AuditLogData.year event = default (getFullYear now) (Request.year req) /\
     AuditLogData.complianceIds event = Request.complianceIds req /\
     AuditLogData.tasksCreated event = Response.tasksCreated resp) /\
  (auditWritable S = false -> auditLogs db1 = auditLogs db) /\
  (forall S',
     rejects S' = rejects S ->
     exists db1',
       generateTasks calc S' now req db = Ok (resp, db1') /\
       tasks db1' = tasks db1).
Proof.
  intros H. pose proof H as H0.
  apply generateTasks_Ok in H as (user & year & staged & Hst & Hins).
  pose proof Hst as Hst0.
  apply stageRequest_Ok in Hst as (entity & Hu & -> & _ & _).
  unfold generateTasks. rewrite Hst0. cbn [mbind res_bind fst snd].
  unfold insertStaged in *. destruct staged as [| t ts].
  - injection Hins as <- <-. cbn.
    split; [reflexivity |]. split; [lia |]. split; [reflexivity |].
    intros S' _. eauto.
  - unfold createMany in *.
    destruct (rejects S (tasks db) (t :: ts)) eqn:Hrej; [discriminate |].
    cbn [mbind res_bind fst snd] in Hins. injection Hins as <- <-.
    cbn [Response.tasksCreated]. split; [cbn [length]; lia |]. split; [| split].
    + intros _ Hw. unfold auditLog. rewrite Hw. cbn [auditLogs].
      eexists user, _. split; [exact Hu |]. split; [reflexivity |].
      cbn. repeat split; reflexivity.
    + intros Hw. unfold auditLog. rewrite Hw. reflexivity.
    + intros S' HS'. rewrite HS', Hrej. cbn [mbind res_bind fst snd].
      eexists. split; [reflexivity |].
      unfold auditLog. destruct (auditWritable S'), (auditWritable S); reflexivity.
Qed.

Lemma audit_event_per_creating_call_witness :
  exists resp db1 event,
    generateTasks Sample.calculator plainStorage Sample.now Sample.request
      Sample.db0 = Ok (resp, db1) /\
    auditLogs db1 = [event] /\
    AuditLogData.tasksCreated event = 1.
Proof.
  destruct (generateTasks Sample.calculator plainStorage Sample.now Sample.request
              Sample.db0) as [[resp db1] | e |] eqn:E;
    [| vm_compute in E; discriminate | vm_compute in E; discriminate].
  destruct (audit_event_per_creating_call _ _ _ _ _ _ _ E) as (_ & Hev & _).
  assert (Hn : Response.tasksCreated resp = 1).
  { vm_compute in E. injection E as <- _. reflexivity. }
  destruct Hev as (user & event & _ & Hlog & _ & _ & _ & _ & _ & _ & _ & Hcount);
    [lia | reflexivity |].
  exists resp, db1, event. split; [reflexivity |]. split; [exact Hlog |]. lia.
Defined.

(** X16.  Check-then-insert is not atomic: when a second identical
    request runs its existence checks before the first one inserts, and
    inserts after it, a store without constraints ends up with every new
    task twice, and both requests report the same count. *)
Theorem racing_calls_insert_twice
    (calc : Compliance.t -> Z -> res (list Date)) (now : Date)
    (req : Request.t) (db db1 : Db) (resp : Response.t) :
  generateTasks calc plainStorage now req db = Ok (resp, db1) ->
  exists new resp2 db2,
    tasks db1 = tasks db ++ new /\
    generateTasksRacing calc plainStorage now req db new = Ok (resp2, db2) /\
    tasks db2 = tasks db ++ new ++ new /\
    Response.tasksCreated resp2 = Response.tasksCreated resp /\
    Response.status resp2 = Response.status resp.
Proof.
  intros H. apply generateTasks_Ok in H as (user & year & staged & Hst & Hins).
  exists staged. unfold generateTasksRacing. rewrite Hst.
  cbn [mbind res_bind fst snd].
  unfold insertStaged in *. destruct staged as [| t ts].
  - injection Hins as <- <-. eexists _, _.
    split; [symmetry; apply app_nil_r |]. split; [reflexivity |].
    cbn. rewrite !app_nil_r. auto.
  - cbn in Hins. injection Hins as <- <-. cbn.
    eexists _, _. split; [reflexivity |]. split; [reflexivity |].
    cbn. rewrite <- app_assoc. auto.
Qed.

Lemma racing_calls_insert_twice_witness :
  exists resp db1 new resp2 db2,
    generateTasks Sample.calculator plainStorage Sample.now Sample.request
      Sample.db0 = Ok (resp, db1) /\
    generateTasksRacing Sample.calculator plainStorage Sample.now Sample.request
      Sample.db0 new = Ok (resp2, db2) /\
    tasks db2 = tasks Sample.db0 ++ new ++ new /\
    Response.tasksCreated resp2 = 1.
Proof.
  destruct (generateTasks Sample.calculator plainStorage Sample.now Sample.request
              Sample.db0) as [[resp db1] | e |] eqn:E;
    [| vm_compute in E; discriminate | vm_compute in E; discriminate].
  destruct (racing_calls_insert_twice _ _ _ _ _ _ E)
    as (new & resp2 & db2 & _ & Hrace & Htasks & Hcount & _).
  assert (Hn : Response.tasksCreated resp = 1).
  { vm_compute in E. injection E as <- _. reflexivity. }
  exists resp, db1, new, resp2, db2. repeat split; try assumption. lia.
Defined.

(** X17.  A later run of the same request, after the catalog has changed
    (compliances added, activated, made applicable or edited), creates
    no task for a compliance id the first run scheduled, as long as the
    compliances with those ids still get the due dates they got: every
    new task is for a compliance of the new catalog whose id the first
    run did not schedule.  (The due dates in the task table lie outside
    the years 0 to 99.) *)
Theorem later_run_adds_only_what_is_new
    (calc : Compliance.t -> Z -> res (list Date)) (S : Storage) (now : Date)
    (req : Request.t) (db db1 db3 : Db) (resp resp2 : Response.t)
    (catalog : list Compliance.t) :
  generateTasks calc S now req db = Ok (resp, db1) ->
  Forall (fun t => plainYear (Task.dueDate t)) (tasks db1) ->
  let db2 := {| entities := entities db1; compliances := catalog;
                tasks := tasks db1; auditLogs := auditLogs db1 |} in
  (forall tenantId entity c c0,
     findEntity db (Request.entityId req) tenantId = Some entity ->
     c ∈ applicableCompliances db2 entity (Request.complianceIds req) ->
     c0 ∈ applicableCompliances db entity (Request.complianceIds req) ->
     Compliance.id c = Compliance.id c0 ->
     calc c (default (getFullYear now) (Request.year req)) =
     calc c0 (default (getFullYear now) (Request.year req))) ->
  generateTasks calc S now req db2 = Ok (resp2, db3) ->
  exists user entity new,
    Request.user req = Some user /\
    findEntity db (Request.entityId req) (User.tenantId user) = Some entity /\
    tasks db3 = tasks db1 ++ new /\
    forall t, t ∈ new ->
      (exists c,
         c ∈ applicableCompliances db2 entity (Request.complianceIds req) /\
         Task.complianceId t = Some (Compliance.id c)) /\
      (forall c0,
         c0 ∈ applicableCompliances db entity (Request.complianceIds req) ->
         Task.complianceId t <> Some (Compliance.id c0)).
Proof.
  intros Hgen Hplain db2 Hsame Hgen2.
  apply generateTasks_Ok in Hgen as (user & year & staged & Hs & Hins).
  apply stageRequest_Ok in Hs as (entity & Hu & Hy & He & Hst).
  apply insertStaged_Ok in Hins as (Hent & _ & Htasks & _).
  apply generateTasks_Ok in Hgen2 as (user2 & year2 & staged2 & Hs2 & Hins2).
  apply stageRequest_Ok in Hs2 as (entity2 & Hu2 & Hy2 & He2 & Hst2).
  apply insertStaged_Ok in Hins2 as (_ & _ & Htasks2 & _).
  rewrite Hu in Hu2. injection Hu2 as <-. subst year2.
  assert (entity2 = entity).
  { unfold findEntity in *. cbn [entities db2] in He2. rewrite Hent, He in He2.
    congruence. }
  subst entity2. rewrite <- Hy in Hst2.
  exists user, entity, staged2. repeat (split; [assumption |]).
  intros t Ht.
  destruct (stageTasks_elem _ _ _ _ _ _ _ _ _ Hst2 Ht)
    as (c & ds & d & Hc & Hds & Hd & Hnone & ->).
  split; [exists c; split; [exact Hc | reflexivity] |].
  intros c0 Hold Hid. cbn [Task.complianceId newTask] in Hid.
  injection Hid as Hid.
  assert (Hds0 : calc c0 year = Ok ds).
  { rewrite Hy, <- (Hsame _ entity c c0 He Hc Hold Hid), <- Hy. exact Hds. }
  revert Hnone. rewrite Hid. apply findExistingTask_Some.
  cbn [tasks db2].
  destruct (findExistingTask db (User.tenantId user) (Request.entityId req)
              (Compliance.id c0) d) as [t0 |] eqn:Hf.
  - assert (Hne : findExistingTask db1 (User.tenantId user) (Request.entityId req)
                    (Compliance.id c0) d <> None).
    { apply (findExistingTask_more db); [| congruence].
      intros t' Ht'. rewrite Htasks. apply elem_of_app. auto. }
    unfold findExistingTask in Hne.
    destruct (find _ (tasks db1)) as [t1 |] eqn:Hf1; [| contradiction].
    apply find_some in Hf1 as [Hin1 Hb].
    apply andb_true_iff in Hb as [Hb H4]. apply andb_true_iff in Hb as [Hb H3].
    apply andb_true_iff in Hb as [H1 H2].
    apply bool_decide_eq_true in H1, H2, H3.
    exists t1. rewrite list_elem_of_In. auto.
  - pose proof (stageTasks_complete _ _ _ _ _ _ _ _ c0 ds d Hst Hold Hds0 Hd Hf) as Hin.
    exists (newTask user entity (Request.entityId req) c0 d).
    assert (Hin1 : newTask user entity (Request.entityId req) c0 d ∈ tasks db1)
      by (rewrite Htasks; apply elem_of_app; auto).
    repeat split; [exact Hin1 |].
    rewrite Forall_forall in Hplain. apply inMonthOf_self, (Hplain _ Hin1).
Qed.

Lemma later_run_adds_only_what_is_new_witness :
  exists resp db1 resp2 db3 new,
    generateTasks Sample.calculator plainStorage Sample.now Sample.request
      Sample.db0 = Ok (resp, db1) /\
    generateTasks Sample.calculator plainStorage Sample.now Sample.request
      {| entities := entities db1;
         compliances := compliances Sample.db0 ++
           [Compliance.Build_t "c-llp" "LLP annual return" None "ROC_MCA" YEARLY
              (Some (Build_DueDateRules (Some 30) (Some 4) None None))
              ["LLP"] true];
         tasks := tasks db1; auditLogs := auditLogs db1 |}
      = Ok (resp2, db3) /\
    tasks db3 = tasks db1 ++ new /\
    forall t, t ∈ new -> Task.complianceId t <> Some "c-itr".
Proof.
  destruct (generateTasks Sample.calculator plainStorage Sample.now Sample.request
              Sample.db0) as [[resp db1] | e |] eqn:E;
    [| vm_compute in E; discriminate E | vm_compute in E; discriminate E].
  destruct (generateTasks Sample.calculator plainStorage Sample.now Sample.request
              {| entities := entities db1;
                 compliances := compliances Sample.db0 ++
                   [Compliance.Build_t "c-llp" "LLP annual return" None "ROC_MCA"
                      YEARLY
                      (Some (Build_DueDateRules (Some 30) (Some 4) None None))
                      ["LLP"] true];
                 tasks := tasks db1; auditLogs := auditLogs db1 |})
    as [[resp2 db3] | e |] eqn:E2.
  2, 3: vm_compute in E; injection E as <- <-; vm_compute in E2; discriminate E2.
  assert (Hplain : Forall (fun t => plainYear (Task.dueDate t)) (tasks db1)).
  { vm_compute in E. injection E as _ <-. cbn [tasks].
    repeat constructor. vm_compute. intros [_ H]. apply H. reflexivity. }
  epose proof (later_run_adds_only_what_is_new _ _ _ _ _ _ _ _ _ _ E Hplain)
    as H.
  cbv zeta in H.
  epose proof (fun Hs => H Hs E2) as H'. clear H.
  lapply H'; [clear H'; intros (user & entity & new & Hu & He & Hnew & Hall) |].
  2: { intros tenantId entity c c0 _ Hc Hc0 Hid.
    change (Request.complianceIds Sample.request) with (@None (list string)) in *.
    unfold applicableCompliances, findCompliancesByEntityType in Hc, Hc0.
    apply list_elem_of_filter in Hc as [_ Hc].
    apply list_elem_of_filter in Hc0 as [_ Hc0].
    cbn [compliances] in Hc, Hc0.
    change (compliances Sample.db0) with
      [Sample.incomeTax; Sample.auditReport; Sample.retired] in Hc, Hc0.
    cbn [app] in Hc.
    apply list_elem_of_In in Hc, Hc0. cbn [In] in Hc, Hc0.
    destruct Hc as [<- | [<- | [<- | [<- | []]]]];
      destruct Hc0 as [<- | [<- | [<- | []]]];
      try reflexivity; discriminate Hid. }
  exists resp, db1, resp2, db3, new. do 3 (split; [reflexivity || assumption |]).
  intros t Ht. destruct (Hall t Ht) as [_ Hold].
  apply (Hold Sample.incomeTax).
  cbn in Hu. injection Hu as <-. vm_compute in He. injection He as <-.
  change (Request.complianceIds Sample.request) with (@None (list string)).
  unfold applicableCompliances, findCompliancesByEntityType.
  apply list_elem_of_filter. split; [| left].
  split; [reflexivity |]. apply (bool_decide_unpack _). vm_compute. exact I.
Defined.

(** Without the proviso on the due dates the later run does schedule an
    id again: after the first run the income-tax rule is edited from its
    default to 15 October, and the later run creates a second task for
    [c-itr]. *)
Remark later_run_after_rule_edit :
  exists resp db1 resp2 db3,
    generateTasks Sample.calculator plainStorage Sample.now Sample.request
      Sample.db0 = Ok (resp, db1) /\
    generateTasks Sample.calculator plainStorage Sample.now Sample.request
      {| entities := entities db1;
         compliances :=
           [Compliance.Build_t "c-itr" "Income tax return" None "INCOME_TAX"
              YEARLY (Some (Build_DueDateRules (Some 15) (Some 9) None None))
              ["LLP"; "PRIVATE_LIMITED"] true;
            Sample.auditReport; Sample.retired];
         tasks := tasks db1; auditLogs := auditLogs db1 |}
      = Ok (resp2, db3) /\
    Response.tasksCreated resp2 = 1 /\
    (fun t => (Task.complianceId t, getFullYear (Task.dueDate t),
               getMonth (Task.dueDate t), getDate (Task.dueDate t)))
      <$> tasks db3 = [(Some "c-itr", 2025, 3, 15); (Some "c-itr", 2025, 9, 15)].
Proof.
  eexists _, _, _, _.
  split; [vm_compute; reflexivity |].
  split; [vm_compute; reflexivity |].
  split; vm_compute; reflexivity.
Qed.

End RequestProperties.

(** * Permissions *)

Module RbacFacts.

Import Rbac Rbac.PERMISSIONS.

Lemma setAdd_elem set x y : y ∈ setAdd set x <-> y ∈ set \/ y = x.
Proof.
  unfold setAdd. case_bool_decide as Hx.
  - split; [auto |]. intros [H | ->]; assumption.
  - rewrite elem_of_app, list_elem_of_singleton. reflexivity.
Qed.

Lemma setAdd_NoDup set x : NoDup set -> NoDup (setAdd set x).
Proof.
  intros Hnd. unfold setAdd. case_bool_decide as Hx; [exact Hnd |].
  apply NoDup_app. repeat split; [exact Hnd | | apply NoDup_singleton].
  intros y Hy Hy'. apply list_elem_of_singleton in Hy'. subst y. contradiction.
Qed.

Lemma foldl_setAdd_elem xs set y :
  y ∈ foldl setAdd set xs <-> y ∈ set \/ y ∈ xs.
Proof.
  revert set. induction xs as [| x xs IH]; intros set; cbn [foldl].
  - rewrite elem_of_nil. tauto.
  - rewrite IH, setAdd_elem, elem_of_cons. tauto.
Qed.

Lemma foldl_setAdd_NoDup xs set : NoDup set -> NoDup (foldl setAdd set xs).
Proof.
  revert set. induction xs as [| x xs IH]; intros set Hnd; cbn [foldl];
    [exact Hnd | apply IH, setAdd_NoDup, Hnd].
Qed.

(** One step of a loop that adds the permissions some item grants. *)
Lemma addGranted_elem {A : Type} (g : A -> option (list string)) set a y :
  y ∈ addGranted g set a <-> y ∈ set \/ exists ps, g a = Some ps /\ y ∈ ps.
Proof.
  unfold addGranted. destruct (g a) as [ps |].
  - rewrite foldl_setAdd_elem. split.
    + intros [H | H]; [auto | right; eauto].
    + intros [H | (ps' & [= <-] & H)]; auto.
  - split; [auto |]. intros [H | (ps & [=] & _)]. exact H.
Qed.

Lemma foldl_addGranted_elem {A : Type} (g : A -> option (list string)) l set y :
  y ∈ foldl (addGranted g) set l <->
  y ∈ set \/ exists a ps, a ∈ l /\ g a = Some ps /\ y ∈ ps.
Proof.
  revert set. induction l as [| a l IH]; intros set; cbn [foldl].
  - split; [auto |]. intros [H | (a & ps & Ha & _)]; [exact H |].
    apply elem_of_nil in Ha. contradiction.
  - rewrite IH, addGranted_elem. split.
    + intros [[H | (ps & Hg & H)] | (a' & ps & Ha & Hg & H)]; [auto | right | right].
      * exists a, ps. split; [left | auto].
      * exists a', ps. split; [right; exact Ha | auto].
    + intros [H | (a' & ps & Ha & Hg & H)]; [auto |].
      apply elem_of_cons in Ha as [-> | Ha]; [eauto |].
      right. eauto.
Qed.

Lemma foldl_addGranted_NoDup {A : Type} (g : A -> option (list string)) l set :
  NoDup set -> NoDup (foldl (addGranted g) set l).
Proof.
  revert set. induction l as [| a l IH]; intros set Hnd; cbn [foldl];
    [exact Hnd |].
  apply IH. unfold addGranted. destruct (g a);
    [apply foldl_setAdd_NoDup, Hnd | exact Hnd].
Qed.

Lemma getUserPermissions_unfold toUpperCase roles perms :
  getUserPermissions toUpperCase roles perms =
  if bool_decide ("*" ∈ default [] perms) then ["*"]
  else foldl (addGranted (fun role => rolePermissions (toUpperCase role)))
             (foldl setAdd [] (default [] perms)) roles.
Proof. reflexivity. Qed.

(** No role of the table grants the wildcard, [system:admin] or
    [notification:delete]. *)
Lemma never_granted key granted :
  rolePermissions key = Some granted ->
  ("*" ∉ granted) /\ (SYSTEM_ADMIN ∉ granted) /\ (NOTIFICATION_DELETE ∉ granted).
Proof.
  unfold rolePermissions.
  destruct (find _ ROLE_PERMISSIONS) as [entry |] eqn:E; [| discriminate].
  intros [= <-]. apply find_some in E as [Hin _].
  assert (Hall : Forall (fun e : string * list string =>
                           ("*" ∉ e.2) /\ (SYSTEM_ADMIN ∉ e.2) /\
                           (NOTIFICATION_DELETE ∉ e.2)) ROLE_PERMISSIONS).
  { apply (bool_decide_unpack _). vm_compute. exact I. }
  rewrite Forall_forall in Hall. apply Hall, list_elem_of_In, Hin.
Qed.


Lemma wildcard_in_permissions toUpperCase roles perms :
  "*" ∈ getUserPermissions toUpperCase roles perms <-> "*" ∈ default [] perms.
Proof.
  rewrite getUserPermissions_unfold. case_bool_decide as Hw.
  - rewrite list_elem_of_singleton. tauto.
  - rewrite foldl_addGranted_elem, foldl_setAdd_elem, elem_of_nil. split; [| tauto].
    intros [[[] | H] | (role & g & _ & Hg & Hin)]; [exact H |].
    apply never_granted in Hg as [Hg _]. contradiction.
Qed.

Lemma getUserPermissions_elem toUpperCase roles perms p :
  "*" ∉ default [] perms ->
  p ∈ getUserPermissions toUpperCase roles perms <->
  p ∈ default [] perms \/
  exists role granted,
    role ∈ roles /\ rolePermissions (toUpperCase role) = Some granted /\ p ∈ granted.
Proof.
  intros Hw. rewrite getUserPermissions_unfold, bool_decide_eq_false_2 by exact Hw.
  rewrite foldl_addGranted_elem, foldl_setAdd_elem, elem_of_nil. tauto.
Qed.

Lemma hasPermission_iff toUpperCase roles required perms :
  hasPermission toUpperCase roles required perms = true <->
  "*" ∈ default [] perms \/ required ∈ default [] perms \/
  exists role granted,
    role ∈ roles /\ rolePermissions (toUpperCase role) = Some granted /\
    required ∈ granted.
Proof.
  unfold hasPermission. cbv zeta.
  destruct (decide ("*" ∈ default [] perms)) as [Hw | Hw].
  - rewrite bool_decide_eq_true_2 by (apply wildcard_in_permissions; exact Hw).
    tauto.
  - rewrite bool_decide_eq_false_2 by (rewrite wildcard_in_permissions; exact Hw).
    rewrite bool_decide_eq_true, getUserPermissions_elem by exact Hw. tauto.
Qed.

End RbacFacts.

Module RbacProperties.

Import ErrorHandler Rbac Rbac.PERMISSIONS RbacFacts.

(** X18.  [hasPermission] answers true exactly when the database
    permissions hold the wildcard or the required permission, or one of
    the user's roles, upper-cased, is a key of [ROLE_PERMISSIONS] whose
    list holds the required permission. *)
Theorem hasPermission_characterised (toUpperCase : string -> string)
    (userRoles : list string) (requiredPermission : string)
    (userPermissions : option (list string)) :
  (hasPermission toUpperCase userRoles requiredPermission userPermissions = true)
  <->
  ("*" ∈ default [] userPermissions \/
   requiredPermission ∈ default [] userPermissions \/
   exists role granted,
     role ∈ userRoles /\
     rolePermissions (toUpperCase role) = Some granted /\
     requiredPermission ∈ granted).
Proof.
  apply hasPermission_iff.
Qed.

(** X19.  [getUserPermissions] returns a list without repetitions: the
    single wildcard when the database permissions hold it, and otherwise
    exactly the database permissions together with what the roles
    grant. *)
Theorem getUserPermissions_is_a_set (toUpperCase : string -> string)
    (userRoles : list string) (userPermissions : option (list string)) :
  NoDup (getUserPermissions toUpperCase userRoles userPermissions) /\
  ("*" ∈ default [] userPermissions ->
   getUserPermissions toUpperCase userRoles userPermissions = ["*"]) /\
  ("*" ∉ default [] userPermissions ->
   forall permission,
     permission ∈ getUserPermissions toUpperCase userRoles userPermissions <->
     permission ∈ default [] userPermissions \/
     exists role granted,
       role ∈ userRoles /\
       rolePermissions (toUpperCase role) = Some granted /\
       permission ∈ granted).
Proof.
  split; [| split].
  - rewrite getUserPermissions_unfold. case_bool_decide.
    + apply NoDup_singleton.
    + apply foldl_addGranted_NoDup, foldl_setAdd_NoDup, NoDup_nil. trivial.
  - intros Hw. rewrite getUserPermissions_unfold, bool_decide_eq_true_2 by exact Hw.
    reflexivity.
  - intros Hw p. apply getUserPermissions_elem. exact Hw.
Qed.

Lemma getUserPermissions_is_a_set_witness :
  getUserPermissions id ["STAFF"; "CLIENT"] (Some ["*"; "task:read"]) = ["*"] /\
  ("task:write" ∈ getUserPermissions id ["STAFF"; "CLIENT"] (Some ["custom:perm"])).
Proof.
  destruct (getUserPermissions_is_a_set id ["STAFF"; "CLIENT"] (Some ["*"; "task:read"]))
    as (_ & Hw & _).
  destruct (getUserPermissions_is_a_set id ["STAFF"; "CLIENT"] (Some ["custom:perm"]))
    as (_ & _ & Hel).
  split.
  - apply Hw. cbn. apply (bool_decide_unpack _). vm_compute. exact I.
  - apply Hel.
    + cbn. apply (bool_decide_unpack _). vm_compute. exact I.
    + right. exists "STAFF". eexists. split; [| split; [vm_compute; reflexivity |]].
      * apply (bool_decide_unpack _). vm_compute. exact I.
      * apply (bool_decide_unpack _). vm_compute. exact I.
Defined.

(** X20.  The role table is nested: what CLIENT may do STAFF may do,
    STAFF within MANAGER, MANAGER within ADMIN, ADMIN within OWNER, and
    AUDITOR within ADMIN.  No role grants [system:admin],
    [notification:delete] or the wildcard: these come from the database
    permissions only. *)
Theorem role_table_is_nested :
  (forall lower higher l h permission,
     (lower, higher) ∈ [("CLIENT", "STAFF"); ("STAFF", "MANAGER");
                        ("MANAGER", "ADMIN"); ("ADMIN", "OWNER");
                        ("AUDITOR", "ADMIN")] ->
     rolePermissions lower = Some l -> rolePermissions higher = Some h ->
     permission ∈ l -> permission ∈ h) /\
  (forall (toUpperCase : string -> string) userRoles userPermissions permission,
     permission ∈ [SYSTEM_ADMIN; NOTIFICATION_DELETE; "*"] ->
     (hasPermission toUpperCase userRoles permission userPermissions = true) ->
     "*" ∈ default [] userPermissions \/ permission ∈ default [] userPermissions).
Proof.
  split.
  - intros lower higher l h p Hpair Hl Hh Hp.
    rewrite !elem_of_cons, elem_of_nil in Hpair.
    destruct Hpair as [[= -> ->] | [[= -> ->] | [[= -> ->] | [[= -> ->] |
                       [[= -> ->] | []]]]]];
      vm_compute in Hl, Hh; injection Hl as <-; injection Hh as <-;
      revert p Hp; apply Forall_forall;
      apply (bool_decide_unpack _); vm_compute; exact I.
  - intros up roles perms p Hp Hhas. apply hasPermission_iff in Hhas.
    destruct Hhas as [H | [H | (role & g & _ & Hg & Hin)]]; [auto | auto |].
    exfalso. apply never_granted in Hg as (H1 & H2 & H3).
    rewrite !elem_of_cons, elem_of_nil in Hp.
    destruct Hp as [-> | [-> | [-> | []]]]; contradiction.
Qed.

Lemma role_table_is_nested_witness :
  exists l h,
    rolePermissions "STAFF" = Some l /\ rolePermissions "MANAGER" = Some h /\
    (TASK_WRITE ∈ l -> TASK_WRITE ∈ h).
Proof.
  destruct role_table_is_nested as [Hnest _].
  eexists _, _. split; [vm_compute; reflexivity |]. split; [vm_compute; reflexivity |].
  apply Hnest with (lower := "STAFF") (higher := "MANAGER");
    [| vm_compute; reflexivity | vm_compute; reflexivity].
  apply (bool_decide_unpack _). vm_compute. exact I.
Defined.

(** X21.  [requireAnyPermission] and [requireAllPermissions] do not
    pass [req.user.permissions] on: a user whose permission comes from
    the database only, with no role of the table, passes
    [requirePermission] for it and is refused by the other two
    guards. *)
Theorem list_guards_ignore_database_permissions
    (toUpperCase : string -> string) (user : AuthUser.t) (permission : string) :
  (forall role, role ∈ AuthUser.roles user ->
                rolePermissions (toUpperCase role) = None) ->
  permission ∈ AuthUser.permissions user ->
  requirePermission toUpperCase permission (Some user) = Next /\
  requireAnyPermission toUpperCase [permission] (Some user) =
    Thrown (AuthorizationError
              ("One of these permissions required: " +:+ permission)) /\
  requireAllPermissions toUpperCase [permission] (Some user) =
    Thrown (AuthorizationError
              ("All these permissions required: " +:+ permission)).
Proof.
  intros Hroles Hperm.
  assert (Hnone : forall p, p ∉ getUserPermissions toUpperCase (AuthUser.roles user) None).
  { intros p Hp.
    destruct (decide (p = "*")) as [-> | Hne].
    - apply wildcard_in_permissions in Hp. cbn in Hp.
      apply elem_of_nil in Hp. exact Hp.
    - apply getUserPermissions_elem in Hp; [| cbn; apply not_elem_of_nil].
      destruct Hp as [Hp | (role & g & Hr & Hg & _)].
      + cbn in Hp. apply elem_of_nil in Hp. exact Hp.
      + rewrite (Hroles role Hr) in Hg. discriminate. }
  split; [| split].
  - unfold requirePermission.
    assert (H : hasPermission toUpperCase (AuthUser.roles user) permission
                  (Some (AuthUser.permissions user)) = true).
    { apply hasPermission_iff. cbn. auto. }
    rewrite H. reflexivity.
  - unfold requireAnyPermission, hasAnyPermission. cbv zeta.
    rewrite bool_decide_eq_false_2 by apply Hnone. cbn [existsb].
    rewrite bool_decide_eq_false_2 by apply Hnone. reflexivity.
  - unfold requireAllPermissions, hasAllPermissions. cbv zeta.
    rewrite bool_decide_eq_false_2 by apply Hnone. cbn [forallb].
    rewrite bool_decide_eq_false_2 by apply Hnone. reflexivity.
Qed.

Lemma list_guards_ignore_database_permissions_witness :
  let partner :=
    {| AuthUser.id := "u7"; AuthUser.tenantId := "t1";
       AuthUser.email := "partner@example.in"; AuthUser.roles := ["Partner"];
       AuthUser.permissions := ["report:export"]; AuthUser.isAdmin := false |} in
  requirePermission id "report:export" (Some partner) = Next /\
  requireAnyPermission id ["report:export"] (Some partner) =
    Thrown (AuthorizationError
              "One of these permissions required: report:export").
Proof.
  intros partner.
  destruct (list_guards_ignore_database_permissions id partner "report:export")
    as (H1 & H2 & _).
  - intros role Hr. cbn in Hr. apply list_elem_of_singleton in Hr. subst role.
    vm_compute. reflexivity.
  - cbn. apply (bool_decide_unpack _). vm_compute. exact I.
  - split; [exact H1 | exact H2].
Defined.

(** X22.  The two list checks in terms of [hasPermission]:
    [hasAllPermissions] holds when every listed permission is held, so
    the empty list lets everyone through; [hasAnyPermission] holds when
    one of them is held, or the database permissions hold the wildcard,
    so the empty list lets nobody but a wildcard holder through. *)
Theorem list_checks_by_single_checks (toUpperCase : string -> string)
    (userRoles requiredPermissions : list string)
    (userPermissions : option (list string)) :
  hasAllPermissions toUpperCase userRoles requiredPermissions userPermissions =
    forallb (fun permission =>
               hasPermission toUpperCase userRoles permission userPermissions)
            requiredPermissions /\
  ((hasAnyPermission toUpperCase userRoles requiredPermissions userPermissions
    = true) <->
   "*" ∈ default [] userPermissions \/
   exists permission,
     permission ∈ requiredPermissions /\
     hasPermission toUpperCase userRoles permission userPermissions = true).
Proof.
  unfold hasAllPermissions, hasAnyPermission, hasPermission. cbv zeta.
  destruct (decide ("*" ∈ default [] userPermissions)) as [Hw | Hw].
  - rewrite !bool_decide_eq_true_2 by (apply wildcard_in_permissions; exact Hw).
    split; [| tauto].
    induction requiredPermissions as [| p ps IH]; [reflexivity | exact IH].
  - rewrite !bool_decide_eq_false_2
      by (rewrite wildcard_in_permissions; exact Hw).
    split; [reflexivity |].
    rewrite existsb_exists. split.
    + intros (p & Hin & Hp). right. exists p.
      split; [apply list_elem_of_In; exact Hin | exact Hp].
    + intros [H | (p & Hin & Hp)]; [contradiction |].
      exists p. split; [apply list_elem_of_In; exact Hin | exact Hp].
Qed.

End RbacProperties.

(** * Error responses and the guarded routes *)

Module RouteFacts.

Import ErrorHandler Rbac Rbac.PERMISSIONS RbacFacts TaskRoutes.

(** An error of [generateTasks] is never answered with 403. *)
Lemma fromController_status isDevelopment e :
  status (errorHandler isDevelopment (fromController e)) <> 403.
Proof.
  destruct e as [m | c | m]; unfold errorHandler; cbn.
  - discriminate.
  - repeat case_bool_decide; cbn; discriminate.
  - discriminate.
Qed.

Lemma requirePermission_Next toUpperCase permission user :
  requirePermission toUpperCase permission user = Next <->
  exists u, user = Some u /\
            hasPermission toUpperCase (AuthUser.roles u) permission
              (Some (AuthUser.permissions u)) = true.
Proof.
  unfold requirePermission. destruct user as [u |].
  - destruct (hasPermission _ _ _ _) eqn:E; cbn; split.
    + intros _. eauto.
    + reflexivity.
    + discriminate.
    + intros (u' & [= <-] & H). congruence.
  - split; [discriminate | intros (u & [=] & _)].
Qed.

Lemma requirePermission_Thrown toUpperCase isDevelopment permission user err :
  requirePermission toUpperCase permission user = Thrown err ->
  status (errorHandler isDevelopment err) = 403 /\
  errorCode (errorHandler isDevelopment err) = "AUTHORIZATION_ERROR" /\
  (user = None ->
   errorMessage (errorHandler isDevelopment err) = "Authentication required").
Proof.
  unfold requirePermission. destruct user as [u |].
  - destruct (hasPermission _ _ _ _); cbn; [discriminate |].
    intros [= <-]. repeat split. discriminate.
  - intros [= <-]. repeat split.
Qed.

Lemma generateTasks_status calc S now req db resp db1 :
  generateTasks calc S now req db = Ok (resp, db1) ->
  Response.status resp = 200 \/ Response.status resp = 201.
Proof.
  intros H. apply RequestFacts.generateTasks_Ok in H as (user & year & staged & _ & H).
  unfold insertStaged in H. destruct staged as [| t ts].
  - injection H as <- _. left. reflexivity.
  - destruct (createMany S db (t :: ts)) as [[count db'] | e |];
      cbn [mbind res_bind] in H; try discriminate.
    injection H as <- _. right. reflexivity.
Qed.

End RouteFacts.

Module RouteProperties.

Import ErrorHandler Rbac Rbac.PERMISSIONS RbacFacts TaskRoutes RouteFacts.
Import GeneratorFacts RequestFacts.

(** X23.  Outside development the handler never echoes the message of an
    error it does not know: unless the error carries both a status code
    and a code of its own (and is no Zod or Prisma error), the response
    does not depend on [err.message]. *)
Theorem production_hides_messages (err err' : AppError) :
  instanceOf err' = instanceOf err -> name err' = name err ->
  statusCode err' = statusCode err -> code err' = code err ->
  (instanceOf err <> IsOtherError \/
   truthyNumber (statusCode err) && truthyString (code err) = false) ->
  errorHandler false err' = errorHandler false err.
Proof.
  intros Hi Hn Hs Hc Hcond. unfold errorHandler. rewrite Hi, Hn, Hs, Hc.
  destruct (instanceOf err); try reflexivity.
  destruct Hcond as [Hcond | Hcond]; [contradiction |].
  rewrite Hcond. reflexivity.
Qed.

Lemma production_hides_messages_witness :
  errorHandler false
    {| instanceOf := IsOtherError; name := "TypeError";
       message := "Cannot read properties of undefined (reading 'tenantId')";
       statusCode := None; code := None |}
  = errorHandler false
      {| instanceOf := IsOtherError; name := "TypeError"; message := "";
         statusCode := None; code := None |}.
Proof.
  apply production_hides_messages; try reflexivity. right. reflexivity.
Defined.

(** X24.  The route [POST /generate] behind its guard.  A success is the
    controller's response, 200 or 201, for a user who holds
    [task:write].  A failure leaves the database as it was; it is a 403
    exactly when the guard refused the request, and a request without a
    user is refused by the guard with "Authentication required", so the
    controller's own "User not found" is never reached. *)
Theorem generate_route_replies (toUpperCase : string -> string)
    (isDevelopment : bool) (calc : Compliance.t -> Z -> res (list Date))
    (S : Storage) (now : Date) (user : option AuthUser.t) (body : Request.t)
    (db db1 : Db) (reply : Reply Response.t) :
  postGenerate toUpperCase isDevelopment calc S now user body db
    = Some (reply, db1) ->
  match reply with
  | Sent status response =>
      (status = 200 \/ status = 201) /\
      (exists u, user = Some u /\
                 hasPermission toUpperCase (AuthUser.roles u) TASK_WRITE
                   (Some (AuthUser.permissions u)) = true) /\
      generateTasks calc S now (controllerRequest user body) db
        = Ok (response, db1)
  | Failed b =>
      db1 = db /\
      (ErrorHandler.status b = 403 <->
       requirePermission toUpperCase TASK_WRITE user <> Next) /\
      (user = None ->
       b = {| ErrorHandler.status := 403; errorCode := "AUTHORIZATION_ERROR";
              errorMessage := "Authentication required" |})
  end.
Proof.
  unfold postGenerate.
  destruct (requirePermission toUpperCase TASK_WRITE user) as [| err] eqn:Hg.
  - destruct (generateTasks calc S now (controllerRequest user body) db)
      as [[response db'] | e |] eqn:Hgen; intros [= <- <-].
    + split; [| split; [apply requirePermission_Next; exact Hg | reflexivity]].
      destruct (generateTasks_status _ _ _ _ _ _ _ Hgen); auto.
    + split; [reflexivity |]. split.
      * split; [| congruence]. intros H.
        destruct (fromController_status isDevelopment e H).
      * intros ->. cbn in Hg. discriminate.
  - intros [= <- <-]. split; [reflexivity |].
    destruct (requirePermission_Thrown _ isDevelopment _ _ _ Hg) as (H1 & H2 & H3).
    split; [split; [discriminate | intros _; exact H1] |].
    intros ->. cbn in Hg. injection Hg as <-. reflexivity.
Qed.

Lemma generate_route_replies_witness :
  exists reply db1,
    postGenerate SampleOffice.toUpperCase false Sample.calculator plainStorage
      Sample.now (Some SampleOffice.staff) Sample.request Sample.db0
      = Some (reply, db1) /\
    match reply with
    | Sent status _ => status = 200 \/ status = 201
    | Failed _ => db1 = Sample.db0
    end.
Proof.
  destruct (postGenerate SampleOffice.toUpperCase false Sample.calculator
              plainStorage Sample.now (Some SampleOffice.staff) Sample.request
              Sample.db0) as [[reply db1] |] eqn:E;
    [| vm_compute in E; discriminate].
  exists reply, db1. split; [reflexivity |].
  pose proof (generate_route_replies _ _ _ _ _ _ _ _ _ _ E) as H.
  destruct reply; apply H.
Defined.

End RouteProperties.

(** * Accounts and task operations *)

Module OperationFacts.

Import ErrorHandler Rbac Rbac.PERMISSIONS RbacFacts TaskOperations.

Lemma NoDup_fmap_eq {A B : Type} (f : A -> B) (l : list A) x y :
  NoDup (f <$> l) -> x ∈ l -> y ∈ l -> f x = f y -> x = y.
Proof.
  induction l as [| a l IH]; cbn; intros Hnd Hx Hy Hf.
  - apply elem_of_nil in Hx. contradiction.
  - apply NoDup_cons in Hnd as [Ha Hnd].
    apply elem_of_cons in Hx as [-> | Hx]; apply elem_of_cons in Hy as [-> | Hy].
    + reflexivity.
    + exfalso. apply Ha. rewrite Hf. apply list_elem_of_fmap. eauto.
    + exfalso. apply Ha. rewrite <- Hf. apply list_elem_of_fmap. eauto.
    + apply IH; assumption.
Qed.

Lemma findTask_Some st id tenantId t :
  findTask st id tenantId = Some t ->
  t ∈ tasks st /\ TaskRow.id t = id /\ TaskRow.tenantId t = tenantId.
Proof.
  unfold findTask. intros H. apply find_some in H as [Hin Hb].
  apply andb_true_iff in Hb as [H1 H2].
  apply bool_decide_eq_true in H1, H2. rewrite list_elem_of_In. auto.
Qed.


(** With the primary key, the lookup finds the row of that id when it
    belongs to the tenant. *)
Lemma findTask_unique st t :
  NoDup (TaskRow.id <$> tasks st) -> t ∈ tasks st ->
  findTask st (TaskRow.id t) (TaskRow.tenantId t) = Some t.
Proof.
  intros Hnd Hin.
  destruct (findTask st (TaskRow.id t) (TaskRow.tenantId t)) as [t' |] eqn:E.
  - apply findTask_Some in E as (Hin' & Hid & _).
    f_equal. apply (NoDup_fmap_eq TaskRow.id (tasks st)); assumption.
  - exfalso. unfold findTask in E.
    pose proof (find_none _ _ E t) as Hf. cbn beta in Hf.
    rewrite !bool_decide_eq_true_2 in Hf by reflexivity.
    specialize (Hf ltac:(apply list_elem_of_In; exact Hin)). discriminate.
Qed.


(** Only OWNER and ADMIN are granted [task:delete]. *)
Lemma task_delete_roles key granted :
  rolePermissions key = Some granted -> TASK_DELETE ∈ granted ->
  key = "OWNER" \/ key = "ADMIN".
Proof.
  unfold rolePermissions.
  destruct (find _ ROLE_PERMISSIONS) as [entry |] eqn:E; [| discriminate].
  intros [= <-] Hin. apply find_some in E as [Hentry Hkey].
  apply bool_decide_eq_true in Hkey. subst key.
  assert (Hall : Forall (fun e : string * list string =>
                           TASK_DELETE ∈ e.2 -> e.1 = "OWNER" \/ e.1 = "ADMIN")
                        ROLE_PERMISSIONS).
  { unfold ROLE_PERMISSIONS. repeat apply Forall_cons_2; [.. | apply Forall_nil_2];
      cbn [fst snd]; intros H; try (left; reflexivity); try (right; reflexivity);
      exfalso; revert H; apply (bool_decide_unpack _); vm_compute; exact I. }
  rewrite Forall_forall in Hall. apply (Hall entry); [| exact Hin].
  apply list_elem_of_In. exact Hentry.
Qed.

(** The greatest order among the checklist items of a task. *)
Lemma lastChecklist_spec st taskId :
  match lastChecklist st taskId with
  | Some b =>
      b ∈ checklists st /\ TaskChecklist.taskId b = taskId /\
      forall c, c ∈ checklists st -> TaskChecklist.taskId c = taskId ->
                TaskChecklist.order c <= TaskChecklist.order b
  | None =>
      forall c, c ∈ checklists st -> TaskChecklist.taskId c <> taskId
  end.
Proof.
  unfold lastChecklist.
  assert (H : forall l : list TaskChecklist.t,
            match foldr (fun item best =>
                           match best with
                           | Some b =>
                               if TaskChecklist.order b <? TaskChecklist.order item
                               then Some item else Some b
                           | None => Some item
                           end) None l with
            | Some b => b ∈ l /\ forall c, c ∈ l ->
                          TaskChecklist.order c <= TaskChecklist.order b
            | None => l = []
            end).
  { induction l as [| a l IH]; cbn [foldr]; [reflexivity |].
    destruct (foldr _ None l) as [b |].
    - destruct IH as [Hb Hmax].
      destruct (Z.ltb_spec (TaskChecklist.order b) (TaskChecklist.order a)).
      + split; [left |]. intros c Hc.
        apply elem_of_cons in Hc as [-> | Hc]; [lia |]. specialize (Hmax c Hc). lia.
      + split; [right; exact Hb |]. intros c Hc.
        apply elem_of_cons in Hc as [-> | Hc]; [lia | auto].
    - subst l. split; [left |]. intros c Hc.
      apply list_elem_of_singleton in Hc. subst c. lia. }
  specialize (H (filter (fun item => TaskChecklist.taskId item = taskId)
                        (checklists st))).
  destruct (foldr _ None _) as [b |].
  - destruct H as [Hb Hmax]. apply list_elem_of_filter in Hb as [Hid Hb].
    repeat split; [exact Hb | exact Hid |].
    intros c Hc Hcid. apply Hmax. apply list_elem_of_filter. auto.
  - intros c Hc Hcid.
    assert (Hin : c ∈ filter (fun item => TaskChecklist.taskId item = taskId)
                             (checklists st))
      by (apply list_elem_of_filter; auto).
    rewrite H in Hin. apply elem_of_nil in Hin. exact Hin.
Qed.

End OperationFacts.

Module OperationProperties.

Import ErrorHandler Rbac Rbac.PERMISSIONS RbacFacts TaskOperations TaskRoutes.
Import TenantContext RouteFacts OperationFacts Tenancy.



(** X26.  The route [DELETE /:id] behind its guard: a task is deleted
    only for a user who holds [task:delete] and belongs to the task's
    tenant and is its creator or an administrator.  Of the roles of the
    table only OWNER and ADMIN grant [task:delete]: a creator with
    another role, and without that permission from the database, is
    answered 403 and the task stays. *)
Theorem delete_route_needs_permission_and_ownership
    (toUpperCase : string -> string) (isDevelopment auditWritable : bool)
    (user : option AuthUser.t) (id : string) (st : Store) :
  (forall status message st',
     deleteById toUpperCase isDevelopment auditWritable user id st
       = (Sent status message, st') ->
     exists u task,
       user = Some u /\
       hasPermission toUpperCase (AuthUser.roles u) TASK_DELETE
         (Some (AuthUser.permissions u)) = true /\
       task ∈ tasks st /\ TaskRow.id task = id /\
       TaskRow.tenantId task = AuthUser.tenantId u /\
       (AuthUser.isAdmin u = true \/ TaskRow.createdBy task = AuthUser.id u) /\
       tasks st' = filter (fun t => TaskRow.id t <> id) (tasks st)) /\
  (forall u,
     user = Some u ->
     ("*" ∉ AuthUser.permissions u) -> (TASK_DELETE ∉ AuthUser.permissions u) ->
     (forall role, role ∈ AuthUser.roles u ->
                   toUpperCase role <> "OWNER" /\ toUpperCase role <> "ADMIN") ->
     deleteById toUpperCase isDevelopment auditWritable user id st =
       (Failed {| ErrorHandler.status := 403;
                  errorCode := "AUTHORIZATION_ERROR";
                  errorMessage := "Permission required: task:delete" |}, st)).
Proof.
  split.
  - intros status message st'. unfold deleteById.
    destruct (requirePermission toUpperCase TASK_DELETE user) as [| err] eqn:Hg;
      [| discriminate].
    apply requirePermission_Next in Hg as (u & -> & Hperm).
    unfold deleteTask.
    destruct (findTask st id (AuthUser.tenantId u)) as [task |] eqn:Hf;
      [| discriminate].
    apply findTask_Some in Hf as (Hin & Hid & Hten). cbv zeta.
    destruct (AuthUser.isAdmin u || bool_decide (TaskRow.createdBy task = AuthUser.id u))
      eqn:Hcan; cbn [negb]; [| discriminate].
    intros [= <- <- <-]. exists u, task.
    repeat (split; [assumption || reflexivity |]). split.
    + apply orb_true_iff in Hcan as [H | H]; [auto |].
      apply bool_decide_eq_true in H. auto.
    + unfold auditServiceLog. destruct auditWritable; reflexivity.
  - intros u -> Hw Hd Hroles. unfold deleteById, requirePermission.
    assert (H : hasPermission toUpperCase (AuthUser.roles u) TASK_DELETE
                  (Some (AuthUser.permissions u)) = false).
    { apply not_true_is_false. intros H. apply hasPermission_iff in H.
      destruct H as [H | [H | (role & g & Hr & Hg & Hin)]]; [auto | auto |].
      destruct (Hroles role Hr) as [Ho Ha].
      destruct (task_delete_roles _ _ Hg Hin); contradiction. }
    rewrite H. reflexivity.
Qed.

Lemma delete_route_needs_permission_and_ownership_witness :
  deleteById SampleOffice.toUpperCase false true (Some SampleOffice.staff)
    "k1" SampleOffice.store =
  (Failed {| ErrorHandler.status := 403;
             errorCode := "AUTHORIZATION_ERROR";
             errorMessage := "Permission required: task:delete" |},
   SampleOffice.store).
Proof.
  destruct (delete_route_needs_permission_and_ownership SampleOffice.toUpperCase
              false true (Some SampleOffice.staff) "k1" SampleOffice.store)
    as [_ H].
  apply (H SampleOffice.staff eq_refl).
  - apply (bool_decide_unpack _). vm_compute. exact I.
  - apply (bool_decide_unpack _). vm_compute. exact I.
  - intros role Hr. vm_compute in Hr. apply list_elem_of_singleton in Hr. subst role.
    vm_compute. split; discriminate.
Defined.

(** X27.  When [tenantContext] lets a request through with a user, the
    token was verified, and the user row it names is active, of an
    active tenant and not locked at that moment.  [req.user] carries the
    row's id and tenant and the names of its roles; its permissions are
    the permissions of those roles, without repetition; and [isAdmin]
    holds exactly when a role is named "admin" or "OWNER", in this
    spelling. *)
Theorem tenantContext_sets_the_user (verify : string -> Outcome string)
    (users : list UserRecord.t) (now : Date) (path : string)
    (authorization : option string) (user : AuthUser.t) :
  tenantContext verify users now path authorization = Done (Some user) ->
  exists header record,
    authorization = Some header /\
    verify (replace "Bearer " "" header) = Done (UserRecord.id record) /\
    record ∈ users /\
    UserRecord.isActive record = true /\
    UserRecord.tenantIsActive record = true /\
    (forall lockedUntil,
       UserRecord.lockedUntil record = Some lockedUntil -> lockedUntil <= now) /\
    AuthUser.id user = UserRecord.id record /\
    AuthUser.tenantId user = UserRecord.tenantId record /\
    AuthUser.roles user = RoleRow.name <$> UserRecord.roles record /\
    ((AuthUser.isAdmin user = true) <->
     "admin" ∈ AuthUser.roles user \/ "OWNER" ∈ AuthUser.roles user) /\
    NoDup (AuthUser.permissions user) /\
    (forall permission,
       permission ∈ AuthUser.permissions user <->
       exists role granted,
         role ∈ UserRecord.roles record /\
         RoleRow.permissions role = Some granted /\ permission ∈ granted).
Proof.
  unfold tenantContext.
  destruct (existsb _ publicRoutes); [discriminate |].
  destruct authorization as [header |]; cbn [fmap option_fmap option_map];
    [| discriminate].
  destruct (replace "Bearer " "" header) as [| a token] eqn:Htok; [discriminate |].
  destruct (verify (String a token)) as [userId | err] eqn:Hv; [| discriminate].
  destruct (find _ users) as [record |] eqn:Hf; [| discriminate].
  apply find_some in Hf as [Hin Hid]. apply bool_decide_eq_true in Hid.
  destruct (UserRecord.isActive record) eqn:Hact; cbn [negb]; [| discriminate].
  destruct (UserRecord.tenantIsActive record) eqn:Hten; cbn [negb]; [| discriminate].
  destruct (match UserRecord.lockedUntil record with
            | Some lockedUntil => now <? lockedUntil
            | None => false
            end) eqn:Hlock; [discriminate |].
  intros [= <-]. exists header, record.
  split; [reflexivity |]. split; [rewrite Hid, Htok; exact Hv |].
  split; [apply list_elem_of_In; exact Hin |].
  split; [exact Hact |]. split; [exact Hten |]. split.
  { intros l Hl. rewrite Hl in Hlock. apply Z.ltb_ge in Hlock. exact Hlock. }
  do 3 (split; [reflexivity |]). split; [| split].
  - unfold userContext. cbn [AuthUser.isAdmin AuthUser.roles].
    rewrite existsb_exists, !list_elem_of_fmap. split.
    + intros (role & Hr & Hn). apply list_elem_of_In in Hr.
      apply orb_true_iff in Hn as [Hn | Hn]; apply bool_decide_eq_true in Hn;
        [left | right]; exists role; auto.
    + intros [(role & Hn & Hr) | (role & Hn & Hr)]; exists role;
        (split; [apply list_elem_of_In; exact Hr |]); apply orb_true_iff;
        [left | right]; apply bool_decide_eq_true; symmetry; exact Hn.
  - unfold userContext. cbn [AuthUser.permissions].
    apply (foldl_addGranted_NoDup RoleRow.permissions), NoDup_nil. trivial.
  - intros p. unfold userContext. cbn [AuthUser.permissions].
    rewrite (foldl_addGranted_elem RoleRow.permissions), elem_of_nil. tauto.
Qed.

Lemma tenantContext_sets_the_user_witness :
  exists user,
    tenantContext SampleOffice.verify
      [SampleOffice.staffRecord; SampleOffice.adminRecord] 0
      "/tasks/generate" (Some "Bearer u2") = Done (Some user) /\
    AuthUser.roles user = ["ADMIN"] /\ AuthUser.isAdmin user = false.
Proof.
  destruct (tenantContext SampleOffice.verify
              [SampleOffice.staffRecord; SampleOffice.adminRecord] 0
              "/tasks/generate" (Some "Bearer u2")) as [[user |] | err] eqn:E;
    [| vm_compute in E; discriminate | vm_compute in E; discriminate].
  destruct (tenantContext_sets_the_user _ _ _ _ _ _ E)
    as (header & record & _ & _ & _ & _ & _ & _ & _ & _ & Hroles & Hadm & _).
  exists user. split; [reflexivity |].
  assert (Hr : AuthUser.roles user = ["ADMIN"]).
  { vm_compute in E. injection E as <-. reflexivity. }
  split; [exact Hr |].
  apply not_true_is_false. intros H. apply Hadm in H. rewrite Hr in H.
  destruct H as [H | H]; apply list_elem_of_singleton in H; discriminate.
Defined.

(** X28.  The two notions of administrator do not agree.  A user whose
    role is spelled "ADMIN" (the key of the role table), and not "admin"
    or "OWNER", holds [task:delete] and passes the guard of
    [DELETE /:id], but is no administrator for [requireAdmin] and for
    [deleteTask]: a task created by someone else is not deleted. *)
Theorem upper_case_admin_role_is_not_admin (toUpperCase : string -> string)
    (isDevelopment auditWritable : bool) (record : UserRecord.t)
    (st : Store) (task : TaskRow.t) :
  (exists role, role ∈ UserRecord.roles record /\
                toUpperCase (RoleRow.name role) = "ADMIN") ->
  (forall role, role ∈ UserRecord.roles record ->
                RoleRow.name role <> "admin" /\ RoleRow.name role <> "OWNER") ->
  NoDup (TaskRow.id <$> tasks st) -> task ∈ tasks st ->
  TaskRow.tenantId task = UserRecord.tenantId record ->
  TaskRow.createdBy task <> UserRecord.id record ->
  let user := userContext record in
  requirePermission toUpperCase TASK_DELETE (Some user) = Next /\
  requireAdmin (Some user) =
    Thrown (AuthorizationError "Admin access required") /\
  deleteById toUpperCase isDevelopment auditWritable (Some user)
    (TaskRow.id task) st =
    (Failed {| ErrorHandler.status := 403;
               errorCode := "AUTHORIZATION_ERROR";
               errorMessage := "You can only delete tasks created by you" |},
     st).
Proof.
  intros (role & Hrole & Hup) Hnames Hnd Hin Hten Hcr user.
  assert (Hguard : requirePermission toUpperCase TASK_DELETE (Some user) = Next).
  { apply requirePermission_Next. exists user. split; [reflexivity |].
    apply hasPermission_iff. right. right.
    exists (RoleRow.name role). eexists. split; [| split].
    - unfold user, userContext. cbn [AuthUser.roles].
      apply list_elem_of_fmap. eauto.
    - rewrite Hup. vm_compute. reflexivity.
    - apply (bool_decide_unpack _). vm_compute. exact I. }
  assert (Hadm : AuthUser.isAdmin user = false).
  { unfold user, userContext. cbn [AuthUser.isAdmin].
    apply not_true_is_false. intros H. apply existsb_exists in H as (r & Hr & Hn).
    apply list_elem_of_In in Hr. destruct (Hnames r Hr) as [H1 H2].
    apply orb_true_iff in Hn as [Hn | Hn]; apply bool_decide_eq_true in Hn;
      contradiction. }
  split; [exact Hguard |]. split.
  - unfold requireAdmin. rewrite Hadm. reflexivity.
  - unfold deleteById. rewrite Hguard. unfold deleteTask.
    replace (AuthUser.tenantId user) with (TaskRow.tenantId task)
      by (rewrite Hten; reflexivity).
    rewrite findTask_unique by assumption. cbv zeta.
    rewrite Hadm, bool_decide_eq_false_2 by exact Hcr. reflexivity.
Qed.

Lemma upper_case_admin_role_is_not_admin_witness :
  requirePermission SampleOffice.toUpperCase TASK_DELETE (Some SampleOffice.admin)
    = Next /\
  deleteById SampleOffice.toUpperCase false true (Some SampleOffice.admin)
    "k1" SampleOffice.store =
    (Failed {| ErrorHandler.status := 403;
               errorCode := "AUTHORIZATION_ERROR";
               errorMessage := "You can only delete tasks created by you" |},
     SampleOffice.store).
Proof.
  destruct (upper_case_admin_role_is_not_admin SampleOffice.toUpperCase false true
              SampleOffice.adminRecord SampleOffice.store SampleOffice.filing)
    as (H1 & _ & H3).
  - eexists. split; [left | vm_compute; reflexivity].
  - intros role Hr. vm_compute in Hr. apply list_elem_of_singleton in Hr. subst role.
    vm_compute. split; discriminate.
  - apply (bool_decide_unpack _). vm_compute. exact I.
  - left.
  - reflexivity.
  - vm_compute. discriminate.
  - split; [exact H1 | exact H3].
Defined.

(** X29.  [assignTask], for a task table keyed by id: a task can only be
    assigned to an active user of the caller's tenant, which is the
    task's tenant.  So the assignment keeps "every assigned task is
    assigned to a user of its own tenant"; it changes the assignee of
    that task and nothing else of the task table. *)
Theorem assignTask_stays_within_tenant (auditWritable : bool)
    (user : AuthUser.t) (id assigneeId : string) (st st' : Store)
    (updated : option TaskRow.t) :
  NoDup (TaskRow.id <$> tasks st) -> assignedWithinTenant st ->
  assignTask auditWritable (Some user) id assigneeId st = Done (updated, st') ->
  assignedWithinTenant st' /\
  TaskRow.id <$> tasks st' = TaskRow.id <$> tasks st /\
  users st' = users st /\
  (exists assignee task,
     assignee ∈ users st /\ Assignee.id assignee = assigneeId /\
     Assignee.tenantId assignee = AuthUser.tenantId user /\
     Assignee.isActive assignee = true /\
     task ∈ tasks st /\ TaskRow.id task = id /\
     TaskRow.tenantId task = AuthUser.tenantId user /\
     updated = Some {| TaskRow.id := id;
                       TaskRow.tenantId := TaskRow.tenantId task;
                       TaskRow.title := TaskRow.title task;
                       TaskRow.createdBy := TaskRow.createdBy task;
                       TaskRow.assigneeId := Some assigneeId |}) /\
  (forall t, t ∈ tasks st -> TaskRow.id t <> id -> t ∈ tasks st').
Proof.
  intros Hnd Hinv. unfold assignTask.
  destruct (findTask st id (AuthUser.tenantId user)) as [task |] eqn:Hf;
    [| discriminate].
  apply findTask_Some in Hf as (Hin & Hid & Hten).
  destruct (find _ (users st)) as [assignee |] eqn:Hu; [| discriminate].
  apply find_some in Hu as [Huin Hub]. apply list_elem_of_In in Huin.
  apply andb_true_iff in Hub as [Hub Hact].
  apply andb_true_iff in Hub as [Haid Haten].
  apply bool_decide_eq_true in Haid, Haten.
  cbv zeta. intros [= <- <-].
  set (update := fun t : TaskRow.t =>
         if bool_decide (TaskRow.id t = id) then
           {| TaskRow.id := TaskRow.id t; TaskRow.tenantId := TaskRow.tenantId t;
              TaskRow.title := TaskRow.title t; TaskRow.createdBy := TaskRow.createdBy t;
              TaskRow.assigneeId := Some assigneeId |}
         else t).
  assert (Htasks : forall aw s e, tasks (auditServiceLog aw s e) = tasks s)
    by (intros [] ? ?; reflexivity).
  assert (Husers : forall aw s e, users (auditServiceLog aw s e) = users s)
    by (intros [] ? ?; reflexivity).
  assert (Hids : TaskRow.id <$> (update <$> tasks st) = TaskRow.id <$> tasks st).
  { rewrite <- list_fmap_compose. apply list_fmap_ext. intros i t _. cbn.
    unfold update. case_bool_decide; reflexivity. }
  split; [| split; [| split; [| split]]].
  - intros t' a. rewrite Htasks, Husers. cbn [tasks users].
    intros Ht' Ha. apply list_elem_of_fmap in Ht' as (t & -> & Ht).
    unfold update in Ha |- *. case_bool_decide as Htid.
    + cbn in Ha |- *. injection Ha as <-.
      assert (t = task).
      { apply (NoDup_fmap_eq TaskRow.id (tasks st)); try assumption. congruence. }
      subst t. exists assignee. repeat split; congruence.
    + apply (Hinv t a Ht Ha).
  - rewrite Htasks. cbn [tasks]. exact Hids.
  - rewrite Husers. reflexivity.
  - exists assignee, task. repeat (split; [assumption |]).
    cbn [tasks].
    assert (Hfind : forall l, task ∈ l -> NoDup (TaskRow.id <$> l) ->
              find (fun t => bool_decide (TaskRow.id t = id)) (update <$> l) =
              Some (update task)).
    { induction l as [| t l IH]; intros Hl Hndl.
      - apply elem_of_nil in Hl. contradiction.
      - cbn [fmap list_fmap find]. cbn in Hndl. apply NoDup_cons in Hndl as [Ht Hndl].
        unfold update at 1 2. destruct (decide (TaskRow.id t = id)) as [Htid | Htid].
        + rewrite (bool_decide_eq_true_2 _ Htid). cbn [TaskRow.id].
          rewrite (bool_decide_eq_true_2 _ Htid).
          apply elem_of_cons in Hl as [-> | Hl]; [unfold update;
            rewrite (bool_decide_eq_true_2 _ Htid); reflexivity |].
          exfalso. apply Ht. rewrite Htid, <- Hid. apply list_elem_of_fmap. eauto.
        + rewrite (bool_decide_eq_false_2 _ Htid). rewrite (bool_decide_eq_false_2 _ Htid).
          apply elem_of_cons in Hl as [-> | Hl]; [contradiction |].
          apply IH; assumption. }
    fold update. rewrite (Hfind (tasks st) Hin Hnd).
    unfold update. rewrite (bool_decide_eq_true_2 _ Hid), Hid. reflexivity.
  - intros t Ht Hne. rewrite Htasks. cbn [tasks].
    apply list_elem_of_fmap. exists t. split; [| exact Ht].
    unfold update. rewrite (bool_decide_eq_false_2 _ Hne). reflexivity.
Qed.

Lemma assignTask_stays_within_tenant_witness :
  exists updated st',
    assignTask true (Some SampleOffice.owner) "k1" "u2" SampleOffice.store
      = Done (updated, st') /\
    assignedWithinTenant st' /\
    assignTask true (Some SampleOffice.owner) "k1" "u9" SampleOffice.store
      = Raised (ValidationError "Assignee not found").
Proof.
  destruct (assignTask true (Some SampleOffice.owner) "k1" "u2" SampleOffice.store)
    as [[updated st'] | err] eqn:E; [| vm_compute in E; discriminate].
  exists updated, st'. split; [reflexivity |].
  destruct (assignTask_stays_within_tenant true SampleOffice.owner "k1" "u2"
              SampleOffice.store st' updated) as [Hinv _].
  - apply (bool_decide_unpack _). vm_compute. exact I.
  - intros t a Ht Ha. cbn in Ht.
    apply elem_of_cons in Ht as [-> | Ht]; [discriminate |].
    apply list_elem_of_singleton in Ht. subst t. injection Ha as <-.
    eexists. split; [left |]. split; reflexivity.
  - exact E.
  - split; [exact Hinv | vm_compute; reflexivity].
Defined.

(** X30.  [addChecklistItem] appends one item to the checklist of a task
    of the caller's tenant, with an order greater than the order of every
    item the task has: 1 for the first item.  Orders that were distinct
    stay distinct, and the checklists of other tasks, the tasks and the
    users are untouched. *)
Theorem addChecklistItem_orders_increase (user : AuthUser.t)
    (id title : string) (description : option string) (st st' : Store)
    (item : TaskChecklist.t) :
  addChecklistItem (Some user) id title description st = Done (item, st') ->
  (exists task, task ∈ tasks st /\ TaskRow.id task = id /\
                TaskRow.tenantId task = AuthUser.tenantId user) /\
  checklists st' = checklists st ++ [item] /\
  tasks st' = tasks st /\ users st' = users st /\
  TaskChecklist.taskId item = id /\ TaskChecklist.title item = title /\
  (forall c, c ∈ checklists st -> TaskChecklist.taskId c = id ->
             TaskChecklist.order c < TaskChecklist.order item) /\
  (ordersOf st id = [] -> TaskChecklist.order item = 1) /\
  (NoDup (ordersOf st id) -> NoDup (ordersOf st' id)) /\
  (forall other, other <> id -> ordersOf st' other = ordersOf st other).
Proof.
  unfold addChecklistItem.
  destruct (findTask st id (AuthUser.tenantId user)) as [task |] eqn:Hf;
    [| discriminate].
  apply findTask_Some in Hf as (Hin & Hid & Hten).
  cbv zeta. intros [= <- <-]. cbn [checklists tasks users TaskChecklist.taskId
    TaskChecklist.title TaskChecklist.order].
  split; [eauto |]. do 5 (split; [reflexivity |]).
  pose proof (lastChecklist_spec st id) as Hlast.
  assert (Hgt : forall c, c ∈ checklists st -> TaskChecklist.taskId c = id ->
            TaskChecklist.order c <
            orElse (TaskChecklist.order <$> lastChecklist st id) 0 + 1).
  { intros c Hc Hcid. destruct (lastChecklist st id) as [b |].
    - destruct Hlast as (_ & _ & Hmax). specialize (Hmax c Hc Hcid).
      cbn [fmap option_fmap option_map].
      unfold orElse. destruct (TaskChecklist.order b); lia.
    - destruct (Hlast c Hc Hcid). }
  split; [exact Hgt |]. split; [| split].
  - intros Hnil. destruct (lastChecklist st id) as [b |]; [| reflexivity].
    destruct Hlast as (Hb & Hbid & _). exfalso.
    assert (Hbin : TaskChecklist.order b ∈ ordersOf st id).
    { unfold ordersOf. apply list_elem_of_fmap. exists b. split; [reflexivity |].
      apply list_elem_of_filter. auto. }
    rewrite Hnil in Hbin. apply elem_of_nil in Hbin. exact Hbin.
  - unfold ordersOf. cbn [checklists]. intros Hnd.
    rewrite filter_app, fmap_app, filter_cons, filter_nil.
    cbn [TaskChecklist.taskId]. rewrite decide_True by reflexivity.
    cbn [fmap list_fmap TaskChecklist.order].
    apply NoDup_app. split; [exact Hnd |]. split; [| apply NoDup_singleton].
    intros o Ho Ho'. apply list_elem_of_singleton in Ho'. subst o.
    apply list_elem_of_fmap in Ho as (c & Heq & Hc).
    apply list_elem_of_filter in Hc as [Hcid Hc].
    specialize (Hgt c Hc Hcid). lia.
  - intros other Hne. unfold ordersOf. cbn [checklists].
    rewrite filter_app, filter_cons, filter_nil.
    cbn [TaskChecklist.taskId]. rewrite decide_False by congruence.
    rewrite app_nil_r. reflexivity.
Qed.

Lemma addChecklistItem_orders_increase_witness :
  exists item st',
    addChecklistItem (Some SampleOffice.staff) "k1" "File return" None
      SampleOffice.store = Done (item, st') /\
    (forall c, c ∈ checklists SampleOffice.store -> TaskChecklist.taskId c = "k1" ->
               TaskChecklist.order c < TaskChecklist.order item) /\
    NoDup (ordersOf st' "k1").
Proof.
  destruct (addChecklistItem (Some SampleOffice.staff) "k1" "File return" None
              SampleOffice.store) as [[item st'] | err] eqn:E;
    [| vm_compute in E; discriminate].
  destruct (addChecklistItem_orders_increase _ _ _ _ _ _ _ E)
    as (_ & _ & _ & _ & _ & _ & Hgt & _ & Hnd & _).
  exists item, st'. split; [reflexivity |]. split; [exact Hgt |].
  apply Hnd. apply (bool_decide_unpack _). vm_compute. exact I.
Defined.

End OperationProperties.
